(** * Goals Tracker: scheduling, timer and session-log engine

    A shallow embedding of the engine of [src/src/App.tsx] (the React
    component [App]) and the properties of it that the specification states.

    Conventions of the embedding.
    - JavaScript numbers that occur here are integers (seconds, milliseconds,
      weekday and day-of-month numbers); they are modelled by [Z]. Where a
      computation can yield [NaN] (fields of an Invalid Date) the number has
      type [option Z] and [None] stands for [NaN].
    - React state cells ([items], [timers], [logs], ...) and refs
      ([lastTickRef], [lastLogRef]) are the fields of one record, [App];
      every handler is a function from [App] to [App], with the state
      updaters applied in the order the handler queues them.
    - [Date.now()] is an input of the handler that reads it.
    - The objects [timers] and [lastLogRef.current] (dictionaries keyed by
      task id) are [gmap]s.
    - [startISO] and [endISO] of a log entry are kept as time values in
      milliseconds, not as their ISO renderings.  *)

From Stdlib Require Import ZArith String Ascii List Bool Lia.
From stdpp Require Import base option list strings pretty gmap fin_maps.

Local Open Scope string_scope.
Local Open Scope Z_scope.
Local Open Scope list_scope.

(* ===================================================================== *)
(** * Data model (interfaces [Item], [LogEntry], [TimerState])            *)
(* ===================================================================== *)

(** ['goals' | 'waste'] *)
Inductive Category := goals | waste.

Global Instance Category_eq_dec : EqDecision Category.
Proof. solve_decision. Defined.

(** The selected tab of the widget: ['goals' | 'waste' | 'log']. *)
Inductive TabSel := TabTask (c : Category) | TabLog.

(** [Item['schedule']].  [stype] is the string tag the [switch] of
    [isItemScheduledForDate] inspects; persisted data can carry any string. *)
Record Schedule := mkSchedule {
  stype      : string;
  daysOfWeek : option (list Z);
  sdate      : option string;
  anchorDate : option string;
}.

Record Item := mkItem {
  iid           : string;
  itext         : string;
  completed     : bool;
  createdDate   : string;
  ielapsed      : option Z;
  link          : option string;
  schedule      : option Schedule;
}.

Record LogEntry := mkLogEntry {
  leId            : string;
  itemId          : string;
  leText          : string;
  leTab           : Category;
  startTime       : Z;   (* startISO, as a time value in ms *)
  endTime         : Z;   (* endISO, as a time value in ms *)
  durationSeconds : Z;
}.

Inductive TimerMode := countdown | stopwatch.

Record TimerState := mkTimer {
  mode             : TimerMode;
  seconds          : Z;
  remainingSeconds : option Z;
  totalSeconds     : option Z;
  elapsedSeconds   : option Z;
  targetTimeMs     : option Z;
  isRunning        : bool;
  startSeconds     : option Z;
  startRemaining   : option Z;
  timerText        : string;
  timerTab         : Category;
}.

Global Instance TimerMode_eq_dec : EqDecision TimerMode.
Proof. solve_decision. Defined.

(** [{ goals: Item[]; waste: Item[] }] and the like. *)
Record PerTab (A : Type) := mkPerTab { pgoals : A; pwaste : A }.
Arguments mkPerTab {A} _ _.
Arguments pgoals {A} _.
Arguments pwaste {A} _.

(** [obj[tab]] *)
Definition sel {A} (c : Category) (p : PerTab A) : A :=
  match c with goals => pgoals p | waste => pwaste p end.

(** [{ ...obj, [tab]: v }] *)
Definition upd {A} (c : Category) (v : A) (p : PerTab A) : PerTab A :=
  match c with
  | goals => mkPerTab v (pwaste p)
  | waste => mkPerTab (pgoals p) v
  end.

(* ===================================================================== *)
(** * JavaScript helpers                                                  *)
(* ===================================================================== *)

(** Truthiness of an optional string: [undefined] and [""] are falsy. *)
Definition truthy (s : option string) : bool :=
  match s with
  | Some s => negb (String.eqb s "")
  | None => false
  end.

(** [a === b] on numbers: [NaN] is equal to nothing. *)
Definition strict_eq (a b : option Z) : bool :=
  match a, b with
  | Some x, Some y => x =? y
  | _, _ => false
  end.

(** [arr.includes(x)] compares with SameValueZero, under which [NaN]
    equals [NaN]. *)
Definition same_value_zero (a b : option Z) : bool :=
  match a, b with
  | Some x, Some y => x =? y
  | None, None => true
  | _, _ => false
  end.

Definition includes (arr : list (option Z)) (x : option Z) : bool :=
  existsb (same_value_zero x) arr.

(** [Math.floor(a / b)] for an integer [a] and a positive integer [b]. *)
Definition floor_div (a : option Z) (b : Z) : option Z :=
  match a with Some x => Some (x / b) | None => None end.

(** [a % b === 0]; the remainder of JavaScript truncates toward zero. *)
Definition rem_is_zero (a : option Z) (b : Z) : bool :=
  match a with Some x => Z.rem x b =? 0 | None => false end.

(** [a >= 0] *)
Definition ge_zero (a : option Z) : bool :=
  match a with Some x => 0 <=? x | None => false end.

(** [Math.ceil(ms / 1000)] and [Math.round(ms / 1000)] on an integer. *)
Definition ceil_div1000 (ms : Z) : Z := - ((- ms) / 1000).
Definition round_div1000 (ms : Z) : Z := (ms + 500) / 1000.

(** [parseInt(s, 10)]: leading blanks, an optional sign, then the longest
    run of decimal digits; [NaN] when there is none. *)
Fixpoint digits_prefix (s : string) (acc : option Z) : option Z :=
  match s with
  | String c r =>
      match Ascii.is_nat c with
      | Some d => digits_prefix r (Some (10 * default 0 acc + Z.of_nat d))
      | None => acc
      end
  | EmptyString => acc
  end.

Fixpoint skip_blanks (s : string) : string :=
  match s with
  | String c r => if Ascii.is_space c then skip_blanks r else s
  | EmptyString => s
  end.

Definition parseInt (s : string) : option Z :=
  match skip_blanks s with
  | String "-" r => Z.opp <$> digits_prefix r None
  | String "+" r => digits_prefix r None
  | r => digits_prefix r None
  end.

(* ===================================================================== *)
(** * The host's [Date]                                                   *)
(* ===================================================================== *)

(** A [Date] object is its time value in milliseconds, [None] for an
    Invalid Date.  The calendar operations depend on the host (time zone,
    accepted string formats); the engine is parametric in them. *)
Definition JSDate := option Z.

Class DateHost := {
  (** [new Date(s).getTime()] *)
  date_parse : string -> JSDate;
  (** [getFullYear()], [getMonth()], [getDate()], [getDay()] of a valid date,
      in local time *)
  local_year  : Z -> Z;
  local_month : Z -> Z;
  local_date  : Z -> Z;
  local_day   : Z -> Z;
  (** [new Date(year, month, day)] *)
  make_local : Z -> Z -> Z -> JSDate;
  (** [toISOString().slice(0, 10)] of a valid date *)
  iso_date : Z -> string;
  (** [d.setHours(h, m, 0, 0)] and [d.setDate(d.getDate() + 1)], as the new
      time value *)
  set_hours : Z -> Z -> Z -> Z;
  next_date : Z -> Z;
}.

Definition getTime (d : JSDate) : option Z := d.

Definition getDay `{DateHost} (d : JSDate) : option Z := local_day <$> d.
Definition getDate `{DateHost} (d : JSDate) : option Z := local_date <$> d.

(** ** A concrete host: the UTC time zone, ISO calendar dates *)

Definition msPerDay : Z := 1000 * 60 * 60 * 24.

Definition days_from_civil (y m d : Z) : Z :=
  let y' := if m <=? 2 then y - 1 else y in
  let era := y' / 400 in
  let yoe := y' - era * 400 in
  let doy := (153 * (if 2 <? m then m - 3 else m + 9) + 2) / 5 + d - 1 in
  let doe := yoe * 365 + yoe / 4 - yoe / 100 + doy in
  era * 146097 + doe - 719468.

Definition civil_from_days (z : Z) : Z * Z * Z :=
  let z' := z + 719468 in
  let era := z' / 146097 in
  let doe := z' - era * 146097 in
  let yoe := (doe - doe / 1460 + doe / 36524 - doe / 146096) / 365 in
  let doy := doe - (365 * yoe + yoe / 4 - yoe / 100) in
  let mp := (5 * doy + 2) / 153 in
  let d := doy - (153 * mp + 2) / 5 + 1 in
  let m := if mp <? 10 then mp + 3 else mp - 9 in
  (yoe + era * 400 + (if m <=? 2 then 1 else 0), m, d).

Definition utc_fields (t : Z) : Z * Z * Z := civil_from_days (t / msPerDay).

Definition utc_make (y m d : Z) : JSDate :=
  let y := if (0 <=? y) && (y <=? 99) then 1900 + y else y in
  Some ((days_from_civil (y + m / 12) (m mod 12 + 1) 1 + d - 1) * msPerDay).

Definition pad (width : nat) (n : Z) : string :=
  let s := pretty n in
  String.concat "" (replicate (width - String.length s) "0") +:+ s.

Definition utc_iso_date (t : Z) : string :=
  let '(y, m, d) := utc_fields t in
  pad 4 y +:+ "-" +:+ pad 2 m +:+ "-" +:+ pad 2 d.

Definition all_digits (s : string) : bool :=
  forallb (fun c => bool_decide (is_Some (Ascii.is_nat c))) (list_ascii_of_string s).

Definition utc_parse (s : string) : JSDate :=
  let y := substring 0 4 s in
  let m := substring 5 2 s in
  let d := substring 8 2 s in
  if (String.length s =? 10)%nat
     && String.eqb (substring 4 1 s) "-" && String.eqb (substring 7 1 s) "-"
     && all_digits y && all_digits m && all_digits d
  then
    match digits_prefix y None, digits_prefix m None, digits_prefix d None with
    | Some y, Some m, Some d =>
        if (1 <=? m) && (m <=? 12) && (1 <=? d) && (d <=? 31)
        then Some (days_from_civil y m d * msPerDay)
        else None
    | _, _, _ => None
    end
  else None.

Definition utcHost : DateHost := {|
  date_parse := utc_parse;
  local_year t := (utc_fields t).1.1;
  local_month t := (utc_fields t).1.2 - 1;
  local_date t := (utc_fields t).2;
  local_day t := (t / msPerDay + 4) mod 7;
  make_local := utc_make;
  iso_date := utc_iso_date;
  set_hours t h m := (t / msPerDay) * msPerDay + h * 3600000 + m * 60000;
  next_date t := t + msPerDay;
|}.

(* ===================================================================== *)
(** * Recurrence evaluator                                                *)
(* ===================================================================== *)

Section Recurrence.
Context `{DateHost}.

(** [getDateOnly]: local midnight of the date. *)
Definition getDateOnly (date : JSDate) : JSDate :=
  match date with
  | Some t => make_local (local_year t) (local_month t) (local_date t)
  | None => None
  end.

(** Outcome of a call that can raise: [toISOString] throws a [RangeError]
    on an Invalid Date. *)
Inductive Outcome (A : Type) := Returns (a : A) | Throws.
Arguments Returns {A} _.
Arguments Throws {A}.

Definition toISODate (date : JSDate) : Outcome string :=
  match date with
  | Some t => Returns (iso_date t)
  | None => Throws
  end.

(** [getAnchorDate]; [now] is the value of [new Date()]. *)
Definition getAnchorDate (now : Z) (item : Item) : JSDate :=
  let anchor := schedule item ≫= anchorDate in
  if truthy anchor then date_parse (default "" anchor)
  else
    let parsed := date_parse (createdDate item) in
    if bool_decide (is_Some (getTime parsed)) then getDateOnly parsed
    else getDateOnly (Some now).

(** [isItemScheduledForDate]. *)
Definition isItemScheduledForDate (now : Z) (item : Item) (date : JSDate)
  : Outcome bool :=
  match schedule item with
  | None => Returns true
  | Some sch =>
    let today := getDateOnly date in
    let anchor := getDateOnly (getAnchorDate now item) in
    let diffDays :=
      match getTime today, getTime anchor with
      | Some t, Some a => Some ((t - a) / msPerDay)
      | _, _ => None
      end in
    let weekday := getDay today in
    let ty := stype sch in
    if String.eqb ty "daily" then Returns true
    else if String.eqb ty "weekdays" then
      Returns (match weekday with
               | Some w => (1 <=? w) && (w <=? 5)
               | None => false
               end)
    else if String.eqb ty "weekends" then
      Returns (strict_eq weekday (Some 0) || strict_eq weekday (Some 6))
    else if String.eqb ty "custom-days" then
      Returns (match daysOfWeek sch with
               | Some days => includes (Some <$> days) weekday
               | None => true
               end)
    else if String.eqb ty "every-other-day" then
      Returns (rem_is_zero diffDays 2)
    else if String.eqb ty "every-3-days" then
      Returns (rem_is_zero diffDays 3)
    else if String.eqb ty "weekly" then
      let days := match daysOfWeek sch with
                  | Some days => Some <$> days
                  | None => [getDay anchor]
                  end in
      let weeks := floor_div diffDays 7 in
      Returns (ge_zero weeks && includes days weekday)
    else if String.eqb ty "biweekly" then
      let days := match daysOfWeek sch with
                  | Some days => Some <$> days
                  | None => [getDay anchor]
                  end in
      let weeks := floor_div diffDays 7 in
      Returns (ge_zero weeks && rem_is_zero weeks 2 && includes days weekday)
    else if String.eqb ty "monthly" then
      let targetDate :=
        if truthy (sdate sch) then date_parse (default "" (sdate sch))
        else anchor in
      Returns (strict_eq (getDate today) (getDate targetDate))
    else if String.eqb ty "specific-date" then
      if truthy (sdate sch) then
        match toISODate today with
        | Returns s => Returns (String.eqb (default "" (sdate sch)) s)
        | Throws => Throws
        end
      else Returns false
    else Returns true
  end.

End Recurrence.

Arguments Returns {A} _.
Arguments Throws {A}.

(* ===================================================================== *)
(** * Application state                                                   *)
(* ===================================================================== *)

Inductive PopupMode := PopDuration | PopTarget | PopStopwatch.
Inductive Period := AM | PM.

(** The state cells and refs of the component that the engine reads or
    writes. [lastLog] maps a task id to the [{ time, duration }] of the last
    entry [appendLogEntry] let through. *)
Record App := mkApp {
  tab               : TabSel;
  items             : PerTab (list Item);
  timers            : gmap string TimerState;
  logs              : list LogEntry;
  taskHistory       : PerTab (list string);
  lastTick          : Z;
  lastLog           : gmap string (Z * Z);
  timerPopupItemId  : option string;
  timerPopupMode    : PopupMode;
  timerPopupMinutes : Z;
  timerPopupHour    : string;
  timerPopupMinute  : string;
  timerPopupPeriod  : Period;
}.

Definition setItems (v : PerTab (list Item)) (s : App) : App :=
  mkApp (tab s) v (timers s) (logs s) (taskHistory s) (lastTick s) (lastLog s)
        (timerPopupItemId s) (timerPopupMode s) (timerPopupMinutes s)
        (timerPopupHour s) (timerPopupMinute s) (timerPopupPeriod s).

Definition setTimers (v : gmap string TimerState) (s : App) : App :=
  mkApp (tab s) (items s) v (logs s) (taskHistory s) (lastTick s) (lastLog s)
        (timerPopupItemId s) (timerPopupMode s) (timerPopupMinutes s)
        (timerPopupHour s) (timerPopupMinute s) (timerPopupPeriod s).

Definition setLogs (v : list LogEntry) (s : App) : App :=
  mkApp (tab s) (items s) (timers s) v (taskHistory s) (lastTick s) (lastLog s)
        (timerPopupItemId s) (timerPopupMode s) (timerPopupMinutes s)
        (timerPopupHour s) (timerPopupMinute s) (timerPopupPeriod s).

Definition setLastTick (v : Z) (s : App) : App :=
  mkApp (tab s) (items s) (timers s) (logs s) (taskHistory s) v (lastLog s)
        (timerPopupItemId s) (timerPopupMode s) (timerPopupMinutes s)
        (timerPopupHour s) (timerPopupMinute s) (timerPopupPeriod s).

Definition setLastLog (v : gmap string (Z * Z)) (s : App) : App :=
  mkApp (tab s) (items s) (timers s) (logs s) (taskHistory s) (lastTick s) v
        (timerPopupItemId s) (timerPopupMode s) (timerPopupMinutes s)
        (timerPopupHour s) (timerPopupMinute s) (timerPopupPeriod s).

Definition setTimerPopupItemId (v : option string) (s : App) : App :=
  mkApp (tab s) (items s) (timers s) (logs s) (taskHistory s) (lastTick s)
        (lastLog s) v (timerPopupMode s) (timerPopupMinutes s)
        (timerPopupHour s) (timerPopupMinute s) (timerPopupPeriod s).

(** [list.find(i => i.id === id)] and [list.findIndex(...)] *)
Definition findById (id : string) (l : list Item) : option Item :=
  snd <$> list_find (fun i => iid i = id) l.

Definition findIndexById (id : string) (l : list Item) : option nat :=
  fst <$> list_find (fun i => iid i = id) l.

(** [arr.splice(i, 0, x)] *)
Definition splice_in {A} (i : nat) (x : A) (l : list A) : list A :=
  take i l ++ x :: drop i l.

(* ===================================================================== *)
(** * Session log builder                                                 *)
(* ===================================================================== *)

(** [appendLogEntry]; [now] is its reading of [Date.now()]. *)
Definition appendLogEntry (now : Z) (entry : LogEntry) (s : App) : App :=
  let append :=
    setLogs (logs s ++ [entry])
      (setLastLog (<[itemId entry := (now, durationSeconds entry)]> (lastLog s)) s) in
  match lastLog s !! itemId entry with
  | Some (time, duration) =>
      if (now - time <? 1500) && (duration =? durationSeconds entry)
      then s
      else append
  | None => append
  end.

(** The template literal [`${endTime}-${id}`]. *)
Definition entryId (endTime : Z) (id : string) : string :=
  pretty endTime +:+ "-" +:+ id.

(** [buildLogEntry]; [now] is its reading of [Date.now()]. *)
Definition buildLogEntry (now : Z) (item : Item) (durationSeconds : Z)
    (entryTab : Category) : LogEntry :=
  let endTime := now in
  let startTime := endTime - durationSeconds * 1000 in
  {| leId := entryId endTime (iid item);
     itemId := iid item;
     leText := itext item;
     leTab := entryTab;
     startTime := startTime;
     endTime := endTime;
     durationSeconds := durationSeconds |}.

(** [buildLogEntryFromFields] *)
Definition buildLogEntryFromFields (now : Z) (itemId itemText : string)
    (entryTab : Category) (durationSeconds : Z) : LogEntry :=
  let endTime := now in
  let startTime := endTime - durationSeconds * 1000 in
  {| leId := entryId endTime itemId;
     itemId := itemId;
     leText := itemText;
     leTab := entryTab;
     startTime := startTime;
     endTime := endTime;
     durationSeconds := durationSeconds |}.

(** [getTimerDuration]; [null] is [None]. *)
Definition getTimerDuration (timer : option TimerState) : option Z :=
  match timer with
  | None => None
  | Some t =>
      match mode t with
      | countdown => Some (default 0 (elapsedSeconds t))
      | stopwatch => Some (seconds t)
      end
  end.

(* ===================================================================== *)
(** * Timer engine                                                        *)
(* ===================================================================== *)

(** The body of the [forEach] of the interval callback, for one timer: the
    timer after the tick and the log entry pushed to [logsToAdd], if any.
    [now] is the reading of [Date.now()] in [buildLogEntryFromFields]. *)
Definition tickTimer (now : Z) (id : string) (timer : TimerState)
  : TimerState * option LogEntry :=
  if negb (isRunning timer) then (timer, None)
  else
    match mode timer with
    | countdown =>
        let remaining := Z.max 0 (default 0 (remainingSeconds timer) - 1) in
        let elapsed := default 0 (elapsedSeconds timer) + 1 in
        if remaining =? 0 then
          (mkTimer countdown (seconds timer) (Some remaining)
             (totalSeconds timer) (Some elapsed) (targetTimeMs timer) false
             (startSeconds timer) None (timerText timer) (timerTab timer),
           if 0 <? elapsed
           then Some (buildLogEntryFromFields now id (timerText timer)
                        (timerTab timer) elapsed)
           else None)
        else
          (mkTimer countdown (seconds timer) (Some remaining)
             (totalSeconds timer) (Some elapsed) (targetTimeMs timer)
             (isRunning timer) (startSeconds timer) (startRemaining timer)
             (timerText timer) (timerTab timer),
           None)
    | stopwatch =>
        (mkTimer stopwatch (seconds timer + 1) (remainingSeconds timer)
           (totalSeconds timer) (elapsedSeconds timer) (targetTimeMs timer)
           (isRunning timer) (startSeconds timer) (startRemaining timer)
           (timerText timer) (timerTab timer),
         None)
    end.

(** [logsToAdd] after the [forEach] over [Object.keys(updated)]; [logNow id]
    is the reading of [Date.now()] when the entry of timer [id] is built.
    JavaScript visits the keys in insertion order, the model in the order of
    [map_to_list]: the entries that one tick pushes for different timers can
    come in another order than in the program. Nothing else depends on the
    order, since each timer is updated on its own. *)
Definition tickLogs (logNow : string -> Z) (m : gmap string TimerState)
  : list LogEntry :=
  omap (fun kt => (tickTimer (logNow kt.1) kt.1 kt.2).2) (map_to_list m).

(** The interval callback. [now] is the reading of [Date.now()] that gives
    [nowSec]. The callback updates the timer objects in place; the objects
    are reachable only through [timers], so the update is the map of
    [tickTimer] over it. *)
Definition tick (now : Z) (logNow : string -> Z) (s : App) : App :=
  let nowSec := now / 1000 in
  if nowSec =? lastTick s then s
  else
    let s1 := setLastTick nowSec s in
    let updated := map_imap (fun id t => Some (tickTimer (logNow id) id t).1) (timers s) in
    let logsToAdd := tickLogs logNow (timers s) in
    let s2 := setTimers updated s1 in
    if (0 <? Z.of_nat (length logsToAdd)) then setLogs (logs s2 ++ logsToAdd) s2
    else s2.

(** [pauseResumeTimer]; [now1] and [now2] are the two readings of
    [Date.now()] of the resume branch, in evaluation order. *)
Definition pauseResumeTimer (now1 now2 : Z) (id : string) (s : App) : App :=
  match tab s with
  | TabLog => s
  | TabTask _ =>
    match timers s !! id with
    | None => s
    | Some current =>
      if isRunning current then
        setTimers (<[id :=
          mkTimer (mode current) (seconds current) (remainingSeconds current)
            (totalSeconds current) (elapsedSeconds current)
            (targetTimeMs current) false None None
            (timerText current) (timerTab current)]> (timers s)) s
      else
        let deadline :=
          match mode current, targetTimeMs current with
          | countdown, Some target => Some target
          | _, _ => None
          end in
        setTimers (<[id :=
          mkTimer (mode current) (seconds current)
            (match deadline with
             | Some target => Some (Z.max 0 (ceil_div1000 (target - now2)))
             | None => remainingSeconds current
             end)
            (totalSeconds current) (elapsedSeconds current)
            (targetTimeMs current)
            (match deadline with
             | Some target => 0 <? Z.max 0 (ceil_div1000 (target - now1))
             | None => true
             end)
            (match mode current with
             | stopwatch => Some (seconds current)
             | countdown => None
             end)
            (match mode current with
             | countdown => remainingSeconds current
             | stopwatch => None
             end)
            (timerText current) (timerTab current)]> (timers s)) s
    end
  end.

Definition clampMinutes (value : Z) : Z := Z.min (24 * 60) (Z.max 1 value).

Definition closeTimerPopup (s : App) : App := setTimerPopupItemId None s.

(** [applyTimer]; [now] is the time value of [new Date()]. *)
Definition applyTimer `{DateHost} (now : Z) (s : App) : App :=
  match tab s with
  | TabLog => s
  | TabTask c =>
    if negb (truthy (timerPopupItemId s)) then s
    else
      match findById (default "" (timerPopupItemId s)) (sel c (items s)) with
      | None => s
      | Some item =>
        if completed item then s
        else
          match timerPopupMode s with
          | PopDuration =>
              let durationSeconds := clampMinutes (timerPopupMinutes s) * 60 in
              closeTimerPopup
                (setTimers (<[iid item :=
                   mkTimer countdown 0 (Some durationSeconds)
                     (Some durationSeconds) (Some 0) None true None
                     (Some durationSeconds) (itext item) c]> (timers s)) s)
          | PopTarget =>
              let hour :=
                match parseInt (timerPopupHour s) with
                | None => 12
                | Some rawHour => Z.min 12 (Z.max 1 rawHour)
                end in
              let minute :=
                match parseInt (timerPopupMinute s) with
                | None => 0
                | Some rawMinute => Z.min 59 (Z.max 0 rawMinute)
                end in
              let hour24 :=
                match timerPopupPeriod s with
                | PM => Z.rem hour 12 + 12
                | AM => Z.rem hour 12
                end in
              let target := set_hours now hour24 minute in
              let target := if target <=? now then next_date target else target in
              let durationSeconds := Z.max 60 (round_div1000 (target - now)) in
              let targetTimeMs := target in
              closeTimerPopup
                (setTimers (<[iid item :=
                   mkTimer countdown 0 (Some durationSeconds)
                     (Some durationSeconds) (Some 0) (Some targetTimeMs) true
                     None (Some durationSeconds) (itext item) c]> (timers s)) s)
          | PopStopwatch =>
              closeTimerPopup
                (setTimers (<[iid item :=
                   mkTimer stopwatch 0 None None None None true (Some 0) None
                     (itext item) c]> (timers s)) s)
          end
      end
  end.

(* ===================================================================== *)
(** * Task store                                                          *)
(* ===================================================================== *)

(** The item with [completed] flipped and the timer's seconds recorded:
    [{ ...item, completed: !item.completed,
       elapsedSeconds: timerSeconds ?? item.elapsedSeconds }]. *)
Definition toggleItem (timerSeconds : option Z) (item : Item) : Item :=
  mkItem (iid item) (itext item) (negb (completed item)) (createdDate item)
    (match timerSeconds with
     | Some x => Some x
     | None => ielapsed item
     end)
    (link item) (schedule item).

(** [completeTask]; [tBuild] and [tAppend] are the readings of [Date.now()]
    in [buildLogEntry] and in [appendLogEntry]. *)
Definition completeTask (tBuild tAppend : Z) (id : string) (s : App) : App :=
  match tab s with
  | TabLog => s
  | TabTask c =>
    let timer := timers s !! id in
    let item := findById id (sel c (items s)) in
    let entryTab := match timer with Some t => timerTab t | None => c end in
    let s1 :=
      match item with
      | Some item =>
          if negb (completed item) then
            match getTimerDuration timer with
            | Some duration =>
                if 0 <? duration
                then appendLogEntry tAppend (buildLogEntry tBuild item duration entryTab) s
                else appendLogEntry tAppend (buildLogEntry tBuild item 0 entryTab) s
            | None => appendLogEntry tAppend (buildLogEntry tBuild item 0 entryTab) s
            end
          else s
      | None => s
      end in
    let timerSeconds :=
      match timer with
      | Some t =>
          match mode t with
          | countdown => elapsedSeconds t
          | stopwatch => Some (seconds t)
          end
      | None => None
      end in
    let updatedList :=
      map (fun item => if decide (iid item = id)
                       then toggleItem timerSeconds item else item)
          (sel c (items s)) in
    let toggledItem := findById id updatedList in
    let rest := filter (fun entry => iid entry ≠ id) updatedList in
    let incomplete := filter (fun entry => completed entry = false) rest in
    let completed_ := filter (fun entry => completed entry = true) rest in
    let '(incomplete, completed_) :=
      match toggledItem with
      | Some t =>
          if completed t then (incomplete, completed_ ++ [t])
          else (incomplete ++ [t], completed_)
      | None => (incomplete, completed_)
      end in
    let newItems := upd c (incomplete ++ completed_) (items s) in
    setTimers (delete id (timers s1)) (setItems newItems s1)
  end.

(** [toggleComplete]: both branches of the test on [item.completed] call
    [completeTask]. *)
Definition toggleComplete (tBuild tAppend : Z) (id : string) (s : App) : App :=
  match tab s with
  | TabLog => s
  | TabTask c =>
    match findById id (sel c (items s)) with
    | None => s
    | Some item =>
        if completed item then completeTask tBuild tAppend id s
        else completeTask tBuild tAppend id s
    end
  end.

(** The updater of [reorderItems], on the list of the active tab; [None]
    for the paths that [return prev]. *)
Definition reorderList (sourceId targetId : string) (items_ : list Item)
  : option (list Item) :=
  let source := findById sourceId items_ in
  let target := findById targetId items_ in
  match source with
  | None => None
  | Some source =>
    if completed source then None
    else
      let incomplete :=
        filter (fun item => completed item = false ∧ iid item ≠ sourceId) items_ in
      let completed_ := filter (fun item => completed item = true) items_ in
      let to_end := Some ((incomplete ++ [source]) ++ completed_) in
      match target with
      | None => to_end
      | Some target =>
        if completed target then to_end
        else
          match findIndexById targetId incomplete with
          | None => None
          | Some toIndex => Some (splice_in toIndex source incomplete ++ completed_)
          end
      end
  end.

(** [reorderItems] *)
Definition reorderItems (activeTab : Category) (sourceId targetId : string)
    (s : App) : App :=
  if decide (sourceId = targetId) then s
  else
    match reorderList sourceId targetId (sel activeTab (items s)) with
    | None => s
    | Some l => setItems (upd activeTab l (items s)) s
    end.

(* ===================================================================== *)
(** * Loading the persisted state                                         *)
(* ===================================================================== *)

(** What [localStorage.getItem('goalsTrackerData')] and [JSON.parse] yield:
    nothing stored; a value on which the [try] block throws (unparseable
    text, no [goals] or [waste] array); or the stored items (from
    [data.items ?? data]) with [data.logs] when it is an array and
    [data.taskHistory] when both its lists are arrays. *)
Inductive Stored :=
| NoData
| Malformed
| Data (storedItems : PerTab (list Item))
       (storedLogs : option (list LogEntry))
       (storedHistory : option (PerTab (list string))).

Record Loaded := mkLoaded {
  ldItems   : PerTab (list Item);
  ldLogs    : list LogEntry;
  ldHistory : PerTab (list string);
}.

Definition emptyState : Loaded :=
  mkLoaded (mkPerTab [] []) [] (mkPerTab [] []).

(** [[...new Set(l)]]: the first occurrence of each string, in order. *)
Fixpoint setOrder (seen l : list string) : list string :=
  match l with
  | [] => []
  | x :: r =>
      if decide (x ∈ seen) then setOrder seen r
      else x :: setOrder (x :: seen) r
  end.

Definition derivedHistoryOf (c : Category) (storedItems : list Item)
    (storedLogs : list LogEntry) : list string :=
  setOrder []
    (map itext storedItems
     ++ map leText (filter (fun entry => leTab entry = c) storedLogs)).

Definition clearCompleted (item : Item) : Item :=
  mkItem (iid item) (itext item) false (createdDate item) (ielapsed item)
    (link item) (schedule item).

(** [loadStoredState]. [lastReset] is the stored ['lastResetDate'] and
    [today] is [new Date().toDateString()]; the result is the returned
    state and the value of ['lastResetDate'] afterwards. *)
Definition loadStoredState (stored : Stored) (lastReset : option string)
    (today : string) : Loaded * option string :=
  match stored with
  | NoData => (emptyState, Some today)
  | Malformed => (emptyState, lastReset)
  | Data storedItems logs history =>
      let storedLogs := default [] logs in
      let derivedHistory :=
        mkPerTab (derivedHistoryOf goals (pgoals storedItems) storedLogs)
                 (derivedHistoryOf waste (pwaste storedItems) storedLogs) in
      let taskHistory := default derivedHistory history in
      if decide (lastReset ≠ Some today) then
        let resetItems :=
          mkPerTab (map clearCompleted (pgoals storedItems))
                   (map clearCompleted (pwaste storedItems)) in
        (mkLoaded resetItems storedLogs taskHistory, Some today)
      else (mkLoaded storedItems storedLogs taskHistory, lastReset)
  end.

(* ===================================================================== *)
(** * Runs of the engine and the predicates of the specification          *)
(* ===================================================================== *)

(** A run of the interval callback: each element is the pair of readings
    of [Date.now()] of one invocation. *)
Definition ticks (evs : list (Z * (string -> Z))) (s : App) : App :=
  foldl (fun s ev => tick ev.1 ev.2 s) s evs.

(** The observed seconds of a run differ from one invocation to the next,
    starting from the second stored in [lastTickRef]. *)
Fixpoint distinct_seconds (last : Z) (nows : list Z) : bool :=
  match nows with
  | [] => true
  | now :: rest => negb (now / 1000 =? last) && distinct_seconds (now / 1000) rest
  end.

(** Every incomplete item of the list precedes every completed one. *)
Definition partitioned (l : list Item) : Prop :=
  ∀ i j x y, l !! i = Some x → l !! j = Some y →
    completed x = false → completed y = true → (i < j)%nat.

(** The ten schedule types the [switch] has a [case] for. *)
Definition knownTypes : list string :=
  ["daily"; "weekdays"; "weekends"; "custom-days"; "every-other-day";
   "every-3-days"; "weekly"; "biweekly"; "monthly"; "specific-date"]%string.

(** The entry's id is the template literal over its own end time and task
    id, and the end time is a time value of the present era. *)
Definition wfEntry (e : LogEntry) : Prop :=
  leId e = entryId (endTime e) (itemId e) ∧ 0 <= endTime e.

(** No character of the string is a dash. *)
Fixpoint dash_free (s : string) : Prop :=
  match s with
  | EmptyString => True
  | String c r => c ≠ "-"%char ∧ dash_free r
  end.

(* ===================================================================== *)
(** * Sample states                                                       *)
(* ===================================================================== *)

(** Midnight of 1 January 2024 (a Monday), UTC, as a time value. *)
Definition jan1_2024 : Z := 1704067200000.

(** A task of the goals list, created on 1 January 2024 (UTC). *)
Definition sampleItem (sch : option Schedule) : Item :=
  mkItem "1704067200000" "Read" false "Mon Jan 01 2024" None None sch.

(** The widget on the goals tab with one task, no timers and an empty log;
    the timer popup is open on the task. *)
Definition sampleApp (mode : PopupMode) (minutes : Z) (hour minute : string)
    (period : Period) : App :=
  mkApp (TabTask goals) (mkPerTab [sampleItem None] []) ∅ [] (mkPerTab [] [])
    0 ∅ (Some "1704067200000"%string) mode minutes hour minute period.

(** [n] invocations of the interval callback, one per second after [start]. *)
Definition secondsAfter (start : Z) (n : nat) : list (Z * (string -> Z)) :=
  map (fun k => let now := start + 1000 * Z.of_nat k in (now, fun _ => now))
      (seq 1 n).

(** The state after starting, from the popup, a countdown to 00:02 at
    midnight of 1 January 2024 UTC, and pausing it at once: a paused
    countdown with a deadline and 120 seconds remaining. *)
Definition pausedDeadlineApp : App :=
  pauseResumeTimer jan1_2024 jan1_2024 "1704067200000"
    (applyTimer (H := utcHost) jan1_2024 (sampleApp PopTarget 30 "12" "02" AM)).

(** The goals list after a task was checked off and a second task was
    added: new tasks are appended to the end of the list. *)
Definition doneTask : Item :=
  mkItem "1704067200000" "Read" true "Mon Jan 01 2024" None None None.
Definition newTask : Item :=
  mkItem "1704067260000" "Walk" false "Mon Jan 01 2024" None None None.
Definition unsortedApp : App :=
  mkApp (TabTask goals) (mkPerTab [doneTask; newTask] []) ∅ [] (mkPerTab [] [])
    0 ∅ None PopDuration 30 "12" "00" AM.

(** The run of the specification's "rapid successive completions": a
    one-minute countdown runs out, which logs the task, and the task is
    checked off within the same millisecond. *)
Definition expiredThenChecked : App :=
  toggleComplete (jan1_2024 + 60000) (jan1_2024 + 60000) "1704067200000"
    (ticks (secondsAfter jan1_2024 60)
       (applyTimer (H := utcHost) jan1_2024 (sampleApp PopDuration 1 "12" "00" AM))).

(* ===================================================================== *)
(** * The rest of the component                                           *)
(* ===================================================================== *)

(** ** Host functions on text *)

(** [Date.prototype.toDateString], [String.prototype.trim] and
    [String.prototype.toLowerCase] belong to the host as well. *)
Class TextHost := {
  to_date_string : Z -> string;
  str_trim : string -> string;
  str_lower : string -> string;
}.

Definition ascii_lower (c : ascii) : ascii :=
  let n := nat_of_ascii c in
  if ((65 <=? n) && (n <=? 90))%nat then ascii_of_nat (n + 32) else c.

Fixpoint ascii_lower_string (s : string) : string :=
  match s with
  | EmptyString => EmptyString
  | String c r => String (ascii_lower c) (ascii_lower_string r)
  end.

Definition ascii_trim (s : string) : string :=
  String.rev (skip_blanks (String.rev (skip_blanks s))).

Definition utc_date_string (t : Z) : string :=
  let '(y, m, d) := utc_fields t in
  nth (Z.to_nat ((t / msPerDay + 4) mod 7))
      ["Sun"; "Mon"; "Tue"; "Wed"; "Thu"; "Fri"; "Sat"]%string ""%string
  +:+ " " +:+
  nth (Z.to_nat (m - 1))
      ["Jan"; "Feb"; "Mar"; "Apr"; "May"; "Jun"; "Jul"; "Aug"; "Sep"; "Oct";
       "Nov"; "Dec"]%string ""%string
  +:+ " " +:+ pad 2 d +:+ " " +:+ pad 4 y.

(** The text functions of a host in the UTC time zone, on ASCII text. *)
Definition utcText : TextHost := {|
  to_date_string := utc_date_string;
  str_trim := ascii_trim;
  str_lower := ascii_lower_string;
|}.

(** ** State cells outside the engine *)

(** [SkipState] *)
Record SkipState := mkSkip {
  skipDate : string;
  skipIds  : PerTab (list string);
}.

(** The log view's time filter:
    ['all' | 'today' | '7d' | '30d' | '3m' | '6m' | '1y']. *)
Inductive TimeFilter := FAll | FToday | F7d | F30d | F3m | F6m | F1y.

(** The component: the engine's cells and those of the add dialog, the
    skip list and the log filters. *)
Record Widget := mkWidget {
  app             : App;
  skipState       : SkipState;
  input           : string;
  linkInput       : string;
  showAddModal    : bool;
  showLinkInput   : bool;
  showSuggestions : bool;
  logTaskFilter   : string;
  logTimeFilter   : TimeFilter;
}.

Definition setApp (v : App) (w : Widget) : Widget :=
  mkWidget v (skipState w) (input w) (linkInput w) (showAddModal w)
    (showLinkInput w) (showSuggestions w) (logTaskFilter w) (logTimeFilter w).

Definition setSkipState (v : SkipState) (w : Widget) : Widget :=
  mkWidget (app w) v (input w) (linkInput w) (showAddModal w)
    (showLinkInput w) (showSuggestions w) (logTaskFilter w) (logTimeFilter w).

Definition setTaskHistory (v : PerTab (list string)) (s : App) : App :=
  mkApp (tab s) (items s) (timers s) (logs s) v (lastTick s) (lastLog s)
        (timerPopupItemId s) (timerPopupMode s) (timerPopupMinutes s)
        (timerPopupHour s) (timerPopupMinute s) (timerPopupPeriod s).

Definition setTab (v : TabSel) (s : App) : App :=
  mkApp v (items s) (timers s) (logs s) (taskHistory s) (lastTick s) (lastLog s)
        (timerPopupItemId s) (timerPopupMode s) (timerPopupMinutes s)
        (timerPopupHour s) (timerPopupMinute s) (timerPopupPeriod s).

(** The setters of the timer popup's cells, applied together. *)
Definition setTimerPopup (id : option string) (m : PopupMode) (minutes : Z)
    (hour minute : string) (p : Period) (s : App) : App :=
  mkApp (tab s) (items s) (timers s) (logs s) (taskHistory s) (lastTick s)
        (lastLog s) id m minutes hour minute p.

(** ** The skip list *)

(** What [localStorage.getItem(SKIP_KEY)] and [JSON.parse] yield: nothing
    stored; text that does not parse, or parses to a falsy value; or an
    object with its [date] (when a string) and its [goals] and [waste]
    (when arrays). *)
Inductive StoredSkip :=
| NoSkip
| BadSkip
| SkipData (date : option string) (sgoals swaste : option (list string)).

Definition freshSkip (today : string) : SkipState :=
  mkSkip today (mkPerTab [] []).

(** [loadSkipState]; [today] is [new Date().toDateString()]. *)
Definition loadSkipState (raw : StoredSkip) (today : string) : SkipState :=
  match raw with
  | NoSkip => freshSkip today
  | BadSkip => freshSkip today
  | SkipData date sgoals swaste =>
      match date with
      | Some d =>
          if decide (d ≠ today) then freshSkip today
          else mkSkip d (mkPerTab (default [] sgoals) (default [] swaste))
      | None => freshSkip today
      end
  end.

(** [ids.add(id)] on a set kept as the list of its elements in insertion
    order. *)
Definition setAdd (id : string) (ids : list string) : list string :=
  if decide (id ∈ ids) then ids else ids ++ [id].

(** [deleteItem]; [todayStr] is [new Date().toDateString()]. *)
Definition deleteItem (todayStr : string) (id : string) (w : Widget) : Widget :=
  match tab (app w) with
  | TabLog => w
  | TabTask c =>
      let prev := skipState w in
      let base := if decide (skipDate prev = todayStr) then prev
                  else freshSkip todayStr in
      let ids := setAdd id (setOrder [] (sel c (skipIds base))) in
      setApp (setTimers (delete id (timers (app w))) (app w))
        (setSkipState (mkSkip (skipDate base) (upd c ids (skipIds base))) w)
  end.

(** [isSkippedToday] *)
Definition isSkippedToday (todayStr : string) (skip : SkipState) (id : string)
    (activeTab : Category) : bool :=
  bool_decide (skipDate skip = todayStr)
  && bool_decide (id ∈ sel activeTab (skipIds skip)).

(** [arr.filter(p)] for a predicate that can raise. *)
Fixpoint filterOutcome {A} (p : A -> Outcome bool) (l : list A)
  : Outcome (list A) :=
  match l with
  | [] => Returns []
  | x :: r =>
      match p x with
      | Throws => Throws
      | Returns b =>
          match filterOutcome p r with
          | Throws => Throws
          | Returns r' => Returns (if b then x :: r' else r')
          end
      end
  end.

(** [currentItems]: the tasks shown on the current tab. [today] is the time
    value of the render's [new Date()] and [now] the one read by
    [getAnchorDate]. *)
Definition currentItems `{DateHost} `{TextHost} (today now : Z) (w : Widget)
  : Outcome (list Item) :=
  match tab (app w) with
  | TabLog => Returns []
  | TabTask c =>
      filterOutcome
        (fun item =>
           match isItemScheduledForDate now item (Some today) with
           | Returns true =>
               Returns (negb (isSkippedToday (to_date_string today)
                                (skipState w) (iid item) c))
           | other => other
           end)
        (sel c (items (app w)))
  end.

(** ** Adding and deleting tasks and log entries *)

(** [addItem]; the three time values are those of [Date.now()] and of the
    two [new Date()], in evaluation order. *)
Definition addItem `{DateHost} `{TextHost} (nowId nowCreated nowAnchor : Z)
    (w : Widget) : Widget :=
  if String.eqb (str_trim (input w)) "" then w
  else
    match tab (app w) with
    | TabLog => w
    | TabTask activeTab =>
        let s := app w in
        let normalizedText := str_trim (input w) in
        let newItem :=
          mkItem (pretty nowId) normalizedText false (to_date_string nowCreated)
            None
            (if String.eqb (str_trim (linkInput w)) "" then None
             else Some (str_trim (linkInput w)))
            (Some (mkSchedule "daily" None None (Some (iso_date nowAnchor)))) in
        let newItems := upd activeTab (sel activeTab (items s) ++ [newItem]) (items s) in
        let prev := taskHistory s in
        let existing := map str_lower (sel activeTab prev) in
        let history :=
          if decide (str_lower normalizedText ∈ existing) then prev
          else upd activeTab (normalizedText :: sel activeTab prev) prev in
        mkWidget (setTaskHistory history (setItems newItems s)) (skipState w)
          "" "" false false false (logTaskFilter w) (logTimeFilter w)
    end.

(** [deleteTaskPermanently] *)
Definition deleteTaskPermanently `{TextHost} (tabName : Category)
    (id text : string) (s : App) : App :=
  setTaskHistory
    (upd tabName
       (filter (fun entry => str_lower entry ≠ str_lower text)
          (sel tabName (taskHistory s)))
       (taskHistory s))
    (setLogs (filter (fun entry => itemId entry ≠ id) (logs s))
       (setItems
          (upd tabName (filter (fun item => iid item ≠ id) (sel tabName (items s)))
             (items s))
          s)).

(** [deleteLogEntry] *)
Definition deleteLogEntry (id : string) (s : App) : App :=
  setLogs (filter (fun entry => leId entry ≠ id) (logs s)) s.

(** ** The filtered log and its totals *)

(** [date >= cutoff] on two dates, the first one valid. *)
Definition date_ge (t : Z) (cutoff : JSDate) : bool :=
  match cutoff with
  | Some c => c <=? t
  | None => false
  end.

(** [filteredLogs]; [now] is the time value of [new Date()]. *)
Definition filteredLogs `{DateHost} (now : Z) (taskFilter : string)
    (timeFilter : TimeFilter) (entries : list LogEntry) : list LogEntry :=
  let result :=
    if String.eqb taskFilter "all" then entries
    else if String.eqb taskFilter "goals"
    then filter (fun entry => leTab entry = goals) entries
    else if String.eqb taskFilter "waste"
    then filter (fun entry => leTab entry = waste) entries
    else filter (fun entry => itemId entry = taskFilter) entries in
  match timeFilter with
  | FAll => result
  | _ =>
      let cutoff :=
        match timeFilter with
        | FToday => make_local (local_year now) (local_month now) (local_date now)
        | F7d => Some (now - 7 * 24 * 60 * 60 * 1000)
        | F30d => Some (now - 30 * 24 * 60 * 60 * 1000)
        | F3m => make_local (local_year now) (local_month now - 3) (local_date now)
        | F6m => make_local (local_year now) (local_month now - 6) (local_date now)
        | F1y => make_local (local_year now - 1) (local_month now) (local_date now)
        | FAll => Some 0
        end in
      filter (fun entry => date_ge (endTime entry) cutoff = true) result
  end.

(** The totals of [logSummary]: [totalSeconds] and [completedCount]. *)
Definition sumDurations (entries : list LogEntry) : Z :=
  foldl (fun sum entry => sum + durationSeconds entry) 0 entries.

(** ** Formatting of durations *)

(** [s.padStart(width, '0')] *)
Definition padStart (width : nat) (s : string) : string :=
  String.concat "" (replicate (width - String.length s) "0"%string) +:+ s.

(** [formatTime], on whole seconds *)
Definition formatTime (seconds : Z) : string :=
  let mins := seconds / 60 in
  let secs := Z.rem seconds 60 in
  pretty mins +:+ ":" +:+ padStart 2 (pretty secs).

(** [formatDuration], on whole seconds *)
Definition formatDuration (seconds : Z) : string :=
  let hrs := seconds / 3600 in
  let mins := Z.rem seconds 3600 / 60 in
  let secs := Z.rem seconds 60 in
  if 0 <? hrs
  then pretty hrs +:+ ":" +:+ padStart 2 (pretty mins) +:+ ":"
       +:+ padStart 2 (pretty secs)
  else pretty mins +:+ ":" +:+ padStart 2 (pretty secs).

(** ** Runs of the component *)

(** The commands the component reacts to, with the clock readings of their
    handlers. [EvPopup] stands for the setters of the timer popup's cells
    and [EvInput] for those of the add dialog's text fields. *)
Inductive Event :=
| EvSetTab (t : TabSel)
| EvPopup (id : option string) (m : PopupMode) (minutes : Z)
          (hour minute : string) (p : Period)
| EvInput (text linkText : string)
| EvApplyTimer (now : Z)
| EvTick (now : Z) (logNow : string -> Z)
| EvPauseResume (now1 now2 : Z) (id : string)
| EvToggle (tBuild tAppend : Z) (id : string)
| EvReorder (activeTab : Category) (sourceId targetId : string)
| EvAddItem (nowId nowCreated nowAnchor : Z)
| EvDeleteItem (todayStr id : string)
| EvDeleteTask (tabName : Category) (id text : string)
| EvDeleteLog (id : string).

Definition handle `{DateHost} `{TextHost} (ev : Event) (w : Widget) : Widget :=
  match ev with
  | EvSetTab t => setApp (setTab t (app w)) w
  | EvPopup id m minutes hour minute p =>
      setApp (setTimerPopup id m minutes hour minute p (app w)) w
  | EvInput text linkText =>
      mkWidget (app w) (skipState w) text linkText (showAddModal w)
        (showLinkInput w) (showSuggestions w) (logTaskFilter w) (logTimeFilter w)
  | EvApplyTimer now => setApp (applyTimer now (app w)) w
  | EvTick now logNow => setApp (tick now logNow (app w)) w
  | EvPauseResume now1 now2 id => setApp (pauseResumeTimer now1 now2 id (app w)) w
  | EvToggle tBuild tAppend id => setApp (toggleComplete tBuild tAppend id (app w)) w
  | EvReorder activeTab sourceId targetId =>
      setApp (reorderItems activeTab sourceId targetId (app w)) w
  | EvAddItem nowId nowCreated nowAnchor => addItem nowId nowCreated nowAnchor w
  | EvDeleteItem todayStr id => deleteItem todayStr id w
  | EvDeleteTask tabName id text =>
      setApp (deleteTaskPermanently tabName id text (app w)) w
  | EvDeleteLog id => setApp (deleteLogEntry id (app w)) w
  end.

Definition run `{DateHost} `{TextHost} (evs : list Event) (w : Widget) : Widget :=
  foldl (fun w ev => handle ev w) w evs.

(** The commands that delete log entries. *)
Definition deletesLogs (ev : Event) : bool :=
  match ev with
  | EvDeleteTask _ _ _ | EvDeleteLog _ => true
  | _ => false
  end.

(** ** Predicates on timers and log entries *)

(** A countdown has non-negative remaining and elapsed seconds and a total
    of at least a minute; without an absolute deadline its remaining time
    never exceeds the total, and while time remains, remaining and elapsed
    seconds add up to the total. A stopwatch has non-negative seconds. *)
Definition timer_ok (t : TimerState) : Prop :=
  match mode t with
  | countdown =>
      ∃ r e tot,
        remainingSeconds t = Some r ∧ elapsedSeconds t = Some e
        ∧ totalSeconds t = Some tot
        ∧ 0 <= r ∧ 0 <= e ∧ 60 <= tot
        ∧ (targetTimeMs t = None → r <= tot ∧ (0 < r → r + e = tot))
  | stopwatch => 0 <= seconds t
  end.

(** A log entry as the builders make it: a non-negative duration, the start
    that many seconds before the end, the id from the end and the task. *)
Definition entry_ok (e : LogEntry) : Prop :=
  0 <= durationSeconds e
  ∧ startTime e = endTime e - durationSeconds e * 1000
  ∧ leId e = entryId (endTime e) (itemId e).

(** ** More sample states *)

Definition sampleWidget (s : App) : Widget :=
  mkWidget s (freshSkip "Mon Jan 01 2024") "" "" false false false "all" FAll.

(* ===================================================================== *)
(** * Properties of the recurrence evaluator                              *)
(* ===================================================================== *)

Section RecurrenceFacts.
Context `{DateHost}.

(** C6. A task whose schedule is absent or of type ['daily'] is due on
    every date. *)
Theorem daily_or_unscheduled_always_due (now : Z) (item : Item) (date : JSDate) :
  (schedule item = None ∨
   ∃ sch, schedule item = Some sch ∧ stype sch = "daily"%string) →
  isItemScheduledForDate now item date = Returns true.
Proof.
  intros [Hnone | (sch & Hsome & Hty)]; unfold isItemScheduledForDate.
  - now rewrite Hnone.
  - rewrite Hsome, Hty. reflexivity.
Qed.

Lemma eqb_not_known (ty k : string) :
  ty ∉ knownTypes → k ∈ knownTypes → String.eqb ty k = false.
Proof.
  intros Hnot Hk. apply String.eqb_neq. intros ->. contradiction.
Qed.

(** C2, amended. A rule of an unknown type, and a custom-days rule without
    a [daysOfWeek] array, are due on every date; a specific-date rule
    without a configured date is due on no date. *)
Theorem incomplete_rule_due (now : Z) (item : Item) (sch : Schedule)
    (date : JSDate) :
  schedule item = Some sch →
  (stype sch ∉ knownTypes ∨
   (stype sch = "custom-days"%string ∧ daysOfWeek sch = None) →
   isItemScheduledForDate now item date = Returns true)
  ∧ (stype sch = "specific-date"%string ∧ truthy (sdate sch) = false →
     isItemScheduledForDate now item date = Returns false).
Proof.
  intros Hsch. unfold isItemScheduledForDate. rewrite Hsch. split.
  - intros [Hunknown | [Hty Hdays]].
    + rewrite !(eqb_not_known _ _ Hunknown); [reflexivity | ..];
        unfold knownTypes; set_solver.
    + rewrite Hty, Hdays. reflexivity.
  - intros [Hty Hdate]. rewrite Hty, Hdate. reflexivity.
Qed.

End RecurrenceFacts.

Lemma daily_or_unscheduled_always_due_witness :
  (schedule (sampleItem None) = None ∨
   ∃ sch, schedule (sampleItem None) = Some sch ∧ stype sch = "daily"%string)
  ∧ isItemScheduledForDate (H := utcHost) jan1_2024 (sampleItem None)
      (Some jan1_2024) = Returns true.
Proof.
  split; [left; reflexivity |].
  apply (daily_or_unscheduled_always_due (H := utcHost)). left; reflexivity.
Defined.

(** C2, counterexample. A specific-date rule whose date is not configured
    is not due: the evaluator returns [false]. *)
Lemma specific_date_without_date_is_hidden :
  let sch := mkSchedule "specific-date" None None (Some "2024-01-01"%string) in
  stype sch ∈ knownTypes ∧ sdate sch = None ∧
  isItemScheduledForDate (H := utcHost) jan1_2024 (sampleItem (Some sch))
    (Some jan1_2024) ≠ Returns true.
Proof.
  cbv zeta. split; [unfold knownTypes; set_solver |].
  split; [reflexivity |]. vm_compute. discriminate.
Qed.

Lemma incomplete_rule_due_witness :
  let sch := mkSchedule "custom-days" None None (Some "2024-01-01"%string) in
  schedule (sampleItem (Some sch)) = Some sch
  ∧ isItemScheduledForDate (H := utcHost) jan1_2024 (sampleItem (Some sch))
      (Some jan1_2024) = Returns true.
Proof.
  cbv zeta. split; [reflexivity |].
  refine (proj1 (incomplete_rule_due (H := utcHost) jan1_2024
                   (sampleItem (Some _)) _ (Some jan1_2024) eq_refl) _).
  right. split; reflexivity.
Defined.

(** The scenarios of the specification, on the UTC host: every other day
    from the anchor, and a weekly rule anchored on a Monday. *)
Example every_other_day_from_anchor :
  let item := sampleItem (Some (mkSchedule "every-other-day" None None
                                  (Some "2024-01-01"%string))) in
  map (fun k => isItemScheduledForDate (H := utcHost) jan1_2024 item
                  (Some (jan1_2024 + k * msPerDay)))
      [0; 1; 2; 3; 4; 5]
  = [Returns true; Returns false; Returns true; Returns false;
     Returns true; Returns false].
Proof. vm_compute. reflexivity. Qed.

Example weekly_defaults_to_anchor_weekday :
  let item := sampleItem (Some (mkSchedule "weekly" None None
                                  (Some "2024-01-01"%string))) in
  map (fun k => isItemScheduledForDate (H := utcHost) jan1_2024 item
                  (Some (jan1_2024 + k * msPerDay)))
      [0; 1; 2; 3; 4; 5; 6; 7]
  = [Returns true; Returns false; Returns false; Returns false;
     Returns false; Returns false; Returns false; Returns true].
Proof. vm_compute. reflexivity. Qed.

(* ===================================================================== *)
(** * Properties of the daily reset                                       *)
(* ===================================================================== *)

Lemma clearCompleted_all (l : list Item) :
  ∀ item, item ∈ map clearCompleted l → completed item = false.
Proof.
  intros item Hin. apply list_elem_of_In, in_map_iff in Hin.
  destruct Hin as (i & <- & _). reflexivity.
Qed.

(** C7, amended. For stored data that parses to the two item lists,
    whatever else it holds: on a new day loading clears [completed] on every
    task of both lists and advances the stored date to today; on the same
    day the items come back as stored; in both cases the logs returned are
    the stored ones (none when no array is stored) and the task history is
    the stored one when it is valid, and the one derived from the items and
    logs otherwise. With nothing stored the result is the empty state and
    the date is set to today; for data on which parsing fails the result is
    the empty state and the stored date is left as it is. *)
Theorem loadStoredState_daily_reset (stored : Stored)
    (lastReset : option string) (today : string) :
  let st := (loadStoredState stored lastReset today).1 in
  let lastReset' := (loadStoredState stored lastReset today).2 in
  (∀ storedItems storedLogs storedHistory,
     stored = Data storedItems storedLogs storedHistory →
     (lastReset ≠ Some today →
        (∀ c item, item ∈ sel c (ldItems st) → completed item = false)
        ∧ (∀ c, sel c (ldItems st) = map clearCompleted (sel c storedItems)))
     ∧ (lastReset = Some today → ldItems st = storedItems)
     ∧ lastReset' = Some today
     ∧ ldLogs st = default [] storedLogs
     ∧ (∀ history, storedHistory = Some history → ldHistory st = history)
     ∧ (storedHistory = None →
        ldHistory st
        = mkPerTab
            (derivedHistoryOf goals (pgoals storedItems) (default [] storedLogs))
            (derivedHistoryOf waste (pwaste storedItems) (default [] storedLogs))))
  ∧ (stored = NoData → st = emptyState ∧ lastReset' = Some today)
  ∧ (stored = Malformed → st = emptyState ∧ lastReset' = lastReset).
Proof.
  cbv zeta. split; [| split; intros ->; now split].
  intros storedItems storedLogs storedHistory ->. unfold loadStoredState.
  destruct (decide (lastReset ≠ Some today)) as [Hne | Heq]; cbn.
  - split; [intros _; split |].
    + intros [] item Hin; cbn in Hin; eapply clearCompleted_all; eassumption.
    + intros []; reflexivity.
    + split; [intros Hsame; contradiction |]. split; [reflexivity |].
      split; [reflexivity |]. split; [now intros history -> | now intros ->].
  - apply dec_stable in Heq. split; [intros Hne; contradiction |].
    split; [intros _; now destruct storedItems |]. split; [exact Heq |].
    split; [reflexivity |]. split; [now intros history -> | now intros ->].
Qed.

(** C7, counterexample. Stored data on which parsing fails, found on a new
    day: the empty state is returned and the stored date is not advanced. *)
Lemma unparseable_data_keeps_reset_date :
  Some "Sun Dec 31 2023"%string ≠ Some "Mon Jan 01 2024"%string
  ∧ (loadStoredState Malformed (Some "Sun Dec 31 2023"%string)
       "Mon Jan 01 2024").2
    ≠ Some "Mon Jan 01 2024"%string.
Proof. split; cbn; discriminate. Qed.

Lemma loadStoredState_daily_reset_witness :
  let stored := Data (mkPerTab [doneTask; newTask] []) None None in
  Some "Sun Dec 31 2023"%string ≠ Some "Mon Jan 01 2024"%string
  ∧ completed <$> pgoals (ldItems (loadStoredState stored
        (Some "Sun Dec 31 2023"%string) "Mon Jan 01 2024").1) = [false; false]
  ∧ (loadStoredState stored (Some "Sun Dec 31 2023"%string) "Mon Jan 01 2024").2
    = Some "Mon Jan 01 2024"%string.
Proof.
  cbv zeta. split; [discriminate |].
  destruct (proj1 (loadStoredState_daily_reset
                     (Data (mkPerTab [doneTask; newTask] []) None None)
                     (Some "Sun Dec 31 2023"%string) "Mon Jan 01 2024")
              (mkPerTab [doneTask; newTask] []) None None eq_refl)
    as (Hreset & _ & Hdate & _).
  destruct Hreset as [_ Hitems]; [discriminate |].
  split; [| exact Hdate].
  pose proof (Hitems goals) as Hgoals. cbn [sel] in Hgoals.
  rewrite Hgoals. reflexivity.
Defined.

(* ===================================================================== *)
(** * Properties of the session log builder                               *)
(* ===================================================================== *)


(** The two outcomes of [appendLogEntry]. *)
Lemma appendLogEntry_cases (now : Z) (entry : LogEntry) (s : App) :
  appendLogEntry now entry s = s
  ∨ appendLogEntry now entry s
    = setLogs (logs s ++ [entry])
        (setLastLog (<[itemId entry := (now, durationSeconds entry)]> (lastLog s)) s).
Proof.
  unfold appendLogEntry.
  destruct (lastLog s !! itemId entry) as [[time duration] |]; [| now right].
  destruct (_ && _); [now left | now right].
Qed.




(* ===================================================================== *)
(** * Properties of the timer engine                                      *)
(* ===================================================================== *)

Lemma tick_lastTick (now : Z) (logNow : string -> Z) (s : App) :
  lastTick (tick now logNow s) = now / 1000.
Proof.
  unfold tick. destruct (now / 1000 =? lastTick s) eqn:Hsec.
  - symmetry. now apply Z.eqb_eq.
  - destruct (0 <? _); reflexivity.
Qed.

Lemma tick_same_second (now : Z) (logNow : string -> Z) (s : App) :
  now / 1000 = lastTick s → tick now logNow s = s.
Proof. intros Hsec. unfold tick. now rewrite Hsec, Z.eqb_refl. Qed.

(** C4. Invocations of the tick handler that observe the same whole second
    as an earlier one change nothing: however many follow, the timers (and
    the log) are those left by the first. *)
Theorem tick_idempotent_within_second (now : Z) (logNow : string -> Z)
    (evs : list (Z * (string -> Z))) (s : App) :
  Forall (fun ev => ev.1 / 1000 = now / 1000) evs →
  ticks evs (tick now logNow s) = tick now logNow s.
Proof.
  intros Hsame. unfold ticks.
  induction Hsame as [| ev evs Hev _ IH]; [reflexivity |].
  cbn. rewrite tick_same_second; [exact IH |].
  now rewrite tick_lastTick.
Qed.

Lemma tick_idempotent_within_second_witness :
  let s := applyTimer (H := utcHost) jan1_2024
             (sampleApp PopDuration 5 "12" "00" AM) in
  let first := tick (jan1_2024 + 1000) (fun _ => jan1_2024 + 1000) s in
  ticks [(jan1_2024 + 1250, fun _ => jan1_2024 + 1250);
         (jan1_2024 + 1500, fun _ => jan1_2024 + 1500);
         (jan1_2024 + 1999, fun _ => jan1_2024 + 1999)] first = first
  ∧ (remainingSeconds <$> timers first !! "1704067200000"%string)
    = Some (Some 299).
Proof.
  cbv zeta. split; [| reflexivity].
  apply (tick_idempotent_within_second (jan1_2024 + 1000)
           (fun _ => jan1_2024 + 1000)
           [(jan1_2024 + 1250, fun _ => jan1_2024 + 1250);
            (jan1_2024 + 1500, fun _ => jan1_2024 + 1500);
            (jan1_2024 + 1999, fun _ => jan1_2024 + 1999)]).
  repeat constructor.
Defined.

Lemma tick_fresh (now : Z) (logNow : string -> Z) (s : App) :
  now / 1000 ≠ lastTick s →
  timers (tick now logNow s)
    = map_imap (fun id t => Some (tickTimer (logNow id) id t).1) (timers s)
  ∧ logs (tick now logNow s) = logs s ++ tickLogs logNow (timers s)
  ∧ tab (tick now logNow s) = tab s.
Proof.
  intros Hsec. unfold tick.
  replace (now / 1000 =? lastTick s) with false
    by (symmetry; now apply Z.eqb_neq).
  destruct (tickLogs logNow (timers s)) as [| e l] eqn:Hlogs; cbn.
  - now rewrite app_nil_r.
  - easy.
Qed.

Lemma tick_fresh_lookup (now : Z) (logNow : string -> Z) (s : App) (id : string) :
  now / 1000 ≠ lastTick s →
  timers (tick now logNow s) !! id
    = (fun t => (tickTimer (logNow id) id t).1) <$> timers s !! id.
Proof.
  intros Hsec. destruct (tick_fresh now logNow s Hsec) as (-> & _).
  rewrite map_lookup_imap. now destruct (timers s !! id).
Qed.

Lemma tick_tab (now : Z) (logNow : string -> Z) (s : App) :
  tab (tick now logNow s) = tab s.
Proof.
  unfold tick. destruct (_ =? _); [reflexivity |]. now destruct (0 <? _).
Qed.

(** An entry pushed for the timer stored under [id] carries that id. *)
Lemma tickTimer_entry_id (now : Z) (id : string) (t : TimerState) (e : LogEntry) :
  (tickTimer now id t).2 = Some e → itemId e = id.
Proof.
  unfold tickTimer. destruct (negb (isRunning t)); [discriminate |].
  destruct (mode t); [| discriminate].
  destruct (_ =? 0); [| discriminate]. destruct (0 <? _); [| discriminate].
  now intros [= <-].
Qed.

Lemma tickLogs_list_other (logNow : string -> Z) (id : string)
    (l : list (string * TimerState)) :
  id ∉ l.*1 →
  filter (fun e => itemId e = id)
    (omap (fun kt => (tickTimer (logNow kt.1) kt.1 kt.2).2) l) = [].
Proof.
  induction l as [| [k t] l IH]; intros Hnot; [reflexivity |].
  cbn in *. apply not_elem_of_cons in Hnot as [Hk Hl].
  destruct (tickTimer (logNow k) k t).2 as [e |] eqn:He; [| now apply IH].
  rewrite filter_cons_False; [now apply IH |].
  apply tickTimer_entry_id in He. congruence.
Qed.

Lemma tickLogs_list_filter (logNow : string -> Z) (id : string) (t : TimerState)
    (l : list (string * TimerState)) :
  NoDup l.*1 → (id, t) ∈ l →
  filter (fun e => itemId e = id)
    (omap (fun kt => (tickTimer (logNow kt.1) kt.1 kt.2).2) l)
  = option_list (tickTimer (logNow id) id t).2.
Proof.
  induction l as [| [k t'] l IH]; intros Hnd Hin; [now apply elem_of_nil in Hin |].
  cbn in *. apply NoDup_cons in Hnd as [Hk Hnd].
  apply elem_of_cons in Hin as [Heq | Hin].
  - injection Heq as <- <-.
    destruct (tickTimer (logNow id) id t).2 as [e |] eqn:He.
    + rewrite filter_cons_True by (eapply tickTimer_entry_id; eassumption).
      now rewrite tickLogs_list_other.
    + now apply tickLogs_list_other.
  - assert (k ≠ id).
    { intros ->. apply Hk. apply list_elem_of_fmap. now exists (id, t). }
    destruct (tickTimer (logNow k) k t').2 as [e |] eqn:He; [| now apply IH].
    rewrite filter_cons_False; [now apply IH |].
    apply tickTimer_entry_id in He. congruence.
Qed.

(** The entries one tick logs for task [id] are those of its own timer. *)
Lemma tickLogs_filter (logNow : string -> Z) (id : string)
    (m : gmap string TimerState) (t : TimerState) :
  m !! id = Some t →
  filter (fun e => itemId e = id) (tickLogs logNow m)
  = option_list (tickTimer (logNow id) id t).2.
Proof.
  intros Hm. unfold tickLogs. apply tickLogs_list_filter.
  - apply NoDup_fst_map_to_list.
  - now apply elem_of_map_to_list.
Qed.

(** A timer that is not running is left alone by any run of ticks. *)
Lemma tick_paused (now : Z) (logNow : string -> Z) (s : App) (id : string)
    (t : TimerState) :
  timers s !! id = Some t → isRunning t = false →
  timers (tick now logNow s) !! id = Some t.
Proof.
  intros Hm Hrun. destruct (Z.eq_dec (now / 1000) (lastTick s)) as [Hsec | Hsec].
  - now rewrite tick_same_second.
  - rewrite tick_fresh_lookup, Hm by assumption. cbn.
    unfold tickTimer. now rewrite Hrun.
Qed.

Lemma ticks_paused (evs : list (Z * (string -> Z))) (s : App) (id : string)
    (t : TimerState) :
  timers s !! id = Some t → isRunning t = false →
  timers (ticks evs s) !! id = Some t ∧ tab (ticks evs s) = tab s.
Proof.
  revert s. unfold ticks.
  induction evs as [| ev evs IH]; intros s Hm Hrun; [easy |].
  cbn. destruct (IH (tick ev.1 ev.2 s)) as [-> ->].
  - now apply tick_paused.
  - assumption.
  - split; [reflexivity | apply tick_tab].
Qed.

(** One tick of a running countdown, before and at its last second. *)
Lemma tickTimer_countdown_step (now : Z) (id : string) (t : TimerState) (r e : Z) :
  mode t = countdown → isRunning t = true →
  remainingSeconds t = Some r → elapsedSeconds t = Some e → 1 < r →
  tickTimer now id t
  = (mkTimer countdown (seconds t) (Some (r - 1)) (totalSeconds t)
       (Some (e + 1)) (targetTimeMs t) true (startSeconds t)
       (startRemaining t) (timerText t) (timerTab t), None).
Proof.
  intros Hmode Hrun Hrem Hel Hr. unfold tickTimer.
  rewrite Hmode, Hrun, Hrem, Hel. cbn.
  replace (Z.max 0 (r - 1)) with (r - 1) by lia.
  replace (r - 1 =? 0) with false by (symmetry; apply Z.eqb_neq; lia).
  reflexivity.
Qed.

Lemma tickTimer_countdown_last (now : Z) (id : string) (t : TimerState) (r e : Z) :
  mode t = countdown → isRunning t = true →
  remainingSeconds t = Some r → elapsedSeconds t = Some e → r <= 1 → 0 <= e →
  tickTimer now id t
  = (mkTimer countdown (seconds t) (Some 0) (totalSeconds t)
       (Some (e + 1)) (targetTimeMs t) false (startSeconds t)
       None (timerText t) (timerTab t),
     Some (buildLogEntryFromFields now id (timerText t) (timerTab t) (e + 1))).
Proof.
  intros Hmode Hrun Hrem Hel Hr He. unfold tickTimer.
  rewrite Hmode, Hrun, Hrem, Hel. cbn.
  replace (Z.max 0 (r - 1)) with 0 by lia.
  replace (0 <? e + 1) with true by (symmetry; apply Z.ltb_lt; lia).
  reflexivity.
Qed.

(** A running countdown with [n] seconds remaining, ticked in [n] distinct
    seconds ([n] at least one): it stops at zero and is logged once, with
    the elapsed time as duration. *)
Lemma countdown_runs_out (evs : list (Z * (string -> Z))) :
  ∀ (s : App) (id : string) (t : TimerState) (e : Z),
  evs ≠ [] →
  timers s !! id = Some t →
  mode t = countdown → isRunning t = true →
  remainingSeconds t = Some (Z.of_nat (length evs)) →
  elapsedSeconds t = Some e → 0 <= e →
  distinct_seconds (lastTick s) evs.*1 = true →
  ∃ t' added entry,
    timers (ticks evs s) !! id = Some t'
    ∧ remainingSeconds t' = Some 0
    ∧ isRunning t' = false
    ∧ elapsedSeconds t' = Some (e + Z.of_nat (length evs))
    ∧ logs (ticks evs s) = logs s ++ added
    ∧ filter (fun x => itemId x = id) added = [entry]
    ∧ durationSeconds entry = e + Z.of_nat (length evs).
Proof.
  induction evs as [| [now logNow] evs IH];
    intros s id t e Hne Hm Hmode Hrun Hrem Hel He Hsec; [contradiction |].
  cbn in Hsec. apply andb_true_iff in Hsec as [Hsec Hrest].
  apply negb_true_iff, Z.eqb_neq in Hsec.
  destruct (tick_fresh now logNow s Hsec) as (_ & Hlogs & _).
  pose proof (tick_fresh_lookup now logNow s id Hsec) as Hlk.
  pose proof (tickLogs_filter logNow id _ _ Hm) as Hfil.
  rewrite Hm in Hlk. cbn [fmap option_fmap option_map] in Hlk.
  unfold ticks. cbn [foldl fst snd]. fold (ticks evs (tick now logNow s)).
  destruct evs as [| ev evs].
  - (* the last second *)
    rewrite (tickTimer_countdown_last _ _ _ _ _ Hmode Hrun Hrem Hel) in Hlk, Hfil
      by (cbn; lia).
    eexists _, _, _. split; [exact Hlk |]. cbn.
    repeat split; [exact Hlogs | exact Hfil |]. reflexivity.
  - set (n := length (ev :: evs)) in *.
    assert (Hn : (1 <= n)%nat) by (subst n; cbn; lia).
    assert (Hlen : Z.of_nat (length ((now, logNow) :: ev :: evs)) = Z.of_nat n + 1)
      by (subst n; cbn [length]; lia).
    rewrite Hlen in Hrem |- *.
    rewrite (tickTimer_countdown_step _ _ _ _ _ Hmode Hrun Hrem Hel) in Hlk, Hfil
      by lia.
    cbn [fst snd option_list] in Hlk, Hfil.
    match type of Hlk with
    | _ = Some ?t1 =>
        destruct (IH (tick now logNow s) id t1 (e + 1))
          as (t' & added & entry & Ht' & Hrem' & Hrun' & Hel' & Hlogs' & Hfil' & Hdur);
          [discriminate | exact Hlk | reflexivity | reflexivity
          | cbn; f_equal; lia | reflexivity | lia | now rewrite tick_lastTick |]
    end.
    exists t', (tickLogs logNow (timers s) ++ added), entry.
    split; [exact Ht' |]. split; [exact Hrem' |]. split; [exact Hrun' |].
    split; [rewrite Hel'; f_equal; lia |].
    split; [rewrite Hlogs', Hlogs; now rewrite app_assoc |].
    split; [rewrite filter_app, Hfil, Hfil'; reflexivity |].
    rewrite Hdur. lia.
Qed.

(** C1. A countdown of 300 seconds (five minutes) started from the popup and
    ticked 300 times in distinct seconds ends with [remainingSeconds] 0 and
    stopped, and the run appends exactly one log entry for the task, of
    duration 300. *)
Theorem countdown_300_runs_out `{DateHost} (nowA : Z)
    (evs : list (Z * (string -> Z))) (s : App) (c : Category) (item : Item) :
  tab s = TabTask c →
  timerPopupItemId s = Some (iid item) →
  iid item ≠ ""%string →
  findById (iid item) (sel c (items s)) = Some item →
  completed item = false →
  timerPopupMode s = PopDuration →
  timerPopupMinutes s = 5 →
  length evs = 300%nat →
  distinct_seconds (lastTick s) evs.*1 = true →
  let s' := ticks evs (applyTimer nowA s) in
  ∃ t added entry,
    timers s' !! iid item = Some t
    ∧ remainingSeconds t = Some 0
    ∧ isRunning t = false
    ∧ logs s' = logs s ++ added
    ∧ filter (fun x => itemId x = iid item) added = [entry]
    ∧ durationSeconds entry = 300.
Proof.
  intros Htab Hpop Hid Hfind Hdone Hmode Hmin Hlen Hsec s'.
  assert (Hstart : applyTimer nowA s
            = closeTimerPopup
                (setTimers (<[iid item :=
                   mkTimer countdown 0 (Some 300) (Some 300) (Some 0) None true
                     None (Some 300) (itext item) c]> (timers s)) s)).
  { unfold applyTimer. rewrite Htab, Hpop. cbn [truthy default from_option id].
    replace (String.eqb (iid item) "") with false
      by (symmetry; now apply String.eqb_neq).
    cbn [negb]. rewrite Hfind, Hdone, Hmode, Hmin. reflexivity. }
  destruct (countdown_runs_out evs (applyTimer nowA s) (iid item)
              (mkTimer countdown 0 (Some 300) (Some 300) (Some 0) None true
                 None (Some 300) (itext item) c) 0)
    as (t & added & entry & Ht & Hrem & Hrun & _ & Hlogs & Hfil & Hdur).
  - intros ->. discriminate.
  - rewrite Hstart. cbn. apply lookup_insert_eq.
  - reflexivity.
  - reflexivity.
  - cbn. now rewrite Hlen.
  - reflexivity.
  - lia.
  - rewrite Hstart. exact Hsec.
  - exists t, added, entry. subst s'.
    rewrite Hlen in Hdur. rewrite Hstart in Hlogs at 2. cbn in Hlogs, Hdur.
    repeat split; assumption.
Qed.

Lemma countdown_300_runs_out_witness :
  let s' := ticks (secondsAfter jan1_2024 300)
              (applyTimer (H := utcHost) jan1_2024
                 (sampleApp PopDuration 5 "12" "00" AM)) in
  ∃ t added entry,
    timers s' !! "1704067200000"%string = Some t
    ∧ remainingSeconds t = Some 0
    ∧ isRunning t = false
    ∧ logs s' = [] ++ added
    ∧ filter (fun x => itemId x = "1704067200000"%string) added = [entry]
    ∧ durationSeconds entry = 300.
Proof.
  apply (countdown_300_runs_out (H := utcHost) jan1_2024
           (secondsAfter jan1_2024 300) (sampleApp PopDuration 5 "12" "00" AM)
           goals (sampleItem None));
    reflexivity || discriminate.
Defined.

(** A paused timer is untouched by [n] ticks, and [pauseResumeTimer] then
    resumes it. *)
Lemma resume_after_paused_ticks (evs : list (Z * (string -> Z))) (now1 now2 : Z)
    (s : App) (c : Category) (id : string) (t : TimerState) :
  tab s = TabTask c → timers s !! id = Some t → isRunning t = false →
  timers (ticks evs s) !! id = Some t
  ∧ timers (pauseResumeTimer now1 now2 id (ticks evs s)) !! id
    = Some (mkTimer (mode t) (seconds t)
        (match mode t, targetTimeMs t with
         | countdown, Some target => Some (Z.max 0 (ceil_div1000 (target - now2)))
         | _, _ => remainingSeconds t
         end)
        (totalSeconds t) (elapsedSeconds t) (targetTimeMs t)
        (match mode t, targetTimeMs t with
         | countdown, Some target => 0 <? Z.max 0 (ceil_div1000 (target - now1))
         | _, _ => true
         end)
        (match mode t with stopwatch => Some (seconds t) | countdown => None end)
        (match mode t with countdown => remainingSeconds t | stopwatch => None end)
        (timerText t) (timerTab t)).
Proof.
  intros Htab Hm Hrun.
  destruct (ticks_paused evs s id t Hm Hrun) as [Hm' Htab'].
  split; [exact Hm' |].
  unfold pauseResumeTimer. rewrite Htab', Htab, Hm', Hrun. cbn.
  rewrite lookup_insert_eq.
  destruct (mode t), (targetTimeMs t); reflexivity.
Qed.

(** C5, amended. A countdown paused with 120 seconds remaining still has
    120 seconds remaining after 10 ticks; resuming it then leaves 120
    seconds when the timer has no absolute deadline, and recomputes the
    remaining seconds from the deadline and the clock when it has one. *)
Theorem paused_countdown_keeps_remaining (evs : list (Z * (string -> Z)))
    (now1 now2 : Z) (s : App) (c : Category) (id : string) (t : TimerState) :
  tab s = TabTask c →
  timers s !! id = Some t →
  mode t = countdown → isRunning t = false →
  remainingSeconds t = Some 120 →
  length evs = 10%nat →
  let s1 := ticks evs s in
  let s2 := pauseResumeTimer now1 now2 id s1 in
  (∃ t1, timers s1 !! id = Some t1 ∧ remainingSeconds t1 = Some 120
         ∧ isRunning t1 = false)
  ∧ ∃ t2, timers s2 !! id = Some t2 ∧
      match targetTimeMs t with
      | None => remainingSeconds t2 = Some 120 ∧ isRunning t2 = true
      | Some target =>
          remainingSeconds t2 = Some (Z.max 0 (ceil_div1000 (target - now2)))
      end.
Proof.
  intros Htab Hm Hmode Hrun Hrem _ s1 s2.
  destruct (resume_after_paused_ticks evs now1 now2 s c id t Htab Hm Hrun)
    as [H1 H2].
  split; [now exists t |].
  eexists. split; [exact H2 |]. cbn. rewrite Hmode.
  destruct (targetTimeMs t); [reflexivity | now split].
Qed.

(** C5, counterexample. That countdown, ticked 10 times while paused and
    resumed ten seconds after the pause, reads 110 seconds. *)
Lemma paused_deadline_countdown_loses_time :
  (remainingSeconds <$> timers pausedDeadlineApp !! "1704067200000"%string)
    = Some (Some 120)
  ∧ (isRunning <$> timers pausedDeadlineApp !! "1704067200000"%string)
    = Some false
  ∧ (remainingSeconds <$>
       timers (pauseResumeTimer (jan1_2024 + 10000) (jan1_2024 + 10000)
                 "1704067200000"
                 (ticks (secondsAfter jan1_2024 10) pausedDeadlineApp))
         !! "1704067200000"%string)
    = Some (Some 110).
Proof. vm_compute. repeat split. Qed.

Lemma paused_countdown_keeps_remaining_witness :
  let s := pauseResumeTimer jan1_2024 jan1_2024 "1704067200000"
             (ticks (secondsAfter jan1_2024 180)
                (applyTimer (H := utcHost) jan1_2024
                   (sampleApp PopDuration 5 "12" "00" AM))) in
  ∃ t2,
    timers (pauseResumeTimer (jan1_2024 + 200000) (jan1_2024 + 200000)
              "1704067200000"
              (ticks (secondsAfter (jan1_2024 + 180000) 10) s))
      !! "1704067200000"%string = Some t2
    ∧ remainingSeconds t2 = Some 120 ∧ isRunning t2 = true.
Proof.
  cbv zeta.
  refine (proj2 (paused_countdown_keeps_remaining
            (secondsAfter (jan1_2024 + 180000) 10)
            (jan1_2024 + 200000) (jan1_2024 + 200000) _ goals "1704067200000"
            (mkTimer countdown 0 (Some 120) (Some 300) (Some 180) None false
               None None "Read" goals) _ _ _ _ _ _));
    reflexivity.
Defined.

(* ===================================================================== *)
(** * Properties of the task store                                        *)
(* ===================================================================== *)

Lemma appendLogEntry_frame (now : Z) (entry : LogEntry) (s : App) :
  timers (appendLogEntry now entry s) = timers s
  ∧ items (appendLogEntry now entry s) = items s
  ∧ tab (appendLogEntry now entry s) = tab s.
Proof.
  destruct (appendLogEntry_cases now entry s) as [-> | ->]; easy.
Qed.

Lemma completeTask_timers (tBuild tAppend : Z) (id : string) (s : App)
    (c : Category) :
  tab s = TabTask c →
  timers (completeTask tBuild tAppend id s) = delete id (timers s).
Proof.
  intros Htab. unfold completeTask. rewrite Htab.
  destruct (findById id (map _ _)) as [t |]; [destruct (completed t) |];
    cbn [timers setTimers]; f_equal;
    (destruct (findById id (sel c (items s))) as [item |]; [| reflexivity]);
    (destruct (negb (completed item)); [| reflexivity]);
    destruct (getTimerDuration (timers s !! id)) as [d |];
    try destruct (0 <? d); apply appendLogEntry_frame.
Qed.

(** C10. [toggleComplete] on a task of the current list removes the timer
    stored under the task's id, whether the task was completed or not, and
    leaves the timer of every other id as it was. *)
Theorem toggleComplete_clears_timer (tBuild tAppend : Z) (id : string)
    (s : App) (c : Category) (item : Item) :
  tab s = TabTask c →
  findById id (sel c (items s)) = Some item →
  timers (toggleComplete tBuild tAppend id s) !! id = None
  ∧ ∀ id', id' ≠ id →
      timers (toggleComplete tBuild tAppend id s) !! id' = timers s !! id'.
Proof.
  intros Htab Hfind.
  assert (Htimers : timers (toggleComplete tBuild tAppend id s)
                    = delete id (timers s)).
  { unfold toggleComplete. rewrite Htab, Hfind.
    destruct (completed item); now apply completeTask_timers with c. }
  rewrite Htimers. split.
  - apply lookup_delete_eq.
  - intros id' Hne. now apply lookup_delete_ne.
Qed.

Lemma toggleComplete_clears_timer_witness :
  let s := applyTimer (H := utcHost) jan1_2024
             (sampleApp PopStopwatch 30 "12" "00" AM) in
  is_Some (timers s !! "1704067200000"%string)
  ∧ timers (toggleComplete jan1_2024 jan1_2024 "1704067200000" s)
      !! "1704067200000"%string = None.
Proof.
  cbv zeta. split; [vm_compute; eauto |].
  refine (proj1 (toggleComplete_clears_timer jan1_2024 jan1_2024
                   "1704067200000" _ goals (sampleItem None) _ _));
    reflexivity.
Defined.

Lemma partitioned_app (l1 l2 : list Item) :
  Forall (fun x => completed x = false) l1 →
  Forall (fun x => completed x = true) l2 →
  partitioned (l1 ++ l2).
Proof.
  intros H1 H2 i j x y Hi Hj Hx Hy.
  rewrite Forall_lookup in H1, H2.
  apply lookup_app_Some in Hi as [Hi | [Hlen Hi]];
    [| apply H2 in Hi; congruence].
  apply lookup_app_Some in Hj as [Hj | [Hlen Hj]];
    [apply H1 in Hj; congruence |].
  apply lookup_lt_Some in Hi. lia.
Qed.

Lemma Forall_filter_holds {A} (P : A → Prop) `{∀ x, Decision (P x)} (l : list A) :
  Forall P (filter P l).
Proof. apply Forall_forall. intros x Hx. now apply list_elem_of_filter in Hx. Qed.

Lemma Forall_filter_keeps {A} (P Q : A → Prop) `{∀ x, Decision (Q x)}
    (l : list A) :
  Forall P l → Forall P (filter Q l).
Proof.
  rewrite !Forall_forall. intros Hl x Hx.
  apply list_elem_of_filter in Hx as [_ Hx]. auto.
Qed.

Lemma sel_upd {A} (c : Category) (v : A) (p : PerTab A) : sel c (upd c v p) = v.
Proof. now destruct c. Qed.

Lemma findById_Some (id : string) (l : list Item) (x : Item) :
  findById id l = Some x → x ∈ l ∧ iid x = id.
Proof.
  unfold findById. destruct (list_find _ l) as [[i y] |] eqn:Hf; [| discriminate].
  intros [= <-]. apply list_find_Some in Hf as (Hi & Hy & _).
  split; [| exact Hy]. apply list_elem_of_lookup. now exists i.
Qed.

(** [find] and [filter] by id commute with the update of the items that
    carry the id. *)
Lemma findById_toggle (id : string) (ts : option Z) (l : list Item) :
  findById id (map (fun item => if decide (iid item = id)
                                then toggleItem ts item else item) l)
  = toggleItem ts <$> findById id l.
Proof.
  unfold findById. induction l as [| x l IH]; [reflexivity |].
  cbn. destruct (decide (iid x = id)) as [Hx | Hx].
  - cbn. now rewrite decide_True by exact Hx.
  - rewrite decide_False by exact Hx.
    destruct (list_find _ (map _ l)) as [[i y] |],
             (list_find _ l) as [[i' y'] |]; cbn in *; congruence.
Qed.

Lemma rest_toggle (id : string) (ts : option Z) (l : list Item) :
  filter (fun entry => iid entry ≠ id)
    (map (fun item => if decide (iid item = id)
                      then toggleItem ts item else item) l)
  = filter (fun entry => iid entry ≠ id) l.
Proof.
  induction l as [| x l IH]; [reflexivity |].
  cbn [map]. destruct (decide (iid x = id)) as [Hx | Hx].
  - rewrite !filter_cons_False; [exact IH | | ]; cbn; intros Hn; now apply Hn.
  - rewrite !filter_cons_True by exact Hx. now rewrite IH.
Qed.

(** The list [completeTask] stores for the current tab. *)
Lemma completeTask_list (tBuild tAppend : Z) (id : string) (s : App)
    (c : Category) :
  tab s = TabTask c →
  let rest := filter (fun entry => iid entry ≠ id) (sel c (items s)) in
  let incomplete := filter (fun entry => completed entry = false) rest in
  let completed_ := filter (fun entry => completed entry = true) rest in
  ∃ ts,
    sel c (items (completeTask tBuild tAppend id s))
    = match findById id (sel c (items s)) with
      | Some item =>
          if completed item
          then (incomplete ++ [toggleItem ts item]) ++ completed_
          else incomplete ++ (completed_ ++ [toggleItem ts item])
      | None => incomplete ++ completed_
      end.
Proof.
  intros Htab. cbv zeta. unfold completeTask. rewrite Htab.
  match goal with
  | |- context [toggleItem ?ts] => exists ts; generalize ts; intros secs
  end.
  rewrite findById_toggle, rest_toggle.
  destruct (findById id (sel c (items s))) as [item |]; cbn [fmap option_fmap option_map].
  - unfold toggleItem at 1. cbn [completed].
    destruct (completed item); cbn [negb items setTimers setItems];
      now rewrite sel_upd.
  - cbn [items setTimers setItems]. now rewrite sel_upd.
Qed.

(** C9, counterexample. Dragging the completed task onto the other one
    leaves the list as it was, with the completed task first. *)
Lemma reorder_completed_source_keeps_order :
  sel goals (items (reorderItems goals "1704067200000" "1704067260000" unsortedApp))
    = [doneTask; newTask]
  ∧ ¬ partitioned
        (sel goals (items (reorderItems goals "1704067200000" "1704067260000"
                             unsortedApp))).
Proof.
  assert (Hl : sel goals (items (reorderItems goals "1704067200000"
                                   "1704067260000" unsortedApp))
               = [doneTask; newTask]) by reflexivity.
  split; [exact Hl |]. rewrite Hl. intros Hp.
  specialize (Hp 1%nat 0%nat newTask doneTask eq_refl eq_refl eq_refl eq_refl).
  lia.
Qed.

Lemma reorderList_partitioned (sourceId targetId : string) (l l' : list Item) :
  reorderList sourceId targetId l = Some l' → partitioned l'.
Proof.
  unfold reorderList.
  destruct (findById sourceId l) as [source |]; [| discriminate].
  destruct (completed source) eqn:Hsrc; [discriminate |].
  set (incomplete := filter (fun item => completed item = false ∧ iid item ≠ sourceId) l).
  set (completed_ := filter (fun item => completed item = true) l).
  assert (Hinc : Forall (fun x => completed x = false) incomplete).
  { apply Forall_forall. intros x Hx.
    now apply list_elem_of_filter in Hx as [[Hx _] _]. }
  assert (Hcomp : Forall (fun x => completed x = true) completed_)
    by apply Forall_filter_holds.
  assert (Hend : partitioned ((incomplete ++ [source]) ++ completed_)).
  { apply partitioned_app; [| exact Hcomp].
    apply Forall_app_2; [exact Hinc | now constructor]. }
  destruct (findById targetId l) as [target |]; [| now intros [= <-]].
  destruct (completed target); [now intros [= <-] |].
  destruct (findIndexById targetId incomplete) as [toIndex |]; [| discriminate].
  intros [= <-]. apply partitioned_app; [| exact Hcomp].
  unfold splice_in. apply Forall_app_2; [now apply Forall_take |].
  constructor; [exact Hsrc | now apply Forall_drop].
Qed.

Lemma reorderList_moves (sourceId targetId : string) (l : list Item)
    (source : Item) :
  sourceId ≠ targetId →
  findById sourceId l = Some source → completed source = false →
  is_Some (reorderList sourceId targetId l).
Proof.
  intros Hne Hfind Hsrc. unfold reorderList. rewrite Hfind, Hsrc.
  destruct (findById targetId l) as [target |] eqn:Htgt; [| eauto].
  destruct (completed target) eqn:Hdone; [eauto |].
  apply findById_Some in Htgt as [Hin Hid].
  unfold findIndexById.
  destruct (list_find_elem_of (fun i => iid i = targetId)
              (filter (fun item => completed item = false ∧ iid item ≠ sourceId) l)
              target) as [[i x] ->]; [| exact Hid | cbn; eauto].
  apply list_elem_of_filter. repeat split; [exact Hdone | congruence | exact Hin].
Qed.

(** C9, amended. [completeTask] always stores a list in which every
    incomplete item precedes every completed one: a newly completed item is
    last, an un-completed item comes after the other incomplete items and
    before all completed ones. [reorderItems] stores such a list whenever it
    moves the dragged item (the source exists, is incomplete and differs
    from the target); otherwise it leaves the list as it is. *)
Theorem complete_and_reorder_partition (tBuild tAppend : Z)
    (id sourceId targetId : string) (s : App) (c a : Category) :
  tab s = TabTask c →
  let l1 := sel c (items (completeTask tBuild tAppend id s)) in
  let l2 := sel a (items (reorderItems a sourceId targetId s)) in
  partitioned l1
  ∧ (∀ item, findById id (sel c (items s)) = Some item →
       ∃ toggled incomplete completed_,
         iid toggled = id
         ∧ completed toggled = negb (completed item)
         ∧ Forall (fun x => completed x = false) incomplete
         ∧ Forall (fun x => completed x = true) completed_
         ∧ l1 = if completed toggled
                then incomplete ++ completed_ ++ [toggled]
                else (incomplete ++ [toggled]) ++ completed_)
  ∧ (sourceId ≠ targetId →
     ∀ source, findById sourceId (sel a (items s)) = Some source →
       completed source = false → partitioned l2)
  ∧ (sourceId = targetId
     ∨ (∀ source, findById sourceId (sel a (items s)) = Some source →
          completed source = true) →
     l2 = sel a (items s)).
Proof.
  intros Htab l1 l2.
  destruct (completeTask_list tBuild tAppend id s c Htab) as [ts Hl1].
  fold l1 in Hl1.
  set (rest := filter (fun entry => iid entry ≠ id) (sel c (items s))) in Hl1.
  set (incomplete := filter (fun entry => completed entry = false) rest) in Hl1.
  set (completed_ := filter (fun entry => completed entry = true) rest) in Hl1.
  assert (Hinc : Forall (fun x => completed x = false) incomplete)
    by apply Forall_filter_holds.
  assert (Hcomp : Forall (fun x => completed x = true) completed_)
    by apply Forall_filter_holds.
  split; [| split; [| split]].
  - rewrite Hl1. destruct (findById id (sel c (items s))) as [item |].
    + destruct (completed item) eqn:Hdone.
      * apply partitioned_app; [| exact Hcomp].
        apply Forall_app_2; [exact Hinc |]. constructor; [| constructor].
        cbn. now rewrite Hdone.
      * apply partitioned_app; [exact Hinc |].
        apply Forall_app_2; [exact Hcomp |]. constructor; [| constructor].
        cbn. now rewrite Hdone.
    + now apply partitioned_app.
  - intros item Hfind. rewrite Hfind in Hl1.
    exists (toggleItem ts item), incomplete, completed_.
    apply findById_Some in Hfind as [_ Hid].
    repeat split; try assumption.
    rewrite Hl1. cbn. now destruct (completed item).
  - intros Hne source Hfind Hsrc. subst l2. unfold reorderItems.
    rewrite decide_False by exact Hne.
    destruct (reorderList_moves _ _ _ _ Hne Hfind Hsrc) as [l' Hl'].
    rewrite Hl'. cbn. rewrite sel_upd. eapply reorderList_partitioned, Hl'.
  - intros [Heq | Hdone]; subst l2; unfold reorderItems.
    + now rewrite decide_True by exact Heq.
    + destruct (decide (sourceId = targetId)); [reflexivity |].
      unfold reorderList.
      destruct (findById sourceId (sel a (items s))) as [source |];
        [| reflexivity].
      now rewrite (Hdone source eq_refl).
Qed.

Lemma complete_and_reorder_partition_witness :
  partitioned
    (sel goals (items (completeTask jan1_2024 jan1_2024 "1704067260000"
                         unsortedApp)))
  ∧ sel goals (items (completeTask jan1_2024 jan1_2024 "1704067260000"
                        unsortedApp))
    = [doneTask;
       mkItem "1704067260000" "Walk" true "Mon Jan 01 2024" None None None].
Proof.
  split; [| reflexivity].
  exact (proj1 (complete_and_reorder_partition jan1_2024 jan1_2024
                  "1704067260000" "1704067200000" "1704067260000"
                  unsortedApp goals goals eq_refl)).
Defined.

(* ===================================================================== *)
(** * Properties of log-entry ids                                         *)
(* ===================================================================== *)

Lemma pretty_N_char_not_dash (x : N) : pretty_N_char x ≠ "-"%char.
Proof. unfold pretty_N_char. repeat case_match; discriminate. Qed.

Lemma pretty_N_go_dash_free (x : N) :
  ∀ s, dash_free s → dash_free (pretty_N_go x s).
Proof.
  induction (N.lt_wf_0 x) as [x _ IH]; intros s Hs.
  destruct (decide (x = 0)%N) as [-> | Hx].
  - now rewrite pretty_N_go_0.
  - rewrite pretty_N_go_step by lia. apply IH.
    + apply N.div_lt; lia.
    + split; [apply pretty_N_char_not_dash | exact Hs].
Qed.

Lemma pretty_Z_dash_free (t : Z) : 0 <= t → dash_free (pretty t).
Proof.
  intros Ht. destruct t as [| p | p]; [cbn; split; [discriminate | exact I] | | lia].
  unfold pretty, pretty_Z, pretty, pretty_positive, pretty, pretty_N.
  rewrite decide_False by discriminate. now apply pretty_N_go_dash_free.
Qed.

Lemma dash_split (s1 s2 a b : string) :
  dash_free s1 → dash_free s2 →
  s1 +:+ "-" +:+ a = s2 +:+ "-" +:+ b → s1 = s2 ∧ a = b.
Proof.
  revert s2. induction s1 as [| c1 s1 IH]; intros [| c2 s2] H1 H2 Heq;
    cbn in H1, H2, Heq.
  - injection Heq as Hab. now subst.
  - injection Heq as Hc _. destruct H2 as [H2 _]. congruence.
  - injection Heq as Hc _. destruct H1 as [H1 _]. congruence.
  - injection Heq as Hc Heq. destruct H1 as [_ H1], H2 as [_ H2].
    destruct (IH s2 H1 H2 Heq) as [Hs Hab]. now subst.
Qed.

Lemma entryId_inj (t1 t2 : Z) (a b : string) :
  0 <= t1 → 0 <= t2 → entryId t1 a = entryId t2 b → t1 = t2 ∧ a = b.
Proof.
  intros H1 H2 Heq. unfold entryId in Heq.
  apply dash_split in Heq as [Ht ->]; [| now apply pretty_Z_dash_free..].
  split; [| reflexivity]. now apply (inj pretty).
Qed.

(** C8, counterexample. The countdown's expiry and the check-off of the
    same task in the same millisecond leave two log entries with one id. *)
Lemma same_millisecond_entries_share_id :
  ∃ e1 e2, logs expiredThenChecked = [e1; e2]
           ∧ itemId e1 = itemId e2 ∧ leId e1 = leId e2
           ∧ ¬ NoDup (leId <$> logs expiredThenChecked).
Proof.
  assert (Hlogs : ∃ e1 e2, logs expiredThenChecked = [e1; e2]
                           ∧ itemId e1 = itemId e2 ∧ leId e1 = leId e2).
  { vm_compute. eexists _, _. repeat split. }
  destruct Hlogs as (e1 & e2 & Hl & Hitem & Hid).
  exists e1, e2. repeat split; try assumption.
  rewrite Hl. cbn. rewrite Hid. intros Hnd.
  apply NoDup_cons in Hnd as [Hin _]. apply Hin. now left.
Qed.

(** C8, amended. Both builders derive the entry's id from its end timestamp
    and the task id; two such entries have the same id exactly when they
    have the same end timestamp (in milliseconds) and the same task id, so
    the ids of a log are pairwise distinct whenever no two of its entries
    pair the same task with the same millisecond. *)
Theorem log_entry_id_from_time_and_task :
  (∀ now item duration c, 0 <= now →
     wfEntry (buildLogEntry now item duration c)
     ∧ endTime (buildLogEntry now item duration c) = now
     ∧ itemId (buildLogEntry now item duration c) = iid item)
  ∧ (∀ now id text c duration, 0 <= now →
       wfEntry (buildLogEntryFromFields now id text c duration)
       ∧ endTime (buildLogEntryFromFields now id text c duration) = now
       ∧ itemId (buildLogEntryFromFields now id text c duration) = id)
  ∧ (∀ e1 e2, wfEntry e1 → wfEntry e2 →
       (leId e1 = leId e2 ↔ endTime e1 = endTime e2 ∧ itemId e1 = itemId e2))
  ∧ (∀ l, Forall wfEntry l →
       NoDup ((fun e => (endTime e, itemId e)) <$> l) → NoDup (leId <$> l)).
Proof.
  assert (Hiff : ∀ e1 e2, wfEntry e1 → wfEntry e2 →
            (leId e1 = leId e2 ↔ endTime e1 = endTime e2 ∧ itemId e1 = itemId e2)).
  { intros e1 e2 [Hid1 Ht1] [Hid2 Ht2]. rewrite Hid1, Hid2. split.
    - now apply entryId_inj.
    - now intros [-> ->]. }
  split; [| split; [| split]].
  - intros now item duration c Hnow. now repeat split.
  - intros now id text c duration Hnow. now repeat split.
  - exact Hiff.
  - induction l as [| e l IH]; intros Hwf Hnd; [constructor |].
    apply Forall_cons in Hwf as [He Hl]. cbn in Hnd |- *.
    apply NoDup_cons in Hnd as [Hnotin Hnd].
    apply NoDup_cons. split; [| now apply IH].
    intros Hin. apply Hnotin.
    apply list_elem_of_fmap in Hin as (e' & Hid & Hin').
    apply list_elem_of_fmap. exists e'. split; [| exact Hin'].
    rewrite Forall_forall in Hl.
    apply (Hiff e e' He (Hl e' Hin')) in Hid as [-> ->]. reflexivity.
Qed.

Lemma log_entry_id_from_time_and_task_witness :
  wfEntry (buildLogEntry jan1_2024 (sampleItem None) 0 goals)
  ∧ leId (buildLogEntry jan1_2024 (sampleItem None) 0 goals)
    = "1704067200000-1704067200000"%string.
Proof.
  split; [| reflexivity].
  refine (proj1 (proj1 log_entry_id_from_time_and_task jan1_2024
                   (sampleItem None) 0 goals _)).
  discriminate.
Defined.

(* ===================================================================== *)
(** * Further properties of the timer engine                              *)
(* ===================================================================== *)

(** One tick of a running stopwatch. *)
Lemma tickTimer_stopwatch (now : Z) (id : string) (t : TimerState) :
  mode t = stopwatch → isRunning t = true →
  tickTimer now id t
  = (mkTimer stopwatch (seconds t + 1) (remainingSeconds t) (totalSeconds t)
       (elapsedSeconds t) (targetTimeMs t) true (startSeconds t)
       (startRemaining t) (timerText t) (timerTab t), None).
Proof.
  intros Hmode Hrun. unfold tickTimer. now rewrite Hmode, Hrun.
Qed.

(** X1. A running stopwatch ticked in [n] distinct seconds has counted [n]
    more seconds and is still running; the run logs nothing for its task. *)
Theorem stopwatch_counts_seconds (evs : list (Z * (string -> Z))) :
  ∀ (s : App) (id : string) (t : TimerState),
  timers s !! id = Some t →
  mode t = stopwatch → isRunning t = true →
  distinct_seconds (lastTick s) evs.*1 = true →
  ∃ t' added,
    timers (ticks evs s) !! id = Some t'
    ∧ mode t' = stopwatch ∧ isRunning t' = true
    ∧ seconds t' = seconds t + Z.of_nat (length evs)
    ∧ logs (ticks evs s) = logs s ++ added
    ∧ filter (fun x => itemId x = id) added = [].
Proof.
  induction evs as [| [now logNow] evs IH]; intros s id t Hm Hmode Hrun Hsec.
  - exists t, []. cbn. rewrite app_nil_r, Z.add_0_r. easy.
  - cbn in Hsec. apply andb_true_iff in Hsec as [Hsec Hrest].
    apply negb_true_iff, Z.eqb_neq in Hsec.
    destruct (tick_fresh now logNow s Hsec) as (_ & Hlogs & _).
    pose proof (tick_fresh_lookup now logNow s id Hsec) as Hlk.
    pose proof (tickLogs_filter logNow id _ _ Hm) as Hfil.
    rewrite Hm in Hlk. cbn [fmap option_fmap option_map] in Hlk.
    rewrite (tickTimer_stopwatch _ _ _ Hmode Hrun) in Hlk, Hfil.
    cbn [fst snd option_list] in Hlk, Hfil.
    unfold ticks. cbn [foldl fst snd]. fold (ticks evs (tick now logNow s)).
    match type of Hlk with
    | _ = Some ?t1 =>
        destruct (IH (tick now logNow s) id t1 Hlk eq_refl eq_refl)
          as (t' & added & Ht' & Hmode' & Hrun' & Hsecs & Hlogs' & Hfil');
          [now rewrite tick_lastTick |]
    end.
    exists t', (tickLogs logNow (timers s) ++ added).
    repeat split; try assumption.
    + rewrite Hsecs. cbn [seconds length]. lia.
    + rewrite Hlogs', Hlogs. now rewrite app_assoc.
    + rewrite filter_app, Hfil, Hfil'. reflexivity.
Qed.

Lemma stopwatch_counts_seconds_witness :
  let s := applyTimer (H := utcHost) jan1_2024
             (sampleApp PopStopwatch 30 "12" "00" AM) in
  ∃ t' added,
    timers (ticks (secondsAfter jan1_2024 90) s) !! "1704067200000"%string
      = Some t'
    ∧ mode t' = stopwatch ∧ isRunning t' = true
    ∧ seconds t' = 0 + Z.of_nat (length (secondsAfter jan1_2024 90))
    ∧ logs (ticks (secondsAfter jan1_2024 90) s) = logs s ++ added
    ∧ filter (fun x => itemId x = "1704067200000"%string) added = [].
Proof.
  cbv zeta.
  apply (stopwatch_counts_seconds (secondsAfter jan1_2024 90) _
           "1704067200000"
           (mkTimer stopwatch 0 None None None None true (Some 0) None
              "Read" goals));
    reflexivity.
Defined.

(** X2. The tick handler only advances timers: it creates and removes
    none, and leaves the tasks, the tab, the task history and the
    bookkeeping of the log builder as they are. *)
Theorem tick_frame (now : Z) (logNow : string -> Z) (s : App) :
  dom (timers (tick now logNow s)) = dom (timers s)
  ∧ items (tick now logNow s) = items s
  ∧ tab (tick now logNow s) = tab s
  ∧ taskHistory (tick now logNow s) = taskHistory s
  ∧ lastLog (tick now logNow s) = lastLog s.
Proof.
  unfold tick. destruct (now / 1000 =? lastTick s); [easy |].
  assert (Hdom : dom (map_imap (fun id t => Some (tickTimer (logNow id) id t).1)
                        (timers s)) = dom (timers s)).
  { apply set_eq. intros id. rewrite !elem_of_dom, map_lookup_imap.
    destruct (timers s !! id); cbn; split; intros [x Hx]; eauto; discriminate. }
  destruct (0 <? _); cbn; easy.
Qed.

(** X3. Every entry that a tick logs is for a countdown that was running
    with at most one second left: the entry carries the elapsed seconds
    including this one, which is at least 1, and the tick stops the timer
    at zero. *)
Theorem tick_logs_expired_countdowns (now : Z) (logNow : string -> Z) (s : App)
    (e : LogEntry) :
  now / 1000 ≠ lastTick s →
  e ∈ tickLogs logNow (timers s) →
  ∃ t t',
    timers s !! itemId e = Some t
    ∧ mode t = countdown ∧ isRunning t = true
    ∧ default 0 (remainingSeconds t) <= 1
    ∧ durationSeconds e = default 0 (elapsedSeconds t) + 1
    ∧ 1 <= durationSeconds e
    ∧ leText e = timerText t ∧ leTab e = timerTab t
    ∧ timers (tick now logNow s) !! itemId e = Some t'
    ∧ isRunning t' = false ∧ remainingSeconds t' = Some 0.
Proof.
  intros Hsec Hin. unfold tickLogs in Hin.
  apply list_elem_of_omap in Hin as ([id t] & Hkt & He). cbn in He.
  apply elem_of_map_to_list in Hkt.
  pose proof (tickTimer_entry_id _ _ _ _ He) as Hid. subst id.
  pose proof (tick_fresh_lookup now logNow s (itemId e) Hsec) as Hlk.
  rewrite Hkt in Hlk. cbn in Hlk.
  unfold tickTimer in He, Hlk.
  destruct (isRunning t) eqn:Hrun; [| discriminate]. cbn [negb] in He, Hlk.
  destruct (mode t) eqn:Hmode; [| discriminate].
  destruct (Z.max 0 (default 0 (remainingSeconds t) - 1) =? 0) eqn:Hzero;
    [| discriminate].
  apply Z.eqb_eq in Hzero.
  destruct (0 <? default 0 (elapsedSeconds t) + 1) eqn:Hpos; [| discriminate].
  apply Z.ltb_lt in Hpos. injection He as <-.
  eexists t, _. split; [exact Hkt |].
  split; [exact Hmode |]. split; [exact Hrun |]. split; [lia |].
  split; [reflexivity |]. split; [cbn; lia |].
  split; [reflexivity |]. split; [reflexivity |].
  split; [exact Hlk |]. cbn. split; [reflexivity | now rewrite Hzero].
Qed.

Lemma tick_logs_expired_countdowns_witness :
  let s := ticks (secondsAfter jan1_2024 59)
             (applyTimer (H := utcHost) jan1_2024
                (sampleApp PopDuration 1 "12" "00" AM)) in
  let e := buildLogEntryFromFields (jan1_2024 + 60000) "1704067200000" "Read"
             goals 60 in
  e ∈ tickLogs (fun _ => jan1_2024 + 60000) (timers s)
  ∧ ∃ t t',
      timers s !! itemId e = Some t
      ∧ mode t = countdown ∧ isRunning t = true
      ∧ default 0 (remainingSeconds t) <= 1
      ∧ durationSeconds e = default 0 (elapsedSeconds t) + 1
      ∧ 1 <= durationSeconds e
      ∧ leText e = timerText t ∧ leTab e = timerTab t
      ∧ timers (tick (jan1_2024 + 60000) (fun _ => jan1_2024 + 60000) s)
          !! itemId e = Some t'
      ∧ isRunning t' = false ∧ remainingSeconds t' = Some 0.
Proof.
  cbv zeta.
  assert (Hin : buildLogEntryFromFields (jan1_2024 + 60000) "1704067200000"
                  "Read" goals 60
                ∈ tickLogs (fun _ => jan1_2024 + 60000)
                    (timers (ticks (secondsAfter jan1_2024 59)
                       (applyTimer (H := utcHost) jan1_2024
                          (sampleApp PopDuration 1 "12" "00" AM))))).
  { vm_compute. left. }
  split; [exact Hin |].
  apply tick_logs_expired_countdowns; [| exact Hin].
  vm_compute. discriminate.
Defined.

(** X4. [pauseResumeTimer] touches nothing but the timer of the given id:
    the other timers, the set of timers, the tasks, the log and the log
    builder's bookkeeping stay as they are; for an id without a timer (and
    on the log tab) the whole state does. *)
Theorem pauseResumeTimer_frame (now1 now2 : Z) (id : string) (s : App) :
  let s' := pauseResumeTimer now1 now2 id s in
  dom (timers s') = dom (timers s)
  ∧ (∀ id', id' ≠ id → timers s' !! id' = timers s !! id')
  ∧ items s' = items s ∧ logs s' = logs s ∧ lastLog s' = lastLog s
  ∧ lastTick s' = lastTick s ∧ tab s' = tab s
  ∧ (timers s !! id = None ∨ tab s = TabLog → s' = s).
Proof.
  cbv zeta. unfold pauseResumeTimer.
  destruct (tab s) eqn:Htab; [| repeat split; now intros].
  destruct (timers s !! id) as [current |] eqn:Hm; [| repeat split; now intros].
  assert (Hdom : ∀ t, dom (<[id := t]> (timers s)) = dom (timers s)).
  { intros t. apply dom_insert_lookup_L. eauto. }
  destruct (isRunning current); cbn; (split; [apply Hdom |]);
    (split; [intros id' Hne; now apply lookup_insert_ne |]);
    repeat split; try assumption; intros [Hx | Hx]; congruence.
Qed.

(** X5. Pausing a running timer that has no absolute deadline and resuming
    it gives back a running timer with the same mode, counted seconds,
    remaining, elapsed and total seconds, whatever the clock shows. *)
Theorem pause_then_resume_keeps_time (p1 p2 r1 r2 : Z) (id : string) (s : App)
    (c : Category) (t : TimerState) :
  tab s = TabTask c →
  timers s !! id = Some t →
  isRunning t = true →
  targetTimeMs t = None →
  ∃ t',
    timers (pauseResumeTimer r1 r2 id (pauseResumeTimer p1 p2 id s)) !! id
      = Some t'
    ∧ isRunning t' = true ∧ mode t' = mode t ∧ seconds t' = seconds t
    ∧ remainingSeconds t' = remainingSeconds t
    ∧ elapsedSeconds t' = elapsedSeconds t
    ∧ totalSeconds t' = totalSeconds t
    ∧ timerText t' = timerText t ∧ timerTab t' = timerTab t.
Proof.
  intros Htab Hm Hrun Hdl.
  unfold pauseResumeTimer at 2. rewrite Htab, Hm, Hrun.
  unfold pauseResumeTimer. cbn [tab setTimers timers]. rewrite Htab.
  rewrite lookup_insert_eq. cbn [isRunning mode targetTimeMs].
  rewrite Hdl. cbn [timers setTimers]. rewrite lookup_insert_eq.
  eexists. split; [reflexivity |]. cbn.
  destruct (mode t); repeat split.
Qed.

Lemma pause_then_resume_keeps_time_witness :
  let s := ticks (secondsAfter jan1_2024 100)
             (applyTimer (H := utcHost) jan1_2024
                (sampleApp PopDuration 5 "12" "00" AM)) in
  ∃ t',
    timers (pauseResumeTimer (jan1_2024 + 900000) (jan1_2024 + 900000)
              "1704067200000"
              (pauseResumeTimer (jan1_2024 + 100000) (jan1_2024 + 100000)
                 "1704067200000" s)) !! "1704067200000"%string
      = Some t'
    ∧ isRunning t' = true ∧ remainingSeconds t' = Some 200
    ∧ elapsedSeconds t' = Some 100.
Proof.
  cbv zeta.
  destruct (pause_then_resume_keeps_time (jan1_2024 + 100000)
              (jan1_2024 + 100000) (jan1_2024 + 900000) (jan1_2024 + 900000)
              "1704067200000"
              (ticks (secondsAfter jan1_2024 100)
                 (applyTimer (H := utcHost) jan1_2024
                    (sampleApp PopDuration 5 "12" "00" AM)))
              goals
              (mkTimer countdown 0 (Some 200) (Some 300) (Some 100) None true
                 None (Some 300) "Read" goals)
              eq_refl eq_refl eq_refl eq_refl)
    as (t' & Ht' & Hrun & _ & _ & Hrem & Hel & _).
  exists t'. repeat split; assumption.
Defined.

(** X6. A countdown without deadline that ran out can be resumed: the next
    tick stops it again at zero, counts one more elapsed second and logs the
    task once more, with the new elapsed time as duration. *)
Theorem resumed_expired_countdown_logs_again (r1 r2 now : Z)
    (logNow : string -> Z) (id : string) (s : App) (c : Category)
    (t : TimerState) (e : Z) :
  tab s = TabTask c →
  timers s !! id = Some t →
  mode t = countdown → isRunning t = false →
  remainingSeconds t = Some 0 → elapsedSeconds t = Some e → 0 <= e →
  targetTimeMs t = None →
  now / 1000 ≠ lastTick s →
  let s' := tick now logNow (pauseResumeTimer r1 r2 id s) in
  ∃ t' entry,
    timers s' !! id = Some t'
    ∧ isRunning t' = false ∧ remainingSeconds t' = Some 0
    ∧ elapsedSeconds t' = Some (e + 1)
    ∧ filter (fun x => itemId x = id) (drop (length (logs s)) (logs s')) = [entry]
    ∧ durationSeconds entry = e + 1.
Proof.
  intros Htab Hm Hmode Hrun Hrem Hel He Hdl Hsec s'.
  set (s1 := pauseResumeTimer r1 r2 id s).
  assert (Hs1 : timers s1 !! id
            = Some (mkTimer countdown (seconds t) (Some 0) (totalSeconds t)
                      (Some e) None true None (Some 0) (timerText t)
                      (timerTab t))).
  { subst s1. unfold pauseResumeTimer. rewrite Htab, Hm, Hrun, Hmode, Hdl.
    cbn. rewrite lookup_insert_eq, Hrem, Hel. reflexivity. }
  destruct (pauseResumeTimer_frame r1 r2 id s)
    as (_ & _ & _ & Hlogs1 & _ & Hlt & _). fold s1 in Hlogs1, Hlt.
  assert (Hsec1 : now / 1000 ≠ lastTick s1) by now rewrite Hlt.
  destruct (tick_fresh now logNow s1 Hsec1) as (_ & Hlogs & _).
  pose proof (tick_fresh_lookup now logNow s1 id Hsec1) as Hlk.
  pose proof (tickLogs_filter logNow id _ _ Hs1) as Hfil.
  rewrite Hs1 in Hlk. cbn [fmap option_fmap option_map] in Hlk.
  rewrite (tickTimer_countdown_last _ _ _ 0 e) in Hlk, Hfil
    by (reflexivity || lia).
  cbn [fst snd option_list] in Hlk, Hfil.
  eexists _, _. split; [exact Hlk |]. cbn.
  repeat split.
  - subst s'. fold s1. rewrite Hlogs, Hlogs1, drop_app_length. exact Hfil.
  - reflexivity.
Qed.

Lemma resumed_expired_countdown_logs_again_witness :
  let s := ticks (secondsAfter jan1_2024 60)
             (applyTimer (H := utcHost) jan1_2024
                (sampleApp PopDuration 1 "12" "00" AM)) in
  let s' := tick (jan1_2024 + 61000) (fun _ => jan1_2024 + 61000)
              (pauseResumeTimer (jan1_2024 + 60500) (jan1_2024 + 60500)
                 "1704067200000" s) in
  ∃ t' entry,
    timers s' !! "1704067200000"%string = Some t'
    ∧ isRunning t' = false ∧ remainingSeconds t' = Some 0
    ∧ elapsedSeconds t' = Some (60 + 1)
    ∧ filter (fun x => itemId x = "1704067200000"%string)
        (drop (length (logs s)) (logs s')) = [entry]
    ∧ durationSeconds entry = 60 + 1.
Proof.
  cbv zeta.
  apply (resumed_expired_countdown_logs_again (jan1_2024 + 60500)
           (jan1_2024 + 60500) (jan1_2024 + 61000) (fun _ => jan1_2024 + 61000)
           "1704067200000" _ goals
           (mkTimer countdown 0 (Some 0) (Some 60) (Some 60) None false None
              None "Read" goals) 60);
    try reflexivity; try lia.
  vm_compute. discriminate.
Defined.

(* ===================================================================== *)
(** * Invariants of the runs of the component                             *)
(* ===================================================================== *)

Lemma tickTimer_ok (now : Z) (id : string) (t : TimerState) :
  timer_ok t → timer_ok (tickTimer now id t).1.
Proof.
  unfold tickTimer, timer_ok. destruct (isRunning t); [| easy]. cbn [negb].
  destruct (mode t) eqn:Hmode.
  - intros (r & e & tot & Hr & He & Htot & Hr0 & He0 & Htot0 & Hdl).
    rewrite Hr, He. unfold default. cbn [from_option]. unfold Datatypes.id.
    destruct (Z.max 0 (r - 1) =? 0); cbn;
      exists (Z.max 0 (r - 1)), (e + 1), tot;
      (split; [reflexivity |]); (split; [reflexivity |]);
      (split; [exact Htot |]); (split; [lia |]); (split; [lia |]);
      (split; [exact Htot0 |]);
      intros Hnone; specialize (Hdl Hnone); lia.
  - cbn. lia.
Qed.

Lemma pauseResumeTimer_timer_ok (now1 now2 : Z) (id : string) (s : App) :
  map_Forall (fun _ t => timer_ok t) (timers s) →
  map_Forall (fun _ t => timer_ok t) (timers (pauseResumeTimer now1 now2 id s)).
Proof.
  intros Hok. unfold pauseResumeTimer.
  destruct (tab s); [| exact Hok].
  destruct (timers s !! id) as [current |] eqn:Hm; [| exact Hok].
  pose proof (Hok id current Hm) as Hcur. unfold timer_ok in Hcur.
  destruct (isRunning current); cbn; apply map_Forall_insert_2; try exact Hok;
    unfold timer_ok; cbn; destruct (mode current); try exact Hcur.
  destruct Hcur as (r & e & tot & Hr & He & Htot & Hr0 & He0 & Htot0 & Hdl).
  destruct (targetTimeMs current) as [target |].
  - exists (Z.max 0 (ceil_div1000 (target - now2))), e, tot.
    split; [reflexivity |]. split; [exact He |]. split; [exact Htot |].
    split; [lia |]. split; [exact He0 |]. split; [exact Htot0 | discriminate].
  - exists r, e, tot.
    split; [exact Hr |]. split; [exact He |]. split; [exact Htot |].
    split; [exact Hr0 |]. split; [exact He0 |]. split; [exact Htot0 |].
    intros _. now apply Hdl.
Qed.

Lemma clampMinutes_range (value : Z) : 1 <= clampMinutes value <= 1440.
Proof. unfold clampMinutes. lia. Qed.

Lemma applyTimer_timer_ok `{DateHost} (now : Z) (s : App) :
  map_Forall (fun _ t => timer_ok t) (timers s) →
  map_Forall (fun _ t => timer_ok t) (timers (applyTimer now s)).
Proof.
  intros Hok. unfold applyTimer.
  destruct (tab s); [| exact Hok].
  destruct (negb (truthy (timerPopupItemId s))); [exact Hok |].
  destruct (findById _ _) as [item |]; [| exact Hok].
  destruct (completed item); [exact Hok |].
  destruct (timerPopupMode s); cbn; apply map_Forall_insert_2; try exact Hok;
    unfold timer_ok; cbn.
  - pose proof (clampMinutes_range (timerPopupMinutes s)).
    eexists _, _, _.
    split; [reflexivity |]. split; [reflexivity |]. split; [reflexivity |].
    split; [lia |]. split; [lia |]. split; [lia |]. intros _. lia.
  - eexists _, _, _.
    split; [reflexivity |]. split; [reflexivity |]. split; [reflexivity |].
    split; [lia |]. split; [lia |]. split; [lia | discriminate].
  - lia.
Qed.

Lemma tick_timer_ok (now : Z) (logNow : string -> Z) (s : App) :
  map_Forall (fun _ t => timer_ok t) (timers s) →
  map_Forall (fun _ t => timer_ok t) (timers (tick now logNow s)).
Proof.
  intros Hok id t Hlk.
  destruct (Z.eq_dec (now / 1000) (lastTick s)) as [Hsec | Hsec].
  - rewrite tick_same_second in Hlk by exact Hsec. exact (Hok id t Hlk).
  - rewrite tick_fresh_lookup in Hlk by exact Hsec.
    destruct (timers s !! id) as [t0 |] eqn:Hm; [| discriminate].
    injection Hlk as <-. apply tickTimer_ok. exact (Hok id t0 Hm).
Qed.

Lemma toggleComplete_timers (tBuild tAppend : Z) (id : string) (s : App) :
  timers (toggleComplete tBuild tAppend id s) = timers s
  ∨ timers (toggleComplete tBuild tAppend id s) = delete id (timers s).
Proof.
  unfold toggleComplete. destruct (tab s) as [c |] eqn:Htab; [| now left].
  destruct (findById id (sel c (items s))) as [item |]; [| now left].
  right. destruct (completed item); now apply completeTask_timers with c.
Qed.

Section RunInvariants.
Context `{DateHost} `{TextHost}.

Lemma handle_timer_ok (ev : Event) (w : Widget) :
  map_Forall (fun _ t => timer_ok t) (timers (app w)) →
  map_Forall (fun _ t => timer_ok t) (timers (app (handle ev w))).
Proof.
  intros Hok. destruct ev; cbn [handle app setApp]; try exact Hok.
  - now apply applyTimer_timer_ok.
  - now apply tick_timer_ok.
  - now apply pauseResumeTimer_timer_ok.
  - destruct (toggleComplete_timers tBuild tAppend id (app w)) as [-> | ->];
      [exact Hok | now apply map_Forall_delete].
  - unfold reorderItems. destruct (decide _); [exact Hok |].
    now destruct (reorderList _ _ _).
  - unfold addItem. destruct (String.eqb _ _); [exact Hok |].
    now destruct (tab (app w)).
  - unfold deleteItem. destruct (tab (app w)); [| exact Hok].
    cbn. now apply map_Forall_delete.
Qed.

(** X7. In every state the component reaches from one whose timers are in
    order, they are in order: a countdown has non-negative remaining and
    elapsed seconds and a total of at least 60; without a deadline its
    remaining seconds do not exceed the total and add up with the elapsed
    ones to the total while time remains; a stopwatch has non-negative
    seconds. *)
Theorem run_keeps_timers_ok (evs : list Event) (w : Widget) :
  map_Forall (fun _ t => timer_ok t) (timers (app w)) →
  map_Forall (fun _ t => timer_ok t) (timers (app (run evs w))).
Proof.
  revert w. unfold run. induction evs as [| ev evs IH]; intros w Hok;
    [exact Hok |].
  cbn. apply IH. now apply handle_timer_ok.
Qed.

Lemma tickTimer_entry_ok (now : Z) (id : string) (t : TimerState) (e : LogEntry) :
  (tickTimer now id t).2 = Some e → entry_ok e.
Proof.
  unfold tickTimer. destruct (negb (isRunning t)); [discriminate |].
  destruct (mode t); [| discriminate].
  destruct (_ =? 0); [| discriminate].
  destruct (0 <? _) eqn:Hpos; [| discriminate].
  apply Z.ltb_lt in Hpos. intros [= <-]. unfold entry_ok. cbn.
  repeat split. lia.
Qed.

Lemma tickLogs_entry_ok (logNow : string -> Z) (m : gmap string TimerState) :
  Forall entry_ok (tickLogs logNow m).
Proof.
  apply Forall_forall. intros e He. unfold tickLogs in He.
  apply list_elem_of_omap in He as ([id t] & _ & He).
  eapply tickTimer_entry_ok, He.
Qed.

Lemma tick_appends (now : Z) (logNow : string -> Z) (s : App) :
  ∃ added, logs (tick now logNow s) = logs s ++ added ∧ Forall entry_ok added.
Proof.
  destruct (Z.eq_dec (now / 1000) (lastTick s)) as [Hsec | Hsec].
  - exists []. rewrite tick_same_second by exact Hsec.
    now rewrite app_nil_r.
  - destruct (tick_fresh now logNow s Hsec) as (_ & Hlogs & _).
    eexists. split; [exact Hlogs | apply tickLogs_entry_ok].
Qed.

Lemma appendLogEntry_appends (now : Z) (entry : LogEntry) (s : App) :
  entry_ok entry →
  ∃ added, logs (appendLogEntry now entry s) = logs s ++ added
           ∧ Forall entry_ok added.
Proof.
  intros Hok. destruct (appendLogEntry_cases now entry s) as [-> | ->].
  - exists []. now rewrite app_nil_r.
  - exists [entry]. split; [reflexivity | now constructor].
Qed.

Lemma buildLogEntry_ok (now : Z) (item : Item) (duration : Z) (c : Category) :
  0 <= duration → entry_ok (buildLogEntry now item duration c).
Proof. intros Hd. unfold entry_ok. cbn. now repeat split. Qed.

Lemma completeTask_appends (tBuild tAppend : Z) (id : string) (s : App) :
  ∃ added, logs (completeTask tBuild tAppend id s) = logs s ++ added
           ∧ Forall entry_ok added.
Proof.
  unfold completeTask. destruct (tab s) as [c |];
    [| exists []; now rewrite app_nil_r].
  match goal with
  | |- context [setTimers _ (setItems _ ?s1)] =>
      assert (Hs1 : ∃ added, logs s1 = logs s ++ added ∧ Forall entry_ok added)
  end.
  { destruct (findById id (sel c (items s))) as [item |];
      [| exists []; now rewrite app_nil_r].
    destruct (negb (completed item)); [| exists []; now rewrite app_nil_r].
    destruct (getTimerDuration (timers s !! id)) as [d |].
    - destruct (0 <? d) eqn:Hd; apply appendLogEntry_appends,
        buildLogEntry_ok; [apply Z.ltb_lt in Hd |]; lia.
    - apply appendLogEntry_appends, buildLogEntry_ok. lia. }
  destruct (findById id (map _ _)) as [t |]; [destruct (completed t) |];
    exact Hs1.
Qed.

Lemma handle_appends (ev : Event) (w : Widget) :
  deletesLogs ev = false →
  ∃ added, logs (app (handle ev w)) = logs (app w) ++ added
           ∧ Forall entry_ok added.
Proof.
  intros Hev.
  assert (Hnil : ∃ added, logs (app w) = logs (app w) ++ added
                          ∧ Forall entry_ok added)
    by (exists []; now rewrite app_nil_r).
  destruct ev; try discriminate; cbn [handle app setApp]; try exact Hnil.
  - unfold applyTimer. destruct (tab (app w)); [| exact Hnil].
    destruct (negb _); [exact Hnil |].
    destruct (findById _ _) as [item |]; [| exact Hnil].
    destruct (completed item); [exact Hnil |].
    destruct (timerPopupMode (app w)); exact Hnil.
  - apply tick_appends.
  - destruct (pauseResumeTimer_frame now1 now2 id (app w))
      as (_ & _ & _ & -> & _). exact Hnil.
  - unfold toggleComplete. destruct (tab (app w)) as [c |]; [| exact Hnil].
    destruct (findById id _) as [item |]; [| exact Hnil].
    destruct (completed item); apply completeTask_appends.
  - unfold reorderItems. destruct (decide _); [exact Hnil |].
    destruct (reorderList _ _ _); exact Hnil.
  - unfold addItem. destruct (String.eqb _ _); [exact Hnil |].
    destruct (tab (app w)); exact Hnil.
  - unfold deleteItem. destruct (tab (app w)); exact Hnil.
Qed.

(** X8. The log is append-only under every command but the two deletions:
    a run without them extends the log at its end, and each entry it adds
    has a non-negative duration, starts that many seconds before it ends,
    and has the id made of its end time and task id. *)
Theorem run_appends_to_log (evs : list Event) (w : Widget) :
  Forall (fun ev => deletesLogs ev = false) evs →
  ∃ added, logs (app (run evs w)) = logs (app w) ++ added
           ∧ Forall entry_ok added.
Proof.
  revert w. unfold run. induction evs as [| ev evs IH]; intros w Hevs.
  - exists []. now rewrite app_nil_r.
  - apply Forall_cons in Hevs as [Hev Hevs]. cbn.
    destruct (handle_appends ev w Hev) as (a1 & Hl1 & Hok1).
    destruct (IH (handle ev w) Hevs) as (a2 & Hl2 & Hok2).
    exists (a1 ++ a2). rewrite Hl2, Hl1, app_assoc.
    split; [reflexivity | now apply Forall_app_2].
Qed.

(** X9. Whatever the component does, deletions included, a log whose
    entries are well formed (non-negative duration, start and end that
    far apart, id made of end time and task id) stays so. *)
Theorem run_keeps_log_ok (evs : list Event) (w : Widget) :
  Forall entry_ok (logs (app w)) →
  Forall entry_ok (logs (app (run evs w))).
Proof.
  revert w. unfold run. induction evs as [| ev evs IH]; intros w Hok;
    [exact Hok |].
  cbn. apply IH.
  destruct (deletesLogs ev) eqn:Hev.
  - destruct ev; try discriminate; cbn; now apply Forall_filter_keeps.
  - destruct (handle_appends ev w Hev) as (added & -> & Hadded).
    now apply Forall_app_2.
Qed.

End RunInvariants.

Lemma run_keeps_timers_ok_witness :
  map_Forall (fun _ t => timer_ok t)
    (timers (app (run (H := utcHost) (H0 := utcText)
       [EvApplyTimer jan1_2024;
        EvTick (jan1_2024 + 1000) (fun _ => jan1_2024 + 1000);
        EvPauseResume (jan1_2024 + 1500) (jan1_2024 + 1500) "1704067200000";
        EvPauseResume (jan1_2024 + 9000) (jan1_2024 + 9000) "1704067200000";
        EvTick (jan1_2024 + 10000) (fun _ => jan1_2024 + 10000)]
       (sampleWidget (sampleApp PopTarget 30 "12" "02" AM))))).
Proof.
  apply (run_keeps_timers_ok (H := utcHost) (H0 := utcText)).
  apply map_Forall_empty.
Defined.

Lemma run_appends_to_log_witness :
  ∃ added,
    logs (app (run (H := utcHost) (H0 := utcText)
      (EvApplyTimer jan1_2024
       :: map (fun ev => EvTick ev.1 ev.2) (secondsAfter jan1_2024 60)
       ++ [EvToggle (jan1_2024 + 75000) (jan1_2024 + 75000) "1704067200000";
           EvDeleteItem "Mon Jan 01 2024" "1704067200000"])
      (sampleWidget (sampleApp PopDuration 1 "12" "00" AM))))
    = [] ++ added
    ∧ Forall entry_ok added.
Proof.
  apply (run_appends_to_log (H := utcHost) (H0 := utcText)).
  apply Forall_forall. intros ev Hev.
  apply elem_of_cons in Hev as [-> | Hev]; [reflexivity |].
  apply elem_of_app in Hev as [Hev | Hev].
  - apply list_elem_of_fmap in Hev as (x & -> & _). reflexivity.
  - apply elem_of_cons in Hev as [-> | Hev]; [reflexivity |].
    apply elem_of_cons in Hev as [-> | Hev]; [reflexivity |].
    now apply elem_of_nil in Hev.
Defined.

Lemma run_keeps_log_ok_witness :
  Forall entry_ok
    (logs (app (run (H := utcHost) (H0 := utcText)
       [EvDeleteLog "1704067260000-1704067200000";
        EvToggle (jan1_2024 + 75000) (jan1_2024 + 75000) "1704067200000"]
       (sampleWidget expiredThenChecked)))).
Proof.
  apply (run_keeps_log_ok (H := utcHost) (H0 := utcText)).
  unfold sampleWidget. cbn [app].
  assert (Hl : ∃ e1 e2, logs expiredThenChecked = [e1; e2]
                        ∧ entry_ok e1 ∧ entry_ok e2).
  { vm_compute. eexists _, _. repeat split; discriminate. }
  destruct Hl as (e1 & e2 & -> & H1 & H2).
  constructor; [exact H1 | constructor; [exact H2 | constructor]].
Defined.

(* ===================================================================== *)
(** * Further properties of the task store                                *)
(* ===================================================================== *)

(** What [completeTask] records as the item's [elapsedSeconds]. *)
Lemma completeTask_list_of (tBuild tAppend : Z) (id : string) (s : App)
    (c : Category) :
  tab s = TabTask c →
  let ts := match timers s !! id with
            | Some t => match mode t with
                        | countdown => elapsedSeconds t
                        | stopwatch => Some (seconds t)
                        end
            | None => None
            end in
  let rest := filter (fun entry => iid entry ≠ id) (sel c (items s)) in
  let incomplete := filter (fun entry => completed entry = false) rest in
  let completed_ := filter (fun entry => completed entry = true) rest in
  sel c (items (completeTask tBuild tAppend id s))
  = match findById id (sel c (items s)) with
    | Some item =>
        if completed item
        then (incomplete ++ [toggleItem ts item]) ++ completed_
        else incomplete ++ (completed_ ++ [toggleItem ts item])
    | None => incomplete ++ completed_
    end.
Proof.
  intros Htab. cbv zeta. unfold completeTask. rewrite Htab.
  rewrite findById_toggle, rest_toggle.
  destruct (findById id (sel c (items s))) as [item |];
    cbn [fmap option_fmap option_map].
  - unfold toggleItem at 1. cbn [completed].
    destruct (completed item); cbn [negb items setTimers setItems];
      now rewrite sel_upd.
  - cbn [items setTimers setItems]. now rewrite sel_upd.
Qed.

(** X10. Checking off an incomplete task appends one log entry for it: its
    duration is the time on the task's timer (elapsed seconds of a
    countdown, seconds of a stopwatch; 0 without a timer or when that time
    is not positive) and its tab is the timer's (the current one without a
    timer), unless the same duration was logged for the task less than
    1.5 s before. The task goes to the end of the list, completed, with the
    timer's seconds recorded. *)
Theorem completing_logs_timer_time (tBuild tAppend : Z) (id : string) (s : App)
    (c : Category) (item : Item) :
  tab s = TabTask c →
  findById id (sel c (items s)) = Some item →
  completed item = false →
  let duration := match getTimerDuration (timers s !! id) with
                  | Some d => Z.max 0 d
                  | None => 0
                  end in
  (∀ time d, lastLog s !! id = Some (time, d) →
             ¬ (tAppend - time < 1500 ∧ d = duration)) →
  let s' := toggleComplete tBuild tAppend id s in
  let entryTab := match timers s !! id with
                  | Some t => timerTab t
                  | None => c
                  end in
  logs s' = logs s ++ [buildLogEntry tBuild item duration entryTab]
  ∧ lastLog s' !! id = Some (tAppend, duration)
  ∧ ∃ item', last (sel c (items s')) = Some item'
             ∧ iid item' = id ∧ itext item' = itext item
             ∧ completed item' = true
             ∧ ielapsed item'
               = match timers s !! id with
                 | Some t => match mode t with
                             | countdown =>
                                 match elapsedSeconds t with
                                 | Some x => Some x
                                 | None => ielapsed item
                                 end
                             | stopwatch => Some (seconds t)
                             end
                 | None => ielapsed item
                 end.
Proof.
  intros Htab Hfind Hdone duration Hfresh s' entryTab.
  pose proof (findById_Some _ _ _ Hfind) as [_ Hid].
  assert (Hs' : s' = completeTask tBuild tAppend id s).
  { subst s'. unfold toggleComplete. now rewrite Htab, Hfind, Hdone. }
  assert (Happ : ∀ e, itemId e = id → durationSeconds e = duration →
            logs (appendLogEntry tAppend e s) = logs s ++ [e]
            ∧ lastLog (appendLogEntry tAppend e s) !! id = Some (tAppend, duration)).
  { intros e Heid Hdur. unfold appendLogEntry. rewrite Heid, Hdur.
    destruct (lastLog s !! id) as [[time d] |] eqn:Hlast.
    - destruct ((tAppend - time <? 1500) && (d =? duration)) eqn:Hdup.
      + apply andb_true_iff in Hdup as [Hnear Hsame].
        apply Z.ltb_lt in Hnear. apply Z.eqb_eq in Hsame.
        destruct (Hfresh time d eq_refl). now split.
      + cbn. split; [reflexivity | apply lookup_insert_eq].
    - cbn. split; [reflexivity | apply lookup_insert_eq]. }
  assert (Hlog : logs s' = logs s ++ [buildLogEntry tBuild item duration entryTab]
                 ∧ lastLog s' !! id = Some (tAppend, duration)).
  { rewrite Hs'. unfold completeTask. rewrite Htab, Hfind, Hdone.
    cbn [negb]. fold entryTab.
    assert (Hbuilt : ∀ d, d = duration →
              logs (appendLogEntry tAppend (buildLogEntry tBuild item d entryTab) s)
              = logs s ++ [buildLogEntry tBuild item duration entryTab]
              ∧ lastLog (appendLogEntry tAppend
                           (buildLogEntry tBuild item d entryTab) s) !! id
                = Some (tAppend, duration)).
    { intros d ->. now apply Happ. }
    destruct (findById id (map _ _)) as [t |]; [destruct (completed t) |];
      cbn [logs lastLog setTimers setItems]; subst duration;
      (destruct (getTimerDuration (timers s !! id)) as [d |];
       [destruct (0 <? d) eqn:Hd;
        [apply Z.ltb_lt in Hd | apply Z.ltb_ge in Hd] |]);
      apply Hbuilt; lia. }
  destruct Hlog as [Hlogs Hlast]. split; [exact Hlogs |]. split; [exact Hlast |].
  pose proof (completeTask_list_of tBuild tAppend id s c Htab) as Hl.
  cbv zeta in Hl. rewrite Hfind, Hdone in Hl. rewrite Hs', Hl.
  eexists. rewrite app_assoc, last_snoc. split; [reflexivity |].
  cbn. rewrite Hdone. repeat split; try assumption.
  destruct (timers s !! id) as [t |]; [| reflexivity].
  destruct (mode t); [| reflexivity]. now destruct (elapsedSeconds t).
Qed.

Lemma completing_logs_timer_time_witness :
  let s' := toggleComplete (jan1_2024 + 90500) (jan1_2024 + 90600)
              "1704067260000" unsortedApp in
  logs s' = [] ++ [buildLogEntry (jan1_2024 + 90500) newTask 0 goals]
  ∧ lastLog s' !! "1704067260000"%string = Some (jan1_2024 + 90600, 0).
Proof.
  cbv zeta.
  destruct (completing_logs_timer_time (jan1_2024 + 90500) (jan1_2024 + 90600)
              "1704067260000" unsortedApp goals newTask
              eq_refl eq_refl eq_refl)
    as (Hlogs & Hlast & _).
  - intros time d Hlk. vm_compute in Hlk. discriminate Hlk.
  - split; [exact Hlogs | exact Hlast].
Defined.

(** X11. Un-checking a completed task leaves the log and the log builder's
    bookkeeping as they are; the task becomes incomplete and its timer, if
    any, is removed. *)
Theorem uncompleting_keeps_log (tBuild tAppend : Z) (id : string) (s : App)
    (c : Category) (item : Item) :
  tab s = TabTask c →
  findById id (sel c (items s)) = Some item →
  completed item = true →
  let s' := toggleComplete tBuild tAppend id s in
  logs s' = logs s ∧ lastLog s' = lastLog s
  ∧ timers s' = delete id (timers s)
  ∧ ∃ item', item' ∈ sel c (items s') ∧ iid item' = id
             ∧ itext item' = itext item ∧ completed item' = false.
Proof.
  intros Htab Hfind Hdone s'.
  pose proof (findById_Some _ _ _ Hfind) as [_ Hid].
  assert (Hs' : s' = completeTask tBuild tAppend id s).
  { subst s'. unfold toggleComplete. now rewrite Htab, Hfind, Hdone. }
  split; [| split; [| split]].
  - rewrite Hs'. unfold completeTask. rewrite Htab, Hfind, Hdone. cbn [negb].
    destruct (findById id (map _ _)) as [t |]; [destruct (completed t) |];
      reflexivity.
  - rewrite Hs'. unfold completeTask. rewrite Htab, Hfind, Hdone. cbn [negb].
    destruct (findById id (map _ _)) as [t |]; [destruct (completed t) |];
      reflexivity.
  - rewrite Hs'. now apply completeTask_timers with c.
  - pose proof (completeTask_list_of tBuild tAppend id s c Htab) as Hl.
    cbv zeta in Hl. rewrite Hfind, Hdone in Hl. rewrite Hs', Hl.
    eexists. split.
    + apply elem_of_app. left. apply elem_of_app. right. apply list_elem_of_singleton.
      reflexivity.
    + cbn. rewrite Hdone. now repeat split.
Qed.

Lemma uncompleting_keeps_log_witness :
  let s' := toggleComplete jan1_2024 jan1_2024 "1704067200000" unsortedApp in
  logs s' = logs unsortedApp ∧ lastLog s' = lastLog unsortedApp.
Proof.
  cbv zeta.
  destruct (uncompleting_keeps_log jan1_2024 jan1_2024 "1704067200000"
              unsortedApp goals doneTask eq_refl eq_refl eq_refl)
    as (Hlogs & Hlast & _).
  split; [exact Hlogs | exact Hlast].
Defined.

Lemma filter_none {A} (P : A → Prop) `{∀ x, Decision (P x)} (l : list A) :
  Forall (fun x => ¬ P x) l → filter P l = [].
Proof.
  induction 1 as [| x l Hx _ IH]; [reflexivity |].
  now rewrite filter_cons_False.
Qed.

(** Lists of items with pairwise distinct ids. *)
Lemma filter_by_id_unique (id : string) (l : list Item) (item : Item) :
  NoDup (iid <$> l) → findById id l = Some item →
  filter (fun x => iid x = id) l = [item].
Proof.
  unfold findById. induction l as [| x l IH]; intros Hnd Hfind; [discriminate |].
  cbn in Hnd, Hfind. apply NoDup_cons in Hnd as [Hx Hnd].
  destruct (decide (iid x = id)) as [Hid | Hid].
  - cbn in Hfind. injection Hfind as <-.
    rewrite filter_cons_True by exact Hid. f_equal.
    apply filter_none. apply Forall_forall. intros y Hy Hyid.
    apply Hx. apply list_elem_of_fmap. exists y. split; [congruence | exact Hy].
  - rewrite filter_cons_False by exact Hid. apply IH; [exact Hnd |].
    destruct (list_find _ l) as [[i y] |]; [| discriminate].
    cbn in Hfind |- *. congruence.
Qed.

Lemma filter_by_id_none (id : string) (l : list Item) :
  findById id l = None → filter (fun x => iid x = id) l = [].
Proof.
  unfold findById. intros Hfind.
  destruct (list_find _ l) as [[i y] |] eqn:Hl; [discriminate |].
  apply list_find_None in Hl. apply filter_none. exact Hl.
Qed.

Lemma split_by_completed (l : list Item) :
  filter (fun x => completed x = false) l ++ filter (fun x => completed x = true) l
  ≡ₚ l.
Proof.
  rewrite <- (filter_app_complement (fun x => completed x = false) l) at 3.
  apply Permutation_app_head.
  rewrite (list_filter_iff (fun x => completed x = true)
             (fun x => ¬ completed x = false)); [reflexivity |].
  intros x. destruct (completed x); split; congruence.
Qed.

Lemma split_by_id (id : string) (l : list Item) :
  filter (fun x => iid x = id) l ++ filter (fun x => iid x ≠ id) l ≡ₚ l.
Proof. apply filter_app_complement. Qed.

(** X12. When the ids of the list are pairwise distinct, [completeTask]
    loses and duplicates no task: the stored list is a rearrangement of the
    old one in which only the task with the given id is changed. *)
Theorem completeTask_keeps_tasks (tBuild tAppend : Z) (id : string) (s : App)
    (c : Category) :
  tab s = TabTask c →
  NoDup (iid <$> sel c (items s)) →
  ∃ ts,
    sel c (items (completeTask tBuild tAppend id s))
    ≡ₚ map (fun item => if decide (iid item = id)
                        then toggleItem ts item else item)
           (sel c (items s)).
Proof.
  intros Htab Hnd.
  pose proof (completeTask_list_of tBuild tAppend id s c Htab) as Hl.
  cbv zeta in Hl.
  match type of Hl with context [toggleItem ?ts0] => exists ts0; set (ts := ts0) in * end.
  set (l := sel c (items s)) in *.
  set (f := fun item => if decide (iid item = id) then toggleItem ts item else item).
  rewrite Hl. rewrite <- (split_by_id id (map f l)).
  unfold f at 2. rewrite rest_toggle.
  assert (Hids : iid <$> map f l = iid <$> l).
  { rewrite <- list_fmap_compose. apply list_fmap_ext. intros i x _.
    unfold f. cbn. now destruct (decide _). }
  assert (Hnd' : NoDup (iid <$> map f l)) by now rewrite Hids.
  pose proof (findById_toggle id ts l) as Hfind. fold f in Hfind.
  destruct (findById id l) as [item |] eqn:Hitem; cbn in Hfind.
  - rewrite (filter_by_id_unique id (map f l) _ Hnd' Hfind).
    destruct (completed item).
    + rewrite <- app_assoc. cbn.
      rewrite <- Permutation_middle. constructor. apply split_by_completed.
    + rewrite app_assoc, <- Permutation_cons_append. constructor.
      apply split_by_completed.
  - rewrite (filter_by_id_none id (map f l) Hfind). cbn.
    apply split_by_completed.
Qed.

Lemma completeTask_keeps_tasks_witness :
  ∃ ts,
    sel goals (items (completeTask jan1_2024 jan1_2024 "1704067260000"
                        unsortedApp))
    ≡ₚ map (fun item => if decide (iid item = "1704067260000"%string)
                        then toggleItem ts item else item)
           [doneTask; newTask].
Proof.
  apply (completeTask_keeps_tasks jan1_2024 jan1_2024 "1704067260000"
           unsortedApp goals eq_refl).
  apply (bool_decide_unpack _). vm_compute. exact I.
Defined.

(** X13. When the ids of the list are pairwise distinct, dragging loses
    and duplicates no task: the list [reorderItems] stores is a
    rearrangement of the old one. *)
Theorem reorderItems_keeps_tasks (a : Category) (sourceId targetId : string)
    (s : App) :
  NoDup (iid <$> sel a (items s)) →
  sel a (items (reorderItems a sourceId targetId s)) ≡ₚ sel a (items s).
Proof.
  intros Hnd. unfold reorderItems.
  destruct (decide (sourceId = targetId)); [reflexivity |].
  destruct (reorderList sourceId targetId (sel a (items s))) as [l' |] eqn:Hre;
    [| reflexivity].
  cbn. rewrite sel_upd. revert Hre. unfold reorderList.
  set (l := sel a (items s)) in *.
  destruct (findById sourceId l) as [source |] eqn:Hsrc; [| discriminate].
  destruct (completed source) eqn:Hdone; [discriminate |].
  set (incomplete := filter (fun item => completed item = false ∧ iid item ≠ sourceId) l).
  set (completed_ := filter (fun item => completed item = true) l).
  assert (Hbase : source :: incomplete ++ completed_ ≡ₚ l).
  { etrans; [| apply (split_by_completed l)].
    rewrite app_comm_cons. apply Permutation_app_tail.
    etrans; [| apply (split_by_id sourceId)].
    rewrite !list_filter_filter.
    assert (Hone : filter (fun x => iid x = sourceId ∧ completed x = false) l
                   = [source]).
    { rewrite (list_filter_iff _
                 (fun x => completed x = false ∧ iid x = sourceId))
        by (intros x; tauto).
      rewrite <- list_filter_filter.
      rewrite (filter_by_id_unique sourceId l source Hnd Hsrc).
      now rewrite filter_cons_True, filter_nil by exact Hdone. }
    rewrite Hone. cbn. constructor. subst incomplete.
    rewrite (list_filter_iff _
               (fun x => iid x ≠ sourceId ∧ completed x = false))
      by (intros x; tauto).
    reflexivity. }
  assert (Hend : (incomplete ++ [source]) ++ completed_ ≡ₚ l).
  { rewrite <- Hbase. rewrite <- Permutation_cons_append. reflexivity. }
  destruct (findById targetId l) as [target |]; [| now intros [= <-]].
  destruct (completed target); [now intros [= <-] |].
  destruct (findIndexById targetId incomplete) as [toIndex |]; [| discriminate].
  intros [= <-]. rewrite <- Hbase. unfold splice_in.
  rewrite <- app_assoc. cbn. rewrite <- Permutation_middle. constructor.
  now rewrite app_assoc, take_drop.
Qed.

Lemma reorderItems_keeps_tasks_witness :
  sel goals (items (reorderItems goals "1704067260000" "1704067200000"
                      unsortedApp))
  ≡ₚ [doneTask; newTask].
Proof.
  apply (reorderItems_keeps_tasks goals "1704067260000" "1704067200000"
           unsortedApp).
  apply (bool_decide_unpack _). vm_compute. exact I.
Defined.

(* ===================================================================== *)
(** * Properties of the skip list, of adding and of deleting              *)
(* ===================================================================== *)

Lemma setOrder_elem (x : string) (l : list string) :
  ∀ seen, x ∈ setOrder seen l ↔ x ∈ l ∧ x ∉ seen.
Proof.
  induction l as [| y r IH]; intros seen; cbn.
  - split; [intros Hx; now apply elem_of_nil in Hx | intros [Hx _]; exact Hx].
  - destruct (decide (y ∈ seen)) as [Hy | Hy].
    + rewrite IH, elem_of_cons. split.
      * intros [Hr Hs]. split; [now right | exact Hs].
      * intros [[-> | Hr] Hs]; [contradiction | now split].
    + rewrite !elem_of_cons, IH, not_elem_of_cons. split.
      * intros [-> | [Hr [Hne Hs]]]; split; auto.
      * intros [[-> | Hr] Hs]; [now left |].
        destruct (decide (x = y)) as [-> | Hne]; [now left | right; auto].
Qed.

Lemma setOrder_NoDup (l : list string) : ∀ seen, NoDup (setOrder seen l).
Proof.
  induction l as [| y r IH]; intros seen; cbn; [constructor |].
  destruct (decide (y ∈ seen)); [apply IH |].
  apply NoDup_cons. split; [| apply IH].
  rewrite setOrder_elem, not_elem_of_cons. tauto.
Qed.

Lemma setAdd_elem (x id : string) (ids : list string) :
  x ∈ setAdd id ids ↔ x = id ∨ x ∈ ids.
Proof.
  unfold setAdd. destruct (decide (id ∈ ids)) as [Hin | Hin].
  - split; [now right | intros [-> | Hx]; assumption].
  - rewrite elem_of_app, list_elem_of_singleton. tauto.
Qed.

(** X14. [loadSkipState] always returns a skip list dated today, and a
    task is skipped after loading exactly when its id was stored, for its
    tab, under today's date: the list of another day is forgotten. *)
Theorem loadSkipState_today_only (raw : StoredSkip) (today : string) :
  skipDate (loadSkipState raw today) = today
  ∧ ∀ id c,
      isSkippedToday today (loadSkipState raw today) id c = true
      ↔ ∃ g w, raw = SkipData (Some today) g w
               ∧ id ∈ default [] (sel c (mkPerTab g w)).
Proof.
  assert (Hfresh : ∀ id c, isSkippedToday today (freshSkip today) id c = false).
  { intros id c. unfold isSkippedToday, freshSkip. cbn.
    rewrite bool_decide_eq_true_2 by reflexivity.
    destruct c; cbn; apply bool_decide_eq_false_2, not_elem_of_nil. }
  destruct raw as [| | date g w]; cbn.
  - split; [reflexivity |]. intros id c. rewrite Hfresh.
    split; [discriminate | intros (? & ? & ? & _); discriminate].
  - split; [reflexivity |]. intros id c. rewrite Hfresh.
    split; [discriminate | intros (? & ? & ? & _); discriminate].
  - destruct date as [d |].
    + destruct (decide (d ≠ today)) as [Hne | Heq].
      * split; [reflexivity |]. intros id c. rewrite Hfresh.
        split; [discriminate | intros (? & ? & [= ->] & _); contradiction].
      * apply dec_stable in Heq. subst d. split; [reflexivity |].
        intros id c. unfold isSkippedToday. cbn.
        rewrite bool_decide_eq_true_2 by reflexivity. cbn.
        rewrite bool_decide_eq_true. split.
        -- intros Hin. exists g, w. split; [reflexivity |]. now destruct c.
        -- intros (g' & w' & [= <- <-] & Hin). now destruct c.
    + split; [reflexivity |]. intros id c. rewrite Hfresh.
      split; [discriminate | intros (? & ? & ? & _); discriminate].
Qed.

(** X15. [deleteItem] on a task tab marks the task skipped for today and
    removes its timer; no other task changes its skipped status, and the
    tasks themselves and the log are left as they are. *)
Theorem deleteItem_skips_for_today (todayStr id : string) (w : Widget)
    (c : Category) :
  tab (app w) = TabTask c →
  let w' := deleteItem todayStr id w in
  isSkippedToday todayStr (skipState w') id c = true
  ∧ (∀ id' c', id' ≠ id ∨ c' ≠ c →
       isSkippedToday todayStr (skipState w') id' c'
       = isSkippedToday todayStr (skipState w) id' c')
  ∧ timers (app w') = delete id (timers (app w))
  ∧ items (app w') = items (app w)
  ∧ logs (app w') = logs (app w).
Proof.
  intros Htab w'. subst w'. unfold deleteItem. rewrite Htab.
  cbn [skipState setApp setSkipState app timers items logs setTimers].
  split; [| split; [| now repeat split]].
  - unfold isSkippedToday. cbn [skipDate skipIds].
    destruct (decide (skipDate (skipState w) = todayStr)) as [Hd | Hd];
      cbn [skipDate freshSkip]; rewrite sel_upd;
      rewrite bool_decide_eq_true_2 by (exact Hd || reflexivity); cbn;
      apply bool_decide_eq_true_2, setAdd_elem; now left.
  - intros id' c' Hother. unfold isSkippedToday. cbn [skipDate skipIds].
    destruct (decide (skipDate (skipState w) = todayStr)) as [Hd | Hd];
      cbn [skipDate skipIds freshSkip].
    + f_equal. apply bool_decide_ext.
      destruct c, c'; cbn; try reflexivity;
        rewrite setAdd_elem, setOrder_elem; split;
        try (intros [-> | [Hin _]]; [destruct Hother; congruence | exact Hin]);
        intros Hin; right; (split; [exact Hin | apply not_elem_of_nil]).
    + rewrite (bool_decide_eq_false_2 (skipDate (skipState w) = todayStr))
        by exact Hd.
      rewrite bool_decide_eq_true_2 by reflexivity. cbn.
      apply bool_decide_eq_false_2.
      destruct c, c'; cbn; try apply not_elem_of_nil;
        rewrite setAdd_elem; intros [-> | Hin];
        try (destruct Hother; congruence);
        now apply elem_of_nil in Hin.
Qed.

Lemma deleteItem_skips_for_today_witness :
  let w := sampleWidget unsortedApp in
  isSkippedToday "Mon Jan 01 2024"
    (skipState (deleteItem "Mon Jan 01 2024" "1704067260000" w))
    "1704067260000" goals = true
  ∧ isSkippedToday "Mon Jan 01 2024"
      (skipState (deleteItem "Mon Jan 01 2024" "1704067260000" w))
      "1704067200000" goals = false.
Proof.
  cbv zeta.
  destruct (deleteItem_skips_for_today "Mon Jan 01 2024" "1704067260000"
              (sampleWidget unsortedApp) goals eq_refl)
    as (Hskip & Hother & _).
  split; [exact Hskip |].
  rewrite (Hother "1704067200000"%string goals) by (left; discriminate).
  reflexivity.
Defined.

Section SkipAndAdd.
Context `{DateHost} `{TextHost}.

Lemma filterOutcome_without (id : string) (q : Item -> Outcome bool)
    (sk sk' : Item -> bool) (l : list Item) :
  (∀ x, iid x = id → sk' x = true) →
  (∀ x, iid x ≠ id → sk' x = sk x) →
  ∀ r,
  filterOutcome (fun x => match q x with
                          | Returns true => Returns (negb (sk x))
                          | other => other
                          end) l = Returns r →
  filterOutcome (fun x => match q x with
                          | Returns true => Returns (negb (sk' x))
                          | other => other
                          end) l
  = Returns (filter (fun x => iid x ≠ id) r).
Proof.
  intros Hid Hother. induction l as [| x l IH]; intros r Hr; cbn in *.
  - injection Hr as <-. reflexivity.
  - destruct (q x) as [[|] |] eqn:Hq; try discriminate.
    + destruct (filterOutcome _ l) as [r0 |] eqn:Hl; [| discriminate].
      rewrite (IH r0 eq_refl). injection Hr as <-.
      destruct (decide (iid x = id)) as [Hx | Hx].
      * rewrite (Hid x Hx). cbn [negb].
        destruct (sk x); cbn [negb]; [reflexivity |].
        now rewrite filter_cons_False by (intros Hn; now apply Hn).
      * rewrite (Hother x Hx). destruct (sk x); cbn [negb]; [reflexivity |].
        now rewrite filter_cons_True by exact Hx.
    + destruct (filterOutcome _ l) as [r0 |] eqn:Hl; [| discriminate].
      rewrite (IH r0 eq_refl). now injection Hr as <-.
Qed.

(** X16. Deleting a task from today's view removes exactly that task from
    the list shown: the tasks shown afterwards are those shown before
    without the one of the given id, in the same order. *)
Theorem deleteItem_hides_task (today now : Z) (id : string) (w : Widget)
    (c : Category) (shown : list Item) :
  tab (app w) = TabTask c →
  currentItems today now w = Returns shown →
  currentItems today now (deleteItem (to_date_string today) id w)
  = Returns (filter (fun x => iid x ≠ id) shown).
Proof.
  intros Htab Hshown.
  destruct (deleteItem_skips_for_today (to_date_string today) id w c Htab)
    as (Hskip & Hother & _ & Hitems & _).
  unfold currentItems in *.
  assert (Htab' : tab (app (deleteItem (to_date_string today) id w)) = TabTask c).
  { unfold deleteItem. now rewrite Htab. }
  rewrite Htab', Hitems. rewrite Htab in Hshown.
  eapply filterOutcome_without; [| | exact Hshown].
  - intros x <-. exact Hskip.
  - intros x Hx. apply Hother. now left.
Qed.

(** X17. [addItem] with a non-blank input on a task tab appends one task
    to the end of that tab's list and clears the input: the task carries
    the trimmed text and the clock reading as id, is incomplete, and has a
    daily schedule, so that it is due on every date. The other tab, the
    timers and the log are untouched. *)
Theorem addItem_appends_daily_task (nowId nowCreated nowAnchor : Z)
    (w : Widget) (c : Category) :
  tab (app w) = TabTask c →
  str_trim (input w) ≠ ""%string →
  let w' := addItem nowId nowCreated nowAnchor w in
  ∃ item,
    sel c (items (app w')) = sel c (items (app w)) ++ [item]
    ∧ iid item = pretty nowId
    ∧ itext item = str_trim (input w)
    ∧ completed item = false
    ∧ (∀ now date, isItemScheduledForDate now item date = Returns true)
    ∧ input w' = ""%string
    ∧ (∀ c', c' ≠ c → sel c' (items (app w')) = sel c' (items (app w)))
    ∧ timers (app w') = timers (app w)
    ∧ logs (app w') = logs (app w).
Proof.
  intros Htab Hinput w'. subst w'. unfold addItem.
  replace (String.eqb (str_trim (input w)) "") with false
    by (symmetry; now apply String.eqb_neq).
  rewrite Htab. eexists. cbn [app items setTaskHistory setItems input].
  rewrite sel_upd. split; [reflexivity |]. cbn.
  repeat split.
  intros c' Hc'. destruct c, c'; try reflexivity; contradiction.
Qed.

(** X18. [addItem] keeps the task history free of duplicates up to letter
    case: if no two entries of a tab's history agree in lower case before,
    none do after, and on a task tab with non-blank input the history of
    that tab then has an entry that agrees with the new text in lower
    case. *)
Theorem addItem_history_case_insensitive (nowId nowCreated nowAnchor : Z)
    (w : Widget) :
  let w' := addItem nowId nowCreated nowAnchor w in
  (∀ c, NoDup (str_lower <$> sel c (taskHistory (app w))) →
        NoDup (str_lower <$> sel c (taskHistory (app w'))))
  ∧ (∀ c, tab (app w) = TabTask c → str_trim (input w) ≠ ""%string →
          str_lower (str_trim (input w))
          ∈ str_lower <$> sel c (taskHistory (app w'))).
Proof.
  cbv zeta. unfold addItem.
  destruct (String.eqb (str_trim (input w)) "") eqn:Hblank.
  - apply String.eqb_eq in Hblank. split; [easy |]. intros c _ Hne.
    contradiction.
  - destruct (tab (app w)) as [activeTab |]; [| split; [easy | discriminate]].
    cbn [app taskHistory setTaskHistory].
    destruct (decide (str_lower (str_trim (input w))
                      ∈ map str_lower (sel activeTab (taskHistory (app w)))))
      as [Hin | Hin].
    + split; [easy |]. intros c [= <-] _. exact Hin.
    + split.
      * intros c Hnd. destruct activeTab, c; cbn in *; try exact Hnd;
          apply NoDup_cons; split; assumption.
      * intros c [= <-] _. rewrite sel_upd. cbn. now left.
Qed.

End SkipAndAdd.

Lemma deleteItem_hides_task_witness :
  currentItems (H := utcHost) (H0 := utcText) jan1_2024 jan1_2024
    (deleteItem (to_date_string (TextHost := utcText) jan1_2024)
       "1704067260000" (sampleWidget unsortedApp))
  = Returns (filter (fun x => iid x ≠ "1704067260000"%string)
               [doneTask; newTask]).
Proof.
  apply (deleteItem_hides_task (H := utcHost) (H0 := utcText) jan1_2024
           jan1_2024 "1704067260000" (sampleWidget unsortedApp) goals);
    reflexivity.
Defined.

Lemma addItem_appends_daily_task_witness :
  let w := handle (H := utcHost) (H0 := utcText) (EvInput "  Stretch " "")
             (sampleWidget unsortedApp) in
  ∃ item,
    sel goals (items (app (addItem (H := utcHost) (H0 := utcText)
                             (jan1_2024 + 120000) (jan1_2024 + 120000)
                             (jan1_2024 + 120000) w)))
    = [doneTask; newTask] ++ [item]
    ∧ iid item = "1704067320000"%string ∧ itext item = "Stretch"%string.
Proof.
  cbv zeta.
  destruct (addItem_appends_daily_task (H := utcHost) (H0 := utcText)
              (jan1_2024 + 120000) (jan1_2024 + 120000) (jan1_2024 + 120000)
              (handle (H := utcHost) (H0 := utcText) (EvInput "  Stretch " "")
                 (sampleWidget unsortedApp))
              goals eq_refl)
    as (item & Hl & Hid & Htext & _).
  - vm_compute. discriminate.
  - exists item. split; [exact Hl |]. split.
    + rewrite Hid. vm_compute. reflexivity.
    + rewrite Htext. vm_compute. reflexivity.
Defined.

Lemma addItem_history_case_insensitive_witness :
  let w := handle (H := utcHost) (H0 := utcText) (EvInput "READ" "")
             (setApp (setTaskHistory (mkPerTab ["Read"; "Walk"]%string [])
                        unsortedApp)
                (sampleWidget unsortedApp)) in
  sel goals (taskHistory (app (addItem (H := utcHost) (H0 := utcText)
                                 jan1_2024 jan1_2024 jan1_2024 w)))
    = ["Read"; "Walk"]%string
  ∧ NoDup (str_lower (TextHost := utcText)
             <$> sel goals (taskHistory (app (addItem (H := utcHost)
                   (H0 := utcText) jan1_2024 jan1_2024 jan1_2024 w)))).
Proof.
  cbv zeta. split; [vm_compute; reflexivity |].
  apply (proj1 (addItem_history_case_insensitive (H := utcHost)
                  (H0 := utcText) jan1_2024 jan1_2024 jan1_2024 _) goals).
  apply (bool_decide_unpack _). vm_compute. exact I.
Defined.

(* ===================================================================== *)
(** * Properties of the log view and of the persisted state               *)
(* ===================================================================== *)

Lemma filter_all {A} (P : A → Prop) `{∀ x, Decision (P x)} (l : list A) :
  Forall P l → filter P l = l.
Proof.
  induction 1 as [| x l Hx _ IH]; [reflexivity |].
  now rewrite filter_cons_True, IH.
Qed.

(** X19. In a log whose entry ids are pairwise distinct, [deleteLogEntry]
    with the id of an entry removes that entry and nothing else, and keeps
    the order of the others. *)
Theorem deleteLogEntry_removes_one (s : App) (e : LogEntry) :
  NoDup (leId <$> logs s) →
  e ∈ logs s →
  ∃ l1 l2, logs s = l1 ++ e :: l2
           ∧ logs (deleteLogEntry (leId e) s) = l1 ++ l2.
Proof.
  intros Hnd Hin. apply list_elem_of_split in Hin as (l1 & l2 & Hl).
  exists l1, l2. split; [exact Hl |].
  unfold deleteLogEntry. cbn. rewrite Hl in Hnd |- *.
  rewrite fmap_app, fmap_cons in Hnd.
  apply NoDup_app in Hnd as (_ & Hl1 & Hnd).
  apply NoDup_cons in Hnd as [Hl2 _].
  rewrite filter_app, filter_cons_False by (intros Hn; now apply Hn).
  rewrite !filter_all; [reflexivity | |]; apply Forall_forall; intros x Hx Heq.
  - apply Hl2. apply list_elem_of_fmap. now exists x.
  - apply (Hl1 (leId x)); [apply list_elem_of_fmap; now exists x |].
    rewrite Heq. now left.
Qed.

Lemma deleteLogEntry_removes_one_witness :
  let e := buildLogEntry jan1_2024 doneTask 0 goals in
  let e' := buildLogEntry (jan1_2024 + 5000) newTask 0 goals in
  ∃ l1 l2, logs (setLogs [e; e'] unsortedApp) = l1 ++ e' :: l2
           ∧ logs (deleteLogEntry (leId e') (setLogs [e; e'] unsortedApp))
             = l1 ++ l2.
Proof.
  cbv zeta.
  apply (deleteLogEntry_removes_one
           (setLogs [buildLogEntry jan1_2024 doneTask 0 goals;
                     buildLogEntry (jan1_2024 + 5000) newTask 0 goals]
              unsortedApp)).
  - apply (bool_decide_unpack _). vm_compute. exact I.
  - cbn. right. left.
Defined.

Lemma sumDurations_shift (l : list LogEntry) (a : Z) :
  foldl (fun sum entry => sum + durationSeconds entry) a l = a + sumDurations l.
Proof.
  unfold sumDurations. revert a. induction l as [| x l IH]; intros a.
  - cbn. lia.
  - cbn [foldl]. rewrite (IH (a + durationSeconds x)),
      (IH (0 + durationSeconds x)). lia.
Qed.

Lemma sumDurations_cons (x : LogEntry) (l : list LogEntry) :
  sumDurations (x :: l) = durationSeconds x + sumDurations l.
Proof. unfold sumDurations at 1. cbn. apply sumDurations_shift. Qed.

Lemma sumDurations_sublist (l1 l2 : list LogEntry) :
  l1 `sublist_of` l2 →
  Forall (fun e => 0 <= durationSeconds e) l2 →
  0 <= sumDurations l1 <= sumDurations l2.
Proof.
  induction 1 as [| x l1 l2 _ IH | x l1 l2 _ IH]; intros Hpos.
  - cbn. lia.
  - apply Forall_cons in Hpos as [Hx Hpos]. rewrite !sumDurations_cons.
    specialize (IH Hpos). lia.
  - apply Forall_cons in Hpos as [Hx Hpos]. rewrite sumDurations_cons.
    specialize (IH Hpos). lia.
Qed.

Lemma filter_sublist_impl {A} (P Q : A → Prop) `{∀ x, Decision (P x)}
    `{∀ x, Decision (Q x)} (l : list A) :
  (∀ x, P x → Q x) → filter P l `sublist_of` filter Q l.
Proof.
  intros Himpl. induction l as [| x l IH]; [constructor |].
  destruct (decide (P x)) as [Hp | Hp].
  - rewrite (filter_cons_True P) by exact Hp.
    rewrite (filter_cons_True Q) by auto. now constructor.
  - rewrite (filter_cons_False P) by exact Hp.
    destruct (decide (Q x)).
    + rewrite (filter_cons_True Q) by assumption. now constructor.
    + now rewrite (filter_cons_False Q) by assumption.
Qed.

Section LogView.
Context `{DateHost}.

Lemma filteredLogs_sublist (now : Z) (taskFilter : string)
    (timeFilter : TimeFilter) (entries : list LogEntry) :
  filteredLogs now taskFilter timeFilter entries `sublist_of` entries.
Proof.
  unfold filteredLogs.
  set (result := if String.eqb taskFilter "all" then entries else _).
  assert (Hres : result `sublist_of` entries).
  { subst result. repeat (destruct (String.eqb taskFilter _));
      [reflexivity | apply sublist_filter..]. }
  destruct timeFilter; try exact Hres;
    (etrans; [apply sublist_filter | exact Hres]).
Qed.

(** X20. The filtered log is a sub-list of the log, in the log's order. When
    no duration is negative, its total time is between 0 and the total of
    the whole log. With the same task filter, the entries of the last 7
    days are among those of the last 30 days. *)
Theorem filteredLogs_within_log (now : Z) (taskFilter : string)
    (timeFilter : TimeFilter) (entries : list LogEntry) :
  filteredLogs now taskFilter timeFilter entries `sublist_of` entries
  ∧ (Forall (fun e => 0 <= durationSeconds e) entries →
     0 <= sumDurations (filteredLogs now taskFilter timeFilter entries)
       <= sumDurations entries)
  ∧ filteredLogs now taskFilter F7d entries
      `sublist_of` filteredLogs now taskFilter F30d entries.
Proof.
  split; [apply filteredLogs_sublist |]. split.
  - intros Hpos. apply sumDurations_sublist; [apply filteredLogs_sublist | exact Hpos].
  - unfold filteredLogs. apply filter_sublist_impl.
    intros e. unfold date_ge. rewrite !Z.leb_le. lia.
Qed.

End LogView.

Lemma filteredLogs_within_log_witness :
  let entries := [buildLogEntry (jan1_2024 - 10 * msPerDay) doneTask 600 goals;
                  buildLogEntry (jan1_2024 - msPerDay) newTask 300 goals] in
  Forall (fun e => 0 <= durationSeconds e) entries
  ∧ 0 <= sumDurations (filteredLogs (H := utcHost) jan1_2024 "goals" F7d entries)
      <= sumDurations entries
  ∧ sumDurations (filteredLogs (H := utcHost) jan1_2024 "goals" F7d entries)
    = 300.
Proof.
  cbv zeta.
  assert (Hpos : Forall (fun e => 0 <= durationSeconds e)
            [buildLogEntry (jan1_2024 - 10 * msPerDay) doneTask 600 goals;
             buildLogEntry (jan1_2024 - msPerDay) newTask 300 goals]).
  { repeat constructor; cbn; lia. }
  split; [exact Hpos |]. split; [| reflexivity].
  exact (proj1 (proj2 (filteredLogs_within_log (H := utcHost) jan1_2024
                         "goals" F7d _)) Hpos).
Defined.

Section Deletion.
Context `{DateHost} `{TextHost}.

(** X21. [deleteTaskPermanently] erases the task and its history: no item
    of the tab and no log entry carries the id afterwards, so that the log
    filtered by that id is empty, and no entry of the tab's task history
    agrees with the text in lower case. The other tab's items and the
    timers, that of the deleted task included, are left as they are. *)
Theorem deleteTaskPermanently_erases (tabName : Category) (id text : string)
    (s : App) (now : Z) (timeFilter : TimeFilter) :
  let s' := deleteTaskPermanently tabName id text s in
  findById id (sel tabName (items s')) = None
  ∧ (∀ e, e ∈ logs s' ↔ e ∈ logs s ∧ itemId e ≠ id)
  ∧ (id ≠ "all"%string → id ≠ "goals"%string → id ≠ "waste"%string →
     filteredLogs now id timeFilter (logs s') = [])
  ∧ (∀ h, h ∈ sel tabName (taskHistory s') → str_lower h ≠ str_lower text)
  ∧ (∀ c, c ≠ tabName → sel c (items s') = sel c (items s))
  ∧ timers s' = timers s.
Proof.
  cbv zeta. unfold deleteTaskPermanently.
  cbn [items logs taskHistory timers setTaskHistory setLogs setItems].
  rewrite !sel_upd. split; [| split; [| split; [| split; [| split]]]].
  - unfold findById.
    destruct (list_find _ _) as [[i x] |] eqn:Hf; [| reflexivity].
    apply list_find_Some in Hf as (Hi & Hx & _).
    apply list_elem_of_lookup_2, list_elem_of_filter in Hi as [Hne _].
    contradiction.
  - intros e. rewrite list_elem_of_filter. tauto.
  - intros Hall Hgoals Hwaste. unfold filteredLogs.
    rewrite !(proj2 (String.eqb_neq _ _)) by assumption.
    rewrite list_filter_filter, filter_none
      by (apply Forall_forall; intros x _ [Heq Hne]; contradiction).
    now destruct timeFilter.
  - intros h Hh. now apply list_elem_of_filter in Hh as [Hne _].
  - intros c Hc. destruct c, tabName; try reflexivity; contradiction.
  - reflexivity.
Qed.

End Deletion.

(** X22. When the stored data has no task history, [loadStoredState]
    derives one: for each tab, the texts of the stored tasks of the tab and
    of the stored log entries of the tab, each text once. *)
Theorem loadStoredState_derives_history (storedItems : PerTab (list Item))
    (storedLogs : option (list LogEntry)) (lastReset : option string)
    (today : string) (c : Category) :
  let st := (loadStoredState (Data storedItems storedLogs None) lastReset today).1 in
  NoDup (sel c (ldHistory st))
  ∧ ∀ x, x ∈ sel c (ldHistory st)
         ↔ x ∈ itext <$> sel c storedItems
           ∨ ∃ e, e ∈ default [] storedLogs ∧ leTab e = c ∧ leText e = x.
Proof.
  cbv zeta. unfold loadStoredState.
  assert (Hhist : ∀ l,
    NoDup (derivedHistoryOf c l (default [] storedLogs))
    ∧ ∀ x, x ∈ derivedHistoryOf c l (default [] storedLogs)
           ↔ x ∈ itext <$> l
             ∨ ∃ e, e ∈ default [] storedLogs ∧ leTab e = c ∧ leText e = x).
  { intros l. unfold derivedHistoryOf. split; [apply setOrder_NoDup |].
    intros x. rewrite setOrder_elem, elem_of_app. split.
    - intros [[Hl | Hlog] _]; [now left | right].
      apply list_elem_of_fmap in Hlog as (e & -> & He).
      apply list_elem_of_filter in He as [Htab He]. now exists e.
    - intros Hx. split; [| apply not_elem_of_nil].
      destruct Hx as [Hl | (e & He & Htab & <-)]; [now left | right].
      apply list_elem_of_fmap. exists e. split; [reflexivity |].
      now apply list_elem_of_filter.
  }
  destruct (decide (lastReset ≠ Some today)); cbn; destruct c; cbn;
    apply Hhist.
Qed.

(** X23. Loading is idempotent within a day for every stored value on which
    parsing does not fail (nothing stored, or data that parses to the two
    item lists, with or without logs and task history): storing what a load
    returned and loading again on the same day returns the same state and
    leaves the stored date as it is, whether or not the first load reset the
    tasks. For data on which parsing fails the second load returns the same
    (empty) state as well, and sets the stored date to today. *)
Theorem loadStoredState_reload (stored : Stored) (lastReset : option string)
    (today : string) :
  let first := loadStoredState stored lastReset today in
  let again := loadStoredState
                 (Data (ldItems first.1) (Some (ldLogs first.1))
                    (Some (ldHistory first.1)))
                 first.2 today in
  again.1 = first.1
  ∧ again.2 = Some today
  ∧ (stored ≠ Malformed → again = first).
Proof.
  cbv zeta.
  assert (Hsame : ∀ its lgs hist, loadStoredState
            (Data its (Some lgs) (Some hist)) (Some today) today
            = (mkLoaded its lgs hist, Some today)).
  { intros its lgs hist. unfold loadStoredState.
    destruct (decide (Some today ≠ Some today)) as [Hn | _]; [now destruct Hn |].
    reflexivity. }
  destruct stored as [| | storedItems storedLogs storedHistory].
  - change (loadStoredState NoData lastReset today)
      with (emptyState, Some today).
    cbn [fst snd emptyState ldItems ldLogs ldHistory]. rewrite Hsame. easy.
  - change (loadStoredState Malformed lastReset today)
      with (emptyState, lastReset).
    cbn [fst snd emptyState ldItems ldLogs ldHistory].
    split; [| split; [| intros Hn; now destruct Hn]];
      unfold loadStoredState;
      destruct (decide (lastReset ≠ Some today)) as [Hne | Heq];
      try reflexivity; apply dec_stable in Heq; exact Heq.
  - assert (Hfirst : ∃ its,
              loadStoredState (Data storedItems storedLogs storedHistory)
                lastReset today
              = (mkLoaded its (default [] storedLogs)
                   (default
                      (mkPerTab
                         (derivedHistoryOf goals (pgoals storedItems)
                            (default [] storedLogs))
                         (derivedHistoryOf waste (pwaste storedItems)
                            (default [] storedLogs)))
                      storedHistory),
                 Some today)).
    { unfold loadStoredState.
      destruct (decide (lastReset ≠ Some today)) as [Hne | Heq].
      - eexists. reflexivity.
      - apply dec_stable in Heq. subst lastReset. eexists. reflexivity. }
    destruct Hfirst as [its ->]. cbn [fst snd ldItems ldLogs ldHistory].
    rewrite Hsame. easy.
Qed.

Lemma loadStoredState_reload_witness :
  let first := loadStoredState (Data (mkPerTab [doneTask; newTask] []) None None)
                 (Some "Sun Dec 31 2023"%string) "Mon Jan 01 2024" in
  Data (mkPerTab [doneTask; newTask] []) None None ≠ Malformed
  ∧ loadStoredState
      (Data (ldItems first.1) (Some (ldLogs first.1)) (Some (ldHistory first.1)))
      first.2 "Mon Jan 01 2024"
    = first.
Proof.
  cbv zeta. split; [discriminate |].
  apply (loadStoredState_reload
           (Data (mkPerTab [doneTask; newTask] []) None None)
           (Some "Sun Dec 31 2023"%string) "Mon Jan 01 2024").
  discriminate.
Defined.

(* ===================================================================== *)
(** * Further properties of the recurrence evaluator                      *)
(* ===================================================================== *)

Section MoreRecurrence.
Context `{DateHost}.

(** X24. The evaluator raises in one case only: a specific-date rule with
    a configured date, asked about a date whose local midnight is not a
    valid date. In every other case it returns. *)
Theorem isItemScheduledForDate_throws_iff (now : Z) (item : Item)
    (date : JSDate) :
  isItemScheduledForDate now item date = Throws
  ↔ ∃ sch, schedule item = Some sch
           ∧ stype sch = "specific-date"%string
           ∧ truthy (sdate sch) = true
           ∧ getDateOnly date = None.
Proof.
  unfold isItemScheduledForDate.
  destruct (schedule item) as [sch |];
    [| split; [discriminate | intros (? & ? & _); discriminate]].
  destruct (String.eqb (stype sch) "specific-date") eqn:Hty.
  - apply String.eqb_eq in Hty. rewrite Hty. cbn.
    destruct (truthy (sdate sch)) eqn:Hdate.
    + unfold toISODate. destruct (getDateOnly date) as [t |] eqn:Hd.
      * split; [discriminate | intros (s2 & [= <-] & _ & _ & Hn); discriminate].
      * split; [intros _; now exists sch | reflexivity].
    + split; [discriminate |].
      intros (s2 & [= <-] & _ & Ht & _). congruence.
  - split.
    + repeat match goal with
             | |- context [String.eqb (stype sch) ?k] =>
                 destruct (String.eqb (stype sch) k)
             end; discriminate.
    + intros (s2 & [= <-] & Hs & _). apply String.eqb_neq in Hty. contradiction.
Qed.

(** X25. On a date whose weekday number is in 0..6, exactly one of a
    weekdays rule and a weekends rule is due. *)
Theorem weekdays_weekends_complement (now : Z) (item item' : Item)
    (sch sch' : Schedule) (date : JSDate) (t : Z) :
  schedule item = Some sch → stype sch = "weekdays"%string →
  schedule item' = Some sch' → stype sch' = "weekends"%string →
  getDateOnly date = Some t →
  0 <= local_day t <= 6 →
  ∃ due,
    isItemScheduledForDate now item date = Returns due
    ∧ isItemScheduledForDate now item' date = Returns (negb due).
Proof.
  intros Hsch Hty Hsch' Hty' Hdate Hday. unfold isItemScheduledForDate.
  rewrite Hsch, Hsch', Hty, Hty', Hdate. cbn.
  eexists. split; [reflexivity |]. f_equal.
  destruct (Z.leb_spec 1 (local_day t)), (Z.leb_spec (local_day t) 5),
    (Z.eqb_spec (local_day t) 0), (Z.eqb_spec (local_day t) 6);
    cbn; try reflexivity; lia.
Qed.

(** X26. A weekly or biweekly rule is never due on a date before its
    anchor date, whatever weekdays it lists. *)
Theorem weekly_not_due_before_anchor (now : Z) (item : Item) (sch : Schedule)
    (date : JSDate) (t a : Z) :
  schedule item = Some sch →
  stype sch = "weekly"%string ∨ stype sch = "biweekly"%string →
  getDateOnly date = Some t →
  getDateOnly (getAnchorDate now item) = Some a →
  t < a →
  isItemScheduledForDate now item date = Returns false.
Proof.
  intros Hsch Hty Hdate Hanchor Hlt. unfold isItemScheduledForDate.
  rewrite Hsch, Hdate, Hanchor.
  assert (Hneg : (t - a) / msPerDay / 7 < 0).
  { assert ((t - a) / msPerDay < 0)
      by (apply Z.div_lt_upper_bound; unfold msPerDay; lia).
    apply Z.div_lt_upper_bound; lia. }
  assert (Hge : ge_zero (floor_div (getTime (Some ((t - a) / msPerDay))) 7) = false).
  { cbn. apply Z.leb_gt. exact Hneg. }
  destruct Hty as [-> | ->]; cbn [String.eqb Ascii.eqb Bool.eqb andb];
    cbn [getTime] in Hge |- *; unfold getTime in Hge; rewrite Hge; reflexivity.
Qed.

(** X27. Whenever a biweekly rule is due, the weekly rule with the same
    weekdays and anchor is due: biweekly occurrences are weekly ones. *)
Theorem biweekly_due_implies_weekly (now : Z) (item item' : Item)
    (sch : Schedule) (date : JSDate) :
  schedule item = Some sch → stype sch = "biweekly"%string →
  schedule item'
    = Some (mkSchedule "weekly" (daysOfWeek sch) (sdate sch) (anchorDate sch)) →
  createdDate item' = createdDate item →
  isItemScheduledForDate now item date = Returns true →
  isItemScheduledForDate now item' date = Returns true.
Proof.
  intros Hsch Hty Hsch' Hcreated.
  assert (Hanchor : getAnchorDate now item' = getAnchorDate now item).
  { unfold getAnchorDate. rewrite Hsch, Hsch', Hcreated. reflexivity. }
  unfold isItemScheduledForDate. rewrite Hsch, Hsch', Hanchor.
  cbn [stype daysOfWeek sdate anchorDate]. rewrite Hty.
  cbn [String.eqb Ascii.eqb Bool.eqb andb].
  intros [= Hdue]. f_equal.
  apply andb_true_iff in Hdue as [Hdue Hdays].
  apply andb_true_iff in Hdue as [Hweeks _].
  now rewrite Hweeks, Hdays.
Qed.

(** X28. The modulo rules alternate: of two consecutive days, exactly one
    is an occurrence of an every-other-day rule, and an every-3-days rule
    that is due on a day is not due on the next two days and is due again
    on the third. (Consecutive days: local midnights 24 hours apart.) *)
Theorem modulo_rules_alternate (now : Z) (item : Item) (sch : Schedule)
    (d0 d1 d2 d3 : JSDate) (t a : Z) :
  schedule item = Some sch →
  getDateOnly (getAnchorDate now item) = Some a →
  getDateOnly d0 = Some t →
  getDateOnly d1 = Some (t + msPerDay) →
  getDateOnly d2 = Some (t + 2 * msPerDay) →
  getDateOnly d3 = Some (t + 3 * msPerDay) →
  (stype sch = "every-other-day"%string →
   ∃ due, isItemScheduledForDate now item d0 = Returns due
          ∧ isItemScheduledForDate now item d1 = Returns (negb due))
  ∧ (stype sch = "every-3-days"%string →
     isItemScheduledForDate now item d0 = Returns true →
     isItemScheduledForDate now item d1 = Returns false
     ∧ isItemScheduledForDate now item d2 = Returns false
     ∧ isItemScheduledForDate now item d3 = Returns true).
Proof.
  intros Hsch Hanchor H0' H1' H2' H3'. unfold isItemScheduledForDate.
  rewrite Hsch, Hanchor, H0', H1', H2', H3'. cbn [getTime].
  set (d := (t - a) / msPerDay).
  assert (Hd1 : (t + msPerDay - a) / msPerDay = d + 1).
  { subst d. replace (t + msPerDay - a) with (t - a + 1 * msPerDay) by lia.
    now rewrite Z.div_add by (unfold msPerDay; lia). }
  assert (Hd2 : (t + 2 * msPerDay - a) / msPerDay = d + 2).
  { subst d. replace (t + 2 * msPerDay - a) with (t - a + 2 * msPerDay) by lia.
    now rewrite Z.div_add by (unfold msPerDay; lia). }
  assert (Hd3 : (t + 3 * msPerDay - a) / msPerDay = d + 3).
  { subst d. replace (t + 3 * msPerDay - a) with (t - a + 3 * msPerDay) by lia.
    now rewrite Z.div_add by (unfold msPerDay; lia). }
  unfold getTime. rewrite Hd1, Hd2, Hd3. clear Hd1 Hd2 Hd3. clearbody d.
  assert (Hrem : ∀ x k, 0 < k → (Z.rem x k =? 0) = (x mod k =? 0)).
  { intros x k Hk. destruct (Z.eqb_spec (Z.rem x k) 0) as [Hr | Hr],
      (Z.eqb_spec (x mod k) 0) as [Hm | Hm]; try reflexivity.
    - apply Z.rem_divide in Hr; [| lia]. apply Z.mod_divide in Hr; [| lia].
      contradiction.
    - apply Z.mod_divide in Hm; [| lia]. apply Z.rem_divide in Hm; [| lia].
      contradiction. }
  split; intros Hty; rewrite Hty; cbn; rewrite !Hrem by lia.
  - eexists. split; [reflexivity |]. f_equal.
    destruct (Z.eqb_spec (d mod 2) 0), (Z.eqb_spec ((d + 1) mod 2) 0);
      cbn; try reflexivity; exfalso; Z.div_mod_to_equations; lia.
  - intros [= Hdue]. apply Z.eqb_eq in Hdue.
    repeat split; f_equal;
      [apply Z.eqb_neq | apply Z.eqb_neq | apply Z.eqb_eq];
      Z.div_mod_to_equations; lia.
Qed.

End MoreRecurrence.

Lemma weekdays_weekends_complement_witness :
  let wd := sampleItem (Some (mkSchedule "weekdays" None None None)) in
  let we := sampleItem (Some (mkSchedule "weekends" None None None)) in
  ∃ due,
    isItemScheduledForDate (H := utcHost) jan1_2024 wd
      (Some (jan1_2024 + 5 * msPerDay + 3600000)) = Returns due
    ∧ isItemScheduledForDate (H := utcHost) jan1_2024 we
        (Some (jan1_2024 + 5 * msPerDay + 3600000)) = Returns (negb due).
Proof.
  cbv zeta.
  apply (weekdays_weekends_complement (H := utcHost) jan1_2024 _ _
           (mkSchedule "weekdays" None None None)
           (mkSchedule "weekends" None None None)
           (Some (jan1_2024 + 5 * msPerDay + 3600000))
           (jan1_2024 + 5 * msPerDay));
    try reflexivity.
  vm_compute. split; discriminate.
Defined.

Lemma weekly_not_due_before_anchor_witness :
  isItemScheduledForDate (H := utcHost) jan1_2024
    (sampleItem (Some (mkSchedule "weekly" None None (Some "2024-01-08"%string))))
    (Some jan1_2024) = Returns false.
Proof.
  apply (weekly_not_due_before_anchor (H := utcHost) jan1_2024 _
           (mkSchedule "weekly" None None (Some "2024-01-08"%string))
           (Some jan1_2024) jan1_2024 (jan1_2024 + 7 * msPerDay));
    first [reflexivity | now left].
Defined.

Lemma biweekly_due_implies_weekly_witness :
  isItemScheduledForDate (H := utcHost) jan1_2024
    (sampleItem (Some (mkSchedule "weekly" None None (Some "2024-01-01"%string))))
    (Some (jan1_2024 + 14 * msPerDay)) = Returns true.
Proof.
  apply (biweekly_due_implies_weekly (H := utcHost) jan1_2024
           (sampleItem (Some (mkSchedule "biweekly" None None
                                (Some "2024-01-01"%string))))
           _ (mkSchedule "biweekly" None None (Some "2024-01-01"%string)));
    reflexivity.
Defined.

Lemma modulo_rules_alternate_witness :
  let item := sampleItem (Some (mkSchedule "every-3-days" None None
                                  (Some "2024-01-01"%string))) in
  isItemScheduledForDate (H := utcHost) jan1_2024 item
    (Some (jan1_2024 + 6 * msPerDay)) = Returns true
  ∧ isItemScheduledForDate (H := utcHost) jan1_2024 item
      (Some (jan1_2024 + 7 * msPerDay)) = Returns false
  ∧ isItemScheduledForDate (H := utcHost) jan1_2024 item
      (Some (jan1_2024 + 8 * msPerDay)) = Returns false
  ∧ isItemScheduledForDate (H := utcHost) jan1_2024 item
      (Some (jan1_2024 + 9 * msPerDay)) = Returns true.
Proof.
  cbv zeta.
  assert (Hdue : isItemScheduledForDate (H := utcHost) jan1_2024
            (sampleItem (Some (mkSchedule "every-3-days" None None
                                 (Some "2024-01-01"%string))))
            (Some (jan1_2024 + 6 * msPerDay)) = Returns true)
    by (vm_compute; reflexivity).
  split; [exact Hdue |].
  refine (proj2 (modulo_rules_alternate (H := utcHost) jan1_2024
            (sampleItem (Some (mkSchedule "every-3-days" None None
                                 (Some "2024-01-01"%string))))
            (mkSchedule "every-3-days" None None (Some "2024-01-01"%string))
            (Some (jan1_2024 + 6 * msPerDay)) (Some (jan1_2024 + 7 * msPerDay))
            (Some (jan1_2024 + 8 * msPerDay)) (Some (jan1_2024 + 9 * msPerDay))
            (jan1_2024 + 6 * msPerDay) jan1_2024
            eq_refl _ _ _ _ _) eq_refl Hdue);
    vm_compute; reflexivity.
Defined.

(* ===================================================================== *)
(** * Properties of the formatting of durations                           *)
(* ===================================================================== *)

Lemma colon_split (s1 s2 a b : string) :
  ":"%char ∉ list_ascii_of_string s1 →
  ":"%char ∉ list_ascii_of_string s2 →
  s1 +:+ ":" +:+ a = s2 +:+ ":" +:+ b → s1 = s2 ∧ a = b.
Proof.
  revert s2. induction s1 as [| c1 s1 IH]; intros [| c2 s2] H1 H2 Heq;
    cbn in H1, H2, Heq.
  - injection Heq as Hab. now subst.
  - injection Heq as Hc _. subst c2. destruct H2. now left.
  - injection Heq as Hc _. subst c1. destruct H1. now left.
  - injection Heq as Hc Heq. apply not_elem_of_cons in H1 as [_ H1].
    apply not_elem_of_cons in H2 as [_ H2].
    destruct (IH s2 H1 H2 Heq) as [Hs Hab]. now subst.
Qed.

Lemma string_length_app (s1 s2 : string) :
  String.length (s1 +:+ s2) = (String.length s1 + String.length s2)%nat.
Proof.
  induction s1 as [| c s1 IH]; [reflexivity |].
  change (String c s1 +:+ s2) with (String c (s1 +:+ s2)).
  cbn [String.length Nat.add]. now f_equal.
Qed.

Lemma pretty_N_char_not_colon (x : N) : pretty_N_char x ≠ ":"%char.
Proof. unfold pretty_N_char. repeat case_match; discriminate. Qed.

Lemma pretty_N_go_colon_free (x : N) :
  ∀ s, ":"%char ∉ list_ascii_of_string s →
       ":"%char ∉ list_ascii_of_string (pretty_N_go x s).
Proof.
  induction (N.lt_wf_0 x) as [x _ IH]; intros s Hs.
  destruct (decide (x = 0)%N) as [-> | Hx].
  - now rewrite pretty_N_go_0.
  - rewrite pretty_N_go_step by lia. apply IH.
    + apply N.div_lt; lia.
    + cbn. apply not_elem_of_cons. split; [| exact Hs].
      intros Hc. symmetry in Hc. now apply pretty_N_char_not_colon in Hc.
Qed.

Lemma pretty_Z_colon_free (t : Z) :
  0 <= t → ":"%char ∉ list_ascii_of_string (pretty t).
Proof.
  intros Ht. destruct t as [| p | p]; [| | lia].
  - cbn. apply not_elem_of_cons. split; [discriminate | apply not_elem_of_nil].
  - unfold pretty, pretty_Z, pretty, pretty_positive, pretty, pretty_N.
    rewrite decide_False by discriminate.
    apply pretty_N_go_colon_free. apply not_elem_of_nil.
Qed.

(** The two-character renderings of 0..59. *)
Lemma pad2_table :
  Forall (fun n : nat =>
            String.length (padStart 2 (pretty (Z.of_nat n))) = 2%nat
            ∧ ":"%char ∉ list_ascii_of_string (padStart 2 (pretty (Z.of_nat n))))
         (seq 0 60).
Proof. apply (bool_decide_unpack _). vm_compute. exact I. Qed.

Lemma pad2_inj_table :
  Forall (fun n : nat =>
            Forall (fun m : nat =>
                      padStart 2 (pretty (Z.of_nat n))
                      = padStart 2 (pretty (Z.of_nat m)) → n = m)
                   (seq 0 60))
         (seq 0 60).
Proof. apply (bool_decide_unpack _). vm_compute. exact I. Qed.

Lemma below_60 (x : Z) : 0 <= x < 60 → Z.to_nat x ∈ seq 0 60.
Proof. intros Hx. apply elem_of_seq. lia. Qed.

Lemma pad2_shape (x : Z) :
  0 <= x < 60 →
  String.length (padStart 2 (pretty x)) = 2%nat
  ∧ ":"%char ∉ list_ascii_of_string (padStart 2 (pretty x)).
Proof.
  intros Hx. pose proof pad2_table as Htab. rewrite Forall_forall in Htab.
  specialize (Htab _ (below_60 x Hx)). now rewrite Z2Nat.id in Htab by lia.
Qed.

Lemma pad2_inj (x y : Z) :
  0 <= x < 60 → 0 <= y < 60 →
  padStart 2 (pretty x) = padStart 2 (pretty y) → x = y.
Proof.
  intros Hx Hy Heq. pose proof pad2_inj_table as Htab.
  rewrite Forall_forall in Htab. specialize (Htab _ (below_60 x Hx)).
  rewrite Forall_forall in Htab. specialize (Htab _ (below_60 y Hy)).
  rewrite !Z2Nat.id in Htab by lia. specialize (Htab Heq). lia.
Qed.

(** X29. [formatTime] shows different non-negative numbers of seconds
    differently. *)
Theorem formatTime_injective (s1 s2 : Z) :
  0 <= s1 → 0 <= s2 → formatTime s1 = formatTime s2 → s1 = s2.
Proof.
  intros H1 H2 Heq. unfold formatTime in Heq.
  apply colon_split in Heq as [Hmins Hsecs];
    [| apply pretty_Z_colon_free; Z.div_mod_to_equations; lia..].
  apply (inj pretty) in Hmins.
  apply pad2_inj in Hsecs; [| Z.quot_rem_to_equations; lia..].
  Z.div_mod_to_equations. Z.quot_rem_to_equations. lia.
Qed.

Lemma formatTime_injective_witness :
  0 <= 125 ∧ formatTime 125 = "2:05"%string
  ∧ (formatTime 125 = formatTime 125 → 125 = 125).
Proof.
  split; [lia |]. split; [reflexivity |].
  apply (formatTime_injective 125 125); lia.
Defined.

(** X30. [formatDuration] shows different non-negative numbers of seconds
    differently, and below one hour it shows what [formatTime] shows. *)
Theorem formatDuration_injective (s1 s2 : Z) :
  0 <= s1 → 0 <= s2 →
  (formatDuration s1 = formatDuration s2 → s1 = s2)
  ∧ (s1 < 3600 → formatDuration s1 = formatTime s1).
Proof.
  intros H1 H2. split.
  - unfold formatDuration.
    assert (Hm : ∀ s, 0 <= s → 0 <= Z.rem s 3600 / 60 < 60).
    { intros s Hs. Z.quot_rem_to_equations. Z.div_mod_to_equations. lia. }
    assert (Hs : ∀ s, 0 <= s → 0 <= Z.rem s 60 < 60).
    { intros s Hs. Z.quot_rem_to_equations. lia. }
    destruct (Z.ltb_spec 0 (s1 / 3600)) as [Hh1 | Hh1],
             (Z.ltb_spec 0 (s2 / 3600)) as [Hh2 | Hh2]; intros Heq.
    + apply colon_split in Heq as [Hhrs Hrest];
        [| apply pretty_Z_colon_free; lia..].
      apply (inj pretty) in Hhrs.
      apply colon_split in Hrest as [Hmins Hsecs];
        [| apply pad2_shape; auto..].
      apply pad2_inj in Hmins; [| auto..].
      apply pad2_inj in Hsecs; [| auto..].
      revert Hhrs Hmins Hsecs.
      Z.quot_rem_to_equations. Z.div_mod_to_equations. lia.
    + apply colon_split in Heq as [_ Hrest];
        [| apply pretty_Z_colon_free; try lia; apply Hm; lia..].
      apply (f_equal String.length) in Hrest.
      rewrite !string_length_app in Hrest.
      rewrite !(proj1 (pad2_shape _ (Hm _ H1))) in Hrest.
      rewrite (proj1 (pad2_shape _ (Hs _ H1))) in Hrest.
      rewrite (proj1 (pad2_shape _ (Hs _ H2))) in Hrest.
      cbn in Hrest. lia.
    + apply colon_split in Heq as [_ Hrest];
        [| apply pretty_Z_colon_free; try lia; apply Hm; lia..].
      apply (f_equal String.length) in Hrest.
      rewrite !string_length_app in Hrest.
      rewrite !(proj1 (pad2_shape _ (Hm _ H2))) in Hrest.
      rewrite (proj1 (pad2_shape _ (Hs _ H1))) in Hrest.
      rewrite (proj1 (pad2_shape _ (Hs _ H2))) in Hrest.
      cbn in Hrest. lia.
    + apply colon_split in Heq as [Hmins Hsecs];
        [| apply pretty_Z_colon_free; apply Hm; lia..].
      apply (inj pretty) in Hmins.
      apply pad2_inj in Hsecs; [| auto..].
      revert Hmins Hsecs.
      Z.quot_rem_to_equations. Z.div_mod_to_equations. lia.
  - intros Hlt. unfold formatDuration, formatTime.
    replace (0 <? s1 / 3600) with false
      by (symmetry; apply Z.ltb_ge; Z.div_mod_to_equations; lia).
    replace (Z.rem s1 3600) with s1
      by (Z.quot_rem_to_equations; lia).
    reflexivity.
Qed.

Lemma formatDuration_injective_witness :
  formatDuration 3725 = "1:02:05"%string
  ∧ formatDuration 125 = formatTime 125.
Proof.
  split; [reflexivity |].
  apply (proj2 (formatDuration_injective 125 125 ltac:(lia) ltac:(lia))). lia.
Defined.
